(** * pyvax-cli: contract state abstraction and transaction submission

    A shallow embedding of the Python sources of the repository:

    - [contracts/Counter.py], [contracts/SimpleStorage.py],
      [my_project/contracts/BeginnerToken.py], [StakeToken.py], [Defi.py],
      [mint.py]: the toy contracts written against [PySmartContract];
    - [examples/stake_token_examples.py] ([StakeTokenInteractor.send_transaction])
      and [test_stake_transactions.py]: the scripts that build, sign, broadcast
      and confirm transactions through web3.

    Python integers are unbounded, hence [Z]; a [dict] keyed by addresses is a
    [gmap string Z]; a method that mutates [self] and may raise is a function
    [state -> result * state] in the monad [Py.M]. *)

From Stdlib Require Import ZArith Lia Ascii String.
From stdpp Require Import base option list strings gmap fin_maps.

Local Open Scope Z_scope.

(** ** Python: exceptions and methods over a mutable receiver *)

Module Py.

(** The exceptions the modelled code can raise: [raise Exception(msg)] in the
    contracts, [KeyError] of a [dict] subscript on an absent key, the
    [OverflowError] of formatting a number, and the errors web3 and
    eth_account raise to the scripts. The scripts never look
    inside these: they let them propagate or print them. *)
Inductive exn : Type :=
| Exception (msg : string)
| KeyError (key : string)
| ConnectionError                (* transient failure to reach the node *)
| NodeRejected (reason : string) (* the node answered and refused the request *)
| SigningError                   (* [Account.sign_transaction] failed *)
| TimeExhausted (tx_hash timeout : Z)
    (* [wait_for_transaction_receipt] gave up: "Transaction [tx_hash] is not
       in the chain after [timeout] seconds" *)
| OverflowError                  (* "int too large to convert to float" *)
| MismatchedABI (fn : string).
    (* the arguments given to contract function [fn] do not fit its ABI *)

Inductive result (A : Type) : Type :=
| Ok (a : A)
| Raise (e : exn).
Arguments Ok {A} a.
Arguments Raise {A} e.

(** A method body: runs on the receiver's state, returns or raises, and
    leaves the (possibly mutated) state behind. A raise keeps the mutations
    made before it, as in Python. *)
Definition M (S A : Type) : Type := S -> result A * S.

Definition ret {S A} (a : A) : M S A := fun s => (Ok a, s).

Definition bind {S A B} (m : M S A) (k : A -> M S B) : M S B :=
  fun s => match m s with
           | (Ok a, s') => k a s'
           | (Raise e, s') => (Raise e, s')
           end.

Definition raise {S A} (e : exn) : M S A := fun s => (Raise e, s).

Definition gets {S A} (f : S -> A) : M S A := fun s => (Ok (f s), s).

Definition modify {S} (f : S -> S) : M S unit := fun s => (Ok tt, f s).

(** [try: body except Exception as e: handler(e)] *)
Definition try_except {S A} (body : M S A) (handler : exn -> M S A) : M S A :=
  fun s => match body s with
           | (Ok a, s') => (Ok a, s')
           | (Raise e, s') => handler e s'
           end.

Definition is_ok {A} (r : result A) : bool :=
  match r with Ok _ => true | Raise _ => false end.

(** [if cond: body] with no [else]. *)
Definition when {S} (cond : bool) (body : M S unit) : M S unit :=
  if cond then body else ret tt.

(** [d.get(key, default)] on a dict keyed by strings. *)
Definition dict_get (d : gmap string Z) (key : string) (default : Z) : Z :=
  match d !! key with
  | Some v => v
  | None => default
  end.

(** [sum(d.values())] *)
Definition dict_sum (d : gmap string Z) : Z :=
  map_fold (fun _ v acc => v + acc) 0 d.

End Py.

Import Py.

Declare Scope py_scope.
Delimit Scope py_scope with py.
Notation "x <- m ;; k" := (Py.bind m (fun x => k))
  (at level 100, m at next level, right associativity) : py_scope.
Notation "m ;; k" := (Py.bind m (fun _ => k))
  (at level 100, right associativity) : py_scope.
Local Open Scope py_scope.

(** ** PySmartContract: the base class of every contract *)

Module PySmartContract.

(** A Python value that travels in an event payload or is returned by a
    contract method. *)
Inductive value : Type :=
| VInt (n : Z)
| VStr (s : string)
| VNone.

(** Modelled from the spec: the decorators are not in the source tree. A
    callable operation carries one of two tags: [@view_function] is [Read],
    [@public_function] is [Write]. *)
Inductive visibility : Type := Read | Write.

(** Modelled from the spec: [msg_sender] and [block_number] are not in the
    source tree. What the contract asks mid-method, [self.msg_sender()] and
    [self.block_number()], is the context of the current call, passed
    explicitly to every invocation. *)
Record context : Type := {
  msg_sender : string;
  block_number : Z
}.

(** A deployed contract instance: its named slots and the ordered log of
    [(name, payload)] pairs it has emitted. *)
Record instance (Slots : Type) : Type := {
  slots : Slots;
  events : list (string * list value)
}.
Arguments slots {Slots} _.
Arguments events {Slots} _.

Section Base.
Context {Slots : Type}.

(** Modelled from the spec: [PySmartContract.__init__] and [state_var] are
    not in the source tree. A slot is created with its default value at
    construction; the event log starts empty. *)
Definition construct (defaults : Slots) : instance Slots :=
  {| slots := defaults; events := [] |}.

(** [self.x]: read a slot. *)
Definition read {A} (proj : Slots -> A) : M (instance Slots) A :=
  gets (fun i => proj (slots i)).

(** [self.x = v]: write a slot ([upd] rebuilds the record around [v]). *)
Definition write (upd : Slots -> Slots) : M (instance Slots) unit :=
  modify (fun i => {| slots := upd (slots i); events := events i |}).

(** Modelled from the spec: [PySmartContract.event] is not in the source
    tree. The event log is an ordered, append-only sequence of
    [(name, payload)] pairs. *)
Definition event (name : string) (payload : list value)
  : M (instance Slots) unit :=
  modify (fun i => {| slots := slots i;
                      events := events i ++ [(name, payload)] |}).

(** Modelled from the spec: [PySmartContract.require] is not in the source
    tree. A business-rule violation is an exception carrying the message. *)
Definition require (cond : bool) (msg : string) : M (instance Slots) unit :=
  if cond then ret tt else raise (Exception msg).
End Base.

End PySmartContract.

Import PySmartContract.

(** ** contracts/Counter.py *)

Module Counter.

Record state : Type := { count : Z }.

Definition set_count (v : Z) (_ : state) : state := {| count := v |}.

Definition __init__ : instance state := construct {| count := 0 |}.

Definition increment : M (instance state) unit :=
  c <- read count ;;
  write (set_count (c + 1)) ;;
  c' <- read count ;;
  event "Incremented" [VInt c'].

Definition decrement : M (instance state) unit :=
  c <- read count ;;
  if 0 <? c then
    write (set_count (c - 1)) ;;
    c' <- read count ;;
    event "Decremented" [VInt c']
  else ret tt.

Definition get_count : M (instance state) Z := read count.

Definition reset : M (instance state) unit :=
  write (set_count 0) ;;
  event "Reset" [].

Inductive op : Type := Increment | Decrement | GetCount | Reset.

Definition tag (o : op) : visibility :=
  match o with
  | GetCount => Read
  | Increment | Decrement | Reset => Write
  end.

Definition call (o : op) : M (instance state) value :=
  match o with
  | Increment => increment ;; ret VNone
  | Decrement => decrement ;; ret VNone
  | GetCount => n <- get_count ;; ret (VInt n)
  | Reset => reset ;; ret VNone
  end.

(** Run a sequence of calls one after the other, as successive
    transactions against the same instance. *)
Fixpoint run (ops : list op) (i : instance state) : instance state :=
  match ops with
  | [] => i
  | o :: rest => run rest (snd (call o i))
  end.

End Counter.


(** ** contracts/SimpleStorage.py *)

Module SimpleStorage.

Record state : Type := { stored_data : Z }.

Definition set_stored_data (v : Z) (_ : state) : state := {| stored_data := v |}.

Definition __init__ : instance state := construct {| stored_data := 0 |}.

Definition set (value : Z) : M (instance state) unit :=
  write (set_stored_data value) ;;
  event "DataStored" [VInt value].

Definition get : M (instance state) Z := read stored_data.

Inductive op : Type := Set_ (value : Z) | Get.

Definition tag (o : op) : visibility :=
  match o with
  | Get => Read
  | Set_ _ => Write
  end.

Definition call (o : op) : M (instance state) value :=
  match o with
  | Set_ v => set v ;; ret VNone
  | Get => n <- get ;; ret (VInt n)
  end.

End SimpleStorage.

(** ** my_project/contracts/BeginnerToken.py *)

Module BeginnerToken.

Record state : Type := {
  name : string;
  symbol : string;
  total_supply : Z;
  balances : gmap string Z;
  owner : string
}.

Definition set_total_supply (v : Z) (s : state) : state :=
  {| name := name s; symbol := symbol s; total_supply := v;
     balances := balances s; owner := owner s |}.

Definition set_balances (v : gmap string Z) (s : state) : state :=
  {| name := name s; symbol := symbol s; total_supply := total_supply s;
     balances := v; owner := owner s |}.

(** [self.balances.get(key, 0)] *)
Definition balances_get (key : string) : M (instance state) Z :=
  b <- read balances ;; ret (dict_get b key 0).

(** [self.balances[key]] as an expression: [KeyError] on an absent key. *)
Definition balances_getitem (key : string) : M (instance state) Z :=
  b <- read balances ;;
  match b !! key with
  | Some v => ret v
  | None => raise (KeyError key)
  end.

(** [self.balances[key] = v] *)
Definition balances_setitem (key : string) (v : Z) : M (instance state) unit :=
  b <- read balances ;; write (set_balances (<[key := v]> b)).

(** The creator of the contract receives the whole supply. *)
Definition __init__ (ctx : context) : instance state :=
  let self :=
    construct {| name := "BeginnerCoin"; symbol := "BGN";
                 total_supply := 1000000; balances := ∅;
                 owner := msg_sender ctx |} in
  snd ((o <- read owner ;;
        t <- read total_supply ;;
        balances_setitem o t) self).

Definition get_name : M (instance state) string := read name.
Definition get_symbol : M (instance state) string := read symbol.
Definition get_total_supply : M (instance state) Z := read total_supply.

Definition balance_of (account : string) : M (instance state) Z :=
  balances_get account.

Definition transfer (ctx : context) (to : string) (amount : Z)
  : M (instance state) unit :=
  let sender := msg_sender ctx in
  bal <- balances_get sender ;;
  when (bal <? amount) (raise (Exception "Not enough tokens!")) ;;
  when (amount <=? 0) (raise (Exception "Amount must be positive!")) ;;
  from_bal <- balances_get sender ;;
  balances_setitem sender (from_bal - amount) ;;
  to_bal <- balances_get to ;;
  balances_setitem to (to_bal + amount) ;;
  event "Transfer" [VStr sender; VStr to; VInt amount].

Definition mint (ctx : context) (amount : Z) : M (instance state) unit :=
  let sender := msg_sender ctx in
  o <- read owner ;;
  when (bool_decide (sender ≠ o)) (raise (Exception "Only owner can mint tokens!")) ;;
  when (amount <=? 0) (raise (Exception "Amount must be positive!")) ;;
  t <- read total_supply ;;
  write (set_total_supply (t + amount)) ;;
  o' <- read owner ;;
  owner_bal <- balances_get o' ;;
  balances_setitem o' (owner_bal + amount) ;;
  o'' <- read owner ;;
  event "Mint" [VStr o''; VInt amount].

Definition burn (ctx : context) (amount : Z) : M (instance state) unit :=
  let sender := msg_sender ctx in
  bal <- balances_get sender ;;
  when (bal <? amount) (raise (Exception "Not enough tokens to burn!")) ;;
  when (amount <=? 0) (raise (Exception "Amount must be positive!")) ;;
  cur <- balances_getitem sender ;;
  balances_setitem sender (cur - amount) ;;
  t <- read total_supply ;;
  write (set_total_supply (t - amount)) ;;
  event "Burn" [VStr sender; VInt amount].

Inductive op : Type :=
| GetName | GetSymbol | GetTotalSupply
| BalanceOf (account : string)
| Transfer (to : string) (amount : Z)
| Mint (amount : Z)
| Burn (amount : Z).

Definition tag (o : op) : visibility :=
  match o with
  | GetName | GetSymbol | GetTotalSupply | BalanceOf _ => Read
  | Transfer _ _ | Mint _ | Burn _ => Write
  end.

Definition call (ctx : context) (o : op) : M (instance state) value :=
  match o with
  | GetName => s <- get_name ;; ret (VStr s)
  | GetSymbol => s <- get_symbol ;; ret (VStr s)
  | GetTotalSupply => n <- get_total_supply ;; ret (VInt n)
  | BalanceOf a => n <- balance_of a ;; ret (VInt n)
  | Transfer to amount => transfer ctx to amount ;; ret VNone
  | Mint amount => mint ctx amount ;; ret VNone
  | Burn amount => burn ctx amount ;; ret VNone
  end.

(** The supply invariant: the balances add up to [total_supply]. *)
Definition supply_matches (i : instance state) : Prop :=
  dict_sum (balances (slots i)) = total_supply (slots i).

End BeginnerToken.

(** ** my_project/contracts/StakeToken.py *)

Module StakeToken.

(** Accounts are integer tags here: [1] is the owner, anything else the
    user. *)
Record state : Type := {
  name : string;
  symbol : string;
  decimals : Z;
  total_supply : Z;
  owner : Z;
  is_paused : Z;
  owner_balance : Z;
  user_balance : Z;
  user_stake : Z;
  user_reward : Z;
  reward_rate : Z
}.

Definition set_total_supply (v : Z) (s : state) : state :=
  {| name := name s; symbol := symbol s; decimals := decimals s;
     total_supply := v; owner := owner s; is_paused := is_paused s;
     owner_balance := owner_balance s; user_balance := user_balance s;
     user_stake := user_stake s; user_reward := user_reward s;
     reward_rate := reward_rate s |}.

Definition set_is_paused (v : Z) (s : state) : state :=
  {| name := name s; symbol := symbol s; decimals := decimals s;
     total_supply := total_supply s; owner := owner s; is_paused := v;
     owner_balance := owner_balance s; user_balance := user_balance s;
     user_stake := user_stake s; user_reward := user_reward s;
     reward_rate := reward_rate s |}.

Definition set_owner_balance (v : Z) (s : state) : state :=
  {| name := name s; symbol := symbol s; decimals := decimals s;
     total_supply := total_supply s; owner := owner s; is_paused := is_paused s;
     owner_balance := v; user_balance := user_balance s;
     user_stake := user_stake s; user_reward := user_reward s;
     reward_rate := reward_rate s |}.

Definition set_user_balance (v : Z) (s : state) : state :=
  {| name := name s; symbol := symbol s; decimals := decimals s;
     total_supply := total_supply s; owner := owner s; is_paused := is_paused s;
     owner_balance := owner_balance s; user_balance := v;
     user_stake := user_stake s; user_reward := user_reward s;
     reward_rate := reward_rate s |}.

Definition set_user_stake (v : Z) (s : state) : state :=
  {| name := name s; symbol := symbol s; decimals := decimals s;
     total_supply := total_supply s; owner := owner s; is_paused := is_paused s;
     owner_balance := owner_balance s; user_balance := user_balance s;
     user_stake := v; user_reward := user_reward s;
     reward_rate := reward_rate s |}.

Definition set_user_reward (v : Z) (s : state) : state :=
  {| name := name s; symbol := symbol s; decimals := decimals s;
     total_supply := total_supply s; owner := owner s; is_paused := is_paused s;
     owner_balance := owner_balance s; user_balance := user_balance s;
     user_stake := user_stake s; user_reward := v;
     reward_rate := reward_rate s |}.

Definition set_reward_rate_slot (v : Z) (s : state) : state :=
  {| name := name s; symbol := symbol s; decimals := decimals s;
     total_supply := total_supply s; owner := owner s; is_paused := is_paused s;
     owner_balance := owner_balance s; user_balance := user_balance s;
     user_stake := user_stake s; user_reward := user_reward s;
     reward_rate := v |}.

Definition __init__ : instance state :=
  construct {| name := "StakeableToken"; symbol := "STK"; decimals := 18;
               total_supply := 1000000; owner := 1; is_paused := 0;
               owner_balance := 1000000; user_balance := 0;
               user_stake := 0; user_reward := 0; reward_rate := 10 |}.

Definition get_name : M (instance state) string := read name.
Definition get_symbol : M (instance state) string := read symbol.
Definition get_decimals : M (instance state) Z := read decimals.
Definition get_total_supply : M (instance state) Z := read total_supply.

Definition balance_of (account : Z) : M (instance state) Z :=
  if account =? 1 then read owner_balance else read user_balance.

Definition stake_of (account : Z) : M (instance state) Z :=
  if account =? 1 then ret 0 else read user_stake.

Definition reward_of (account : Z) : M (instance state) Z :=
  if account =? 1 then ret 0 else read user_reward.

Definition get_reward_rate : M (instance state) Z := read reward_rate.

(** Transfer tokens from owner to user (simplified). *)
Definition transfer (to : Z) (amount : Z) : M (instance state) unit :=
  paused <- read is_paused ;;
  if paused =? 1 then
    event "TransferFailed" [VStr "Contract is paused"]
  else
    ob <- read owner_balance ;;
    when (amount <=? ob)
      (ob' <- read owner_balance ;;
       write (set_owner_balance (ob' - amount)) ;;
       ub <- read user_balance ;;
       write (set_user_balance (ub + amount)) ;;
       event "Transfer" [VInt amount; VInt to]).

Definition mint (amount : Z) : M (instance state) unit :=
  t <- read total_supply ;;
  write (set_total_supply (t + amount)) ;;
  ob <- read owner_balance ;;
  write (set_owner_balance (ob + amount)) ;;
  t' <- read total_supply ;;
  event "Mint" [VInt amount; VInt t'].

Definition stake (amount : Z) : M (instance state) unit :=
  paused <- read is_paused ;;
  if paused =? 1 then
    event "StakeFailed" [VStr "Contract is paused"]
  else
    ub <- read user_balance ;;
    when (amount <=? ub)
      (ub' <- read user_balance ;;
       write (set_user_balance (ub' - amount)) ;;
       us <- read user_stake ;;
       write (set_user_stake (us + amount)) ;;
       rate <- read reward_rate ;;
       let reward := (amount * rate) / 100 in
       ur <- read user_reward ;;
       write (set_user_reward (ur + reward)) ;;
       event "Staked" [VInt amount; VInt reward]).

Definition unstake (amount : Z) : M (instance state) unit :=
  us <- read user_stake ;;
  when (amount <=? us)
    (us' <- read user_stake ;;
     write (set_user_stake (us' - amount)) ;;
     ub <- read user_balance ;;
     write (set_user_balance (ub + amount)) ;;
     reward <- read user_reward ;;
     ub' <- read user_balance ;;
     write (set_user_balance (ub' + reward)) ;;
     write (set_user_reward 0) ;;
     event "Unstaked" [VInt amount; VInt reward]).

Definition set_reward_rate (new_rate : Z) : M (instance state) unit :=
  write (set_reward_rate_slot new_rate) ;;
  event "RewardRateUpdated" [VInt new_rate].

Definition pause : M (instance state) unit :=
  write (set_is_paused 1) ;;
  event "ContractPaused" [].

Definition unpause : M (instance state) unit :=
  write (set_is_paused 0) ;;
  event "ContractUnpaused" [].

Inductive op : Type :=
| GetName | GetSymbol | GetDecimals | GetTotalSupply
| BalanceOf (account : Z) | StakeOf (account : Z) | RewardOf (account : Z)
| GetRewardRate
| Transfer (to : Z) (amount : Z)
| Mint (amount : Z)
| Stake (amount : Z)
| Unstake (amount : Z)
| SetRewardRate (new_rate : Z)
| Pause | Unpause.

Definition tag (o : op) : visibility :=
  match o with
  | GetName | GetSymbol | GetDecimals | GetTotalSupply
  | BalanceOf _ | StakeOf _ | RewardOf _ | GetRewardRate => Read
  | Transfer _ _ | Mint _ | Stake _ | Unstake _
  | SetRewardRate _ | Pause | Unpause => Write
  end.

(** No method of this contract consults the caller: the context is accepted
    and dropped. *)
Definition call (ctx : context) (o : op) : M (instance state) value :=
  match o with
  | GetName => s <- get_name ;; ret (VStr s)
  | GetSymbol => s <- get_symbol ;; ret (VStr s)
  | GetDecimals => n <- get_decimals ;; ret (VInt n)
  | GetTotalSupply => n <- get_total_supply ;; ret (VInt n)
  | BalanceOf a => n <- balance_of a ;; ret (VInt n)
  | StakeOf a => n <- stake_of a ;; ret (VInt n)
  | RewardOf a => n <- reward_of a ;; ret (VInt n)
  | GetRewardRate => n <- get_reward_rate ;; ret (VInt n)
  | Transfer to amount => transfer to amount ;; ret VNone
  | Mint amount => mint amount ;; ret VNone
  | Stake amount => stake amount ;; ret VNone
  | Unstake amount => unstake amount ;; ret VNone
  | SetRewardRate r => set_reward_rate r ;; ret VNone
  | Pause => pause ;; ret VNone
  | Unpause => unpause ;; ret VNone
  end.

End StakeToken.

(** ** my_project/contracts/Defi.py *)

Module Defi.

Record state : Type := {
  admin : string;
  balances : gmap string Z;
  total_deposits : Z;
  interest_rate : Z;
  last_update : gmap string Z
}.

Definition set_balances (v : gmap string Z) (s : state) : state :=
  {| admin := admin s; balances := v; total_deposits := total_deposits s;
     interest_rate := interest_rate s; last_update := last_update s |}.

Definition set_total_deposits (v : Z) (s : state) : state :=
  {| admin := admin s; balances := balances s; total_deposits := v;
     interest_rate := interest_rate s; last_update := last_update s |}.

Definition set_interest_rate_slot (v : Z) (s : state) : state :=
  {| admin := admin s; balances := balances s;
     total_deposits := total_deposits s;
     interest_rate := v; last_update := last_update s |}.

Definition set_last_update (v : gmap string Z) (s : state) : state :=
  {| admin := admin s; balances := balances s;
     total_deposits := total_deposits s;
     interest_rate := interest_rate s; last_update := v |}.

Definition balances_get (key : string) : M (instance state) Z :=
  b <- read balances ;; ret (dict_get b key 0).

Definition balances_setitem (key : string) (v : Z) : M (instance state) unit :=
  b <- read balances ;; write (set_balances (<[key := v]> b)).

Definition last_update_get (key : string) (default : Z) : M (instance state) Z :=
  l <- read last_update ;; ret (dict_get l key default).

Definition last_update_setitem (key : string) (v : Z) : M (instance state) unit :=
  l <- read last_update ;; write (set_last_update (<[key := v]> l)).

Definition __init__ (ctx : context) : instance state :=
  construct {| admin := msg_sender ctx; balances := ∅; total_deposits := 0;
               interest_rate := 500; last_update := ∅ |}.

(** Internal: apply interest for a user before updating balances. *)
Definition _apply_interest (ctx : context) (user : string)
  : M (instance state) unit :=
  stored <- balances_get user ;;
  if stored =? 0 then
    last_update_setitem user (block_number ctx)
  else
    last <- last_update_get user (block_number ctx) ;;
    let blocks_passed := block_number ctx - last in
    when (0 <? blocks_passed)
      (rate <- read interest_rate ;;
       let interest := (stored * rate * blocks_passed) / 100000 in
       when (0 <? interest)
         (balances_setitem user (stored + interest) ;;
          td <- read total_deposits ;;
          write (set_total_deposits (td + interest)) ;;
          event "InterestApplied" [VStr user; VInt interest]) ;;
       last_update_setitem user (block_number ctx)).

Definition deposit (ctx : context) (amount : Z) : M (instance state) unit :=
  let sender := msg_sender ctx in
  require (0 <? amount) "Deposit amount must be greater than 0" ;;
  _apply_interest ctx sender ;;
  current_balance <- balances_get sender ;;
  balances_setitem sender (current_balance + amount) ;;
  td <- read total_deposits ;;
  write (set_total_deposits (td + amount)) ;;
  last_update_setitem sender (block_number ctx) ;;
  event "Deposit" [VStr sender; VInt amount].

Definition withdraw (ctx : context) (amount : Z) : M (instance state) unit :=
  let sender := msg_sender ctx in
  _apply_interest ctx sender ;;
  current_balance <- balances_get sender ;;
  require (amount <=? current_balance) "Insufficient balance" ;;
  balances_setitem sender (current_balance - amount) ;;
  td <- read total_deposits ;;
  write (set_total_deposits (td - amount)) ;;
  last_update_setitem sender (block_number ctx) ;;
  event "Withdraw" [VStr sender; VInt amount].

(** Check the balance of a user (including interest): the pending interest
    is computed and returned, not stored. *)
Definition balance_of (ctx : context) (user : string) : M (instance state) Z :=
  stored <- balances_get user ;;
  if stored =? 0 then ret 0
  else
    last <- last_update_get user (block_number ctx) ;;
    let blocks_passed := block_number ctx - last in
    if 0 <? blocks_passed then
      rate <- read interest_rate ;;
      let interest := (stored * rate * blocks_passed) / 100000 in
      ret (stored + interest)
    else ret stored.

Definition get_total_deposits : M (instance state) Z := read total_deposits.

Definition set_interest_rate (ctx : context) (new_rate : Z)
  : M (instance state) unit :=
  let sender := msg_sender ctx in
  a <- read admin ;;
  require (bool_decide (sender = a)) "Only admin can change rate" ;;
  require (new_rate <=? 10000) "Rate cannot exceed 100%" ;;
  write (set_interest_rate_slot new_rate) ;;
  event "RateChanged" [VInt new_rate].

Inductive op : Type :=
| Deposit (amount : Z)
| Withdraw (amount : Z)
| BalanceOf (user : string)
| GetTotalDeposits
| SetInterestRate (new_rate : Z).

Definition tag (o : op) : visibility :=
  match o with
  | BalanceOf _ | GetTotalDeposits => Read
  | Deposit _ | Withdraw _ | SetInterestRate _ => Write
  end.

Definition call (ctx : context) (o : op) : M (instance state) value :=
  match o with
  | Deposit amount => deposit ctx amount ;; ret VNone
  | Withdraw amount => withdraw ctx amount ;; ret VNone
  | BalanceOf u => n <- balance_of ctx u ;; ret (VInt n)
  | GetTotalDeposits => n <- get_total_deposits ;; ret (VInt n)
  | SetInterestRate r => set_interest_rate ctx r ;; ret VNone
  end.

End Defi.

(** ** my_project/contracts/mint.py *)

Module MintableToken.

Record state : Type := {
  name : string;
  symbol : string;
  decimals : Z;
  admin : string;
  total_supply : Z;
  balances : gmap string Z
}.

Definition set_total_supply (v : Z) (s : state) : state :=
  {| name := name s; symbol := symbol s; decimals := decimals s;
     admin := admin s; total_supply := v; balances := balances s |}.

Definition set_balances (v : gmap string Z) (s : state) : state :=
  {| name := name s; symbol := symbol s; decimals := decimals s;
     admin := admin s; total_supply := total_supply s; balances := v |}.

Definition balances_get (key : string) : M (instance state) Z :=
  b <- read balances ;; ret (dict_get b key 0).

Definition balances_setitem (key : string) (v : Z) : M (instance state) unit :=
  b <- read balances ;; write (set_balances (<[key := v]> b)).

Definition __init__ (ctx : context) : instance state :=
  construct {| name := "MintableToken"; symbol := "MINT"; decimals := 18;
               admin := msg_sender ctx; total_supply := 0; balances := ∅ |}.

Definition transfer (ctx : context) (to : string) (amount : Z)
  : M (instance state) unit :=
  let sender := msg_sender ctx in
  require (0 <? amount) "Amount must be positive" ;;
  sender_balance <- balances_get sender ;;
  require (amount <=? sender_balance) "Insufficient balance" ;;
  balances_setitem sender (sender_balance - amount) ;;
  to_bal <- balances_get to ;;
  balances_setitem to (to_bal + amount) ;;
  event "Transfer" [VStr sender; VStr to; VInt amount].

Definition mint (ctx : context) (to : string) (amount : Z)
  : M (instance state) unit :=
  let sender := msg_sender ctx in
  a <- read admin ;;
  require (bool_decide (sender = a)) "Only admin can mint" ;;
  require (0 <? amount) "Mint amount must be positive" ;;
  t <- read total_supply ;;
  write (set_total_supply (t + amount)) ;;
  to_bal <- balances_get to ;;
  balances_setitem to (to_bal + amount) ;;
  event "Mint" [VStr to; VInt amount].

Definition balance_of (user : string) : M (instance state) Z :=
  balances_get user.

Definition get_total_supply : M (instance state) Z := read total_supply.
Definition get_name : M (instance state) string := read name.
Definition get_symbol : M (instance state) string := read symbol.
Definition get_decimals : M (instance state) Z := read decimals.

Inductive op : Type :=
| Transfer (to : string) (amount : Z)
| Mint (to : string) (amount : Z)
| BalanceOf (user : string)
| GetTotalSupply | GetName | GetSymbol | GetDecimals.

Definition tag (o : op) : visibility :=
  match o with
  | BalanceOf _ | GetTotalSupply | GetName | GetSymbol | GetDecimals => Read
  | Transfer _ _ | Mint _ _ => Write
  end.

Definition call (ctx : context) (o : op) : M (instance state) value :=
  match o with
  | Transfer to amount => transfer ctx to amount ;; ret VNone
  | Mint to amount => mint ctx to amount ;; ret VNone
  | BalanceOf u => n <- balance_of u ;; ret (VInt n)
  | GetTotalSupply => n <- get_total_supply ;; ret (VInt n)
  | GetName => s <- get_name ;; ret (VStr s)
  | GetSymbol => s <- get_symbol ;; ret (VStr s)
  | GetDecimals => n <- get_decimals ;; ret (VInt n)
  end.

End MintableToken.

(** ** web3 and eth_account, as the scripts use them *)

Module Web3.

(** [contract.functions.f(args)]: a contract function bound to its
    arguments, not yet sent. *)
Record function_call : Type := {
  fn : string;
  args : list value
}.

(** The transaction dict [build_transaction] returns. *)
Record transaction : Type := {
  tx_from : string;
  tx_to : string;
  tx_data : function_call;
  tx_value : Z;
  gas : Z;
  gasPrice : Z;
  nonce : Z;
  chainId : Z
}.

(** What [sign_transaction] returns. [raw_transaction] is the encoded
    envelope, identified here with the envelope it encodes. *)
Record SignedTransaction : Type := {
  raw_transaction : transaction;
  signature : Z
}.

Record receipt : Type := {
  transactionHash : Z;
  status : Z
}.

(** [Account.from_key(private_key)]: the address and the signing facility
    derived from the key; the key itself is not exposed. *)
Record Account : Type := {
  address : string;
  signer : transaction -> result Z
}.

Definition sign_transaction (a : Account) (tx : transaction)
  : result SignedTransaction :=
  match signer a tx with
  | Ok sg => Ok {| raw_transaction := tx; signature := sg |}
  | Raise e => Raise e
  end.

(** [function_call.build_transaction({'from', 'gas', 'gasPrice', 'nonce',
    'chainId'})] on a contract at [contract_address]: with every one of
    these given, nothing is asked of the node. *)
Definition build_transaction (contract_address : string) (fc : function_call)
    (from_ : string) (gas_ gasPrice_ nonce_ chainId_ : Z) : transaction :=
  {| tx_from := from_; tx_to := contract_address; tx_data := fc;
     tx_value := 0; gas := gas_; gasPrice := gasPrice_; nonce := nonce_;
     chainId := chainId_ |}.

(** The remote node as the scripts reach it through [w3.eth] and
    [contract.functions...call()]. Every request may raise, and the node may
    move on between two requests. *)
Class LedgerClient (Node : Type) : Type := {
  get_balance : string -> M Node Z;
  get_transaction_count : string -> M Node Z;
  gas_price : M Node Z;
  send_raw_transaction : SignedTransaction -> M Node Z;
  wait_for_transaction_receipt : Z -> Z -> M Node receipt;
  call_owner : M Node string;
  call_balanceOf : string -> M Node Z;
  call_stakedBalance : string -> M Node Z;
  call_getReward : string -> M Node Z
}.

(** One request made of the node, with its answer. *)
Inductive rpc : Type :=
| GetBalance (addr : string) (reply : result Z)
| GetTransactionCount (addr : string) (reply : result Z)
| GasPrice (reply : result Z)
| SendRawTransaction (stx : SignedTransaction) (reply : result Z)
| WaitForTransactionReceipt (tx_hash timeout : Z) (reply : result receipt)
| Call (fc : function_call) (reply : result value).

(** A line the script prints, number formatting left out. *)
Inductive output : Type :=
| Sent (what : string) (tx_hash : Z)
| Succeeded (what : string)
| Failed (what : string)
| Skipped (what : string)
| TestFailed (what : string) (e : exn)
| Info (text : string) (vals : list value).

(** The process and its surroundings: the node, the requests made of it so
    far, and what has been printed. *)
Record world (Node : Type) : Type := {
  node : Node;
  trace : list rpc;
  stdout : list output
}.
Arguments node {Node} _.
Arguments trace {Node} _.
Arguments stdout {Node} _.

Section Requests.
Context {Node : Type} `{LedgerClient Node}.

(** Make a request of the node and record it with its answer. *)
Definition request {A} (m : M Node A) (entry : result A -> rpc)
  : M (world Node) A :=
  fun w => let '(r, n') := m (node w) in
           (r, {| node := n'; trace := trace w ++ [entry r];
                  stdout := stdout w |}).

Definition print (o : output) : M (world Node) unit :=
  modify (fun w => {| node := node w; trace := trace w;
                      stdout := stdout w ++ [o] |}).

(** A result computed locally ([sign_transaction]). *)
Definition lift {A} (r : result A) : M (world Node) A :=
  fun w => (r, w).

Definition map_result {A B} (f : A -> B) (r : result A) : result B :=
  match r with Ok a => Ok (f a) | Raise e => Raise e end.

Definition eth_get_balance (addr : string) : M (world Node) Z :=
  request (get_balance addr) (GetBalance addr).

Definition eth_get_transaction_count (addr : string) : M (world Node) Z :=
  request (get_transaction_count addr) (GetTransactionCount addr).

Definition eth_gas_price : M (world Node) Z :=
  request gas_price GasPrice.

Definition eth_send_raw_transaction (stx : SignedTransaction)
  : M (world Node) Z :=
  request (send_raw_transaction stx) (SendRawTransaction stx).

Definition eth_wait_for_transaction_receipt (tx_hash timeout : Z)
  : M (world Node) receipt :=
  request (wait_for_transaction_receipt tx_hash timeout)
          (WaitForTransactionReceipt tx_hash timeout).

Definition functions_owner_call : M (world Node) string :=
  request call_owner
    (fun r => Call {| fn := "owner"; args := [] |} (map_result VStr r)).

Definition functions_balanceOf_call (addr : string) : M (world Node) Z :=
  request (call_balanceOf addr)
    (fun r => Call {| fn := "balanceOf"; args := [VStr addr] |}
                   (map_result VInt r)).

Definition functions_stakedBalance_call (addr : string) : M (world Node) Z :=
  request (call_stakedBalance addr)
    (fun r => Call {| fn := "stakedBalance"; args := [VStr addr] |}
                   (map_result VInt r)).

Definition functions_getReward_call (addr : string) : M (world Node) Z :=
  request (call_getReward addr)
    (fun r => Call {| fn := "getReward"; args := [VStr addr] |}
                   (map_result VInt r)).
End Requests.

(** The transactions handed to [send_raw_transaction], in order. *)
Definition broadcasts (t : list rpc) : list SignedTransaction :=
  omap (fun e => match e with
                 | SendRawTransaction stx _ => Some stx
                 | _ => None
                 end) t.

(** The nonce sequence the node observes at broadcast. *)
Definition broadcast_nonces (t : list rpc) : list Z :=
  map (fun stx => nonce (raw_transaction stx)) (broadcasts t).

(** The transaction counts the node has reported, in order. *)
Definition reported_counts (t : list rpc) : list Z :=
  omap (fun e => match e with
                 | GetTransactionCount _ (Ok c) => Some c
                 | _ => None
                 end) t.

(** A nonce sequence that is strictly increasing with no gap and no repeat:
    each element is its predecessor plus one. *)
Fixpoint consecutive (l : list Z) : Prop :=
  match l with
  | [] => True
  | x :: rest =>
      match rest with
      | [] => True
      | y :: _ => y = x + 1 /\ consecutive rest
      end
  end.

(** Every transaction handed to broadcast carries, as its nonce, the latest
    transaction count the node reported before it ([last] is the latest
    count reported before the trace begins, if any). *)
Fixpoint nonces_follow_counts (last : option Z) (t : list rpc) : Prop :=
  match t with
  | [] => True
  | entry :: rest =>
      match entry with
      | GetTransactionCount _ (Ok c) => nonces_follow_counts (Some c) rest
      | SendRawTransaction stx _ =>
          last = Some (nonce (raw_transaction stx)) /\
          nonces_follow_counts last rest
      | _ => nonces_follow_counts last rest
      end
  end.

(** The nonce the builder of the specification would issue: it remembers the
    highest nonce issued so far and never goes below its successor. *)
Definition tracked_nonce (last_issued : option Z) (node_reported : Z) : Z :=
  match last_issued with
  | Some l => Z.max (l + 1) node_reported
  | None => node_reported
  end.

(** [str.lower()] on an ASCII string, as used on hexadecimal addresses. *)
Definition lower_ascii (c : ascii) : ascii :=
  let n := nat_of_ascii c in
  if ((65 <=? n)%nat && (n <=? 90)%nat)%bool then ascii_of_nat (n + 32) else c.

Fixpoint lower (s : string) : string :=
  match s with
  | EmptyString => EmptyString
  | String c rest => String (lower_ascii c) (lower rest)
  end.

End Web3.

Import Web3.

(** ** examples/stake_token_examples.py *)

Module StakeTokenInteractor.

(** [self]: the deployed contract's address and the account built from
    [PRIVATE_KEY]; [self.w3] is the world the methods run in. *)
Record self_ : Type := {
  contract_address : string;
  account : Account
}.

Section Methods.
Context {Node : Type} `{LedgerClient Node}.

(** Helper to send a transaction. Returns the hash on success, [None]
    when the receipt reports failure; raises whatever a step raises. *)
Definition send_transaction (self : self_) (fc : function_call)
    (gas_limit : Z) : M (world Node) (option Z) :=
  nonce_ <- eth_get_transaction_count (address (account self)) ;;
  gas_price_ <- eth_gas_price ;;
  let tx := build_transaction (contract_address self) fc
              (address (account self)) gas_limit gas_price_ nonce_ 43113 in
  signed_tx <- lift (sign_transaction (account self) tx) ;;
  tx_hash <- eth_send_raw_transaction signed_tx ;;
  print (Sent "Transaction" tx_hash) ;;
  receipt_ <- eth_wait_for_transaction_receipt tx_hash 300 ;;
  if status receipt_ =? 1 then
    print (Succeeded "Transaction") ;;
    ret (Some tx_hash)
  else
    print (Failed "Transaction") ;;
    ret None.

(** Successive submissions by one interactor, each with the default
    [gas_limit]; the first exception ends the run, as under the single
    [try] of [main]. *)
Fixpoint send_all (self : self_) (fcs : list function_call)
  : M (world Node) (list (option Z)) :=
  match fcs with
  | [] => ret []
  | fc :: rest =>
      r <- send_transaction self fc 200000 ;;
      rs <- send_all self rest ;;
      ret (r :: rs)
  end.
End Methods.

(** The ways one call of [send_transaction] can go: the requests it makes
    of the node with their answers, the lines it prints, and how it ends. *)
Inductive submission (self : self_) (fc : function_call) (gas_limit : Z)
  : list rpc -> list output -> result (option Z) -> Prop :=
| NonceQueryFails e :
    submission self fc gas_limit
      [GetTransactionCount (address (account self)) (Raise e)]
      [] (Raise e)
| GasPriceQueryFails c e :
    submission self fc gas_limit
      [GetTransactionCount (address (account self)) (Ok c);
       GasPrice (Raise e)]
      [] (Raise e)
| SigningFails c p e :
    sign_transaction (account self)
      (build_transaction (contract_address self) fc
         (address (account self)) gas_limit p c 43113) = Raise e ->
    submission self fc gas_limit
      [GetTransactionCount (address (account self)) (Ok c);
       GasPrice (Ok p)]
      [] (Raise e)
| BroadcastFails c p stx e :
    sign_transaction (account self)
      (build_transaction (contract_address self) fc
         (address (account self)) gas_limit p c 43113) = Ok stx ->
    submission self fc gas_limit
      [GetTransactionCount (address (account self)) (Ok c);
       GasPrice (Ok p);
       SendRawTransaction stx (Raise e)]
      [] (Raise e)
| WaitFails c p stx h e :
    sign_transaction (account self)
      (build_transaction (contract_address self) fc
         (address (account self)) gas_limit p c 43113) = Ok stx ->
    submission self fc gas_limit
      [GetTransactionCount (address (account self)) (Ok c);
       GasPrice (Ok p);
       SendRawTransaction stx (Ok h);
       WaitForTransactionReceipt h 300 (Raise e)]
      [Sent "Transaction" h] (Raise e)
| ReceiptSuccess c p stx h rc :
    sign_transaction (account self)
      (build_transaction (contract_address self) fc
         (address (account self)) gas_limit p c 43113) = Ok stx ->
    status rc = 1 ->
    submission self fc gas_limit
      [GetTransactionCount (address (account self)) (Ok c);
       GasPrice (Ok p);
       SendRawTransaction stx (Ok h);
       WaitForTransactionReceipt h 300 (Ok rc)]
      [Sent "Transaction" h; Succeeded "Transaction"] (Ok (Some h))
| ReceiptFailure c p stx h rc :
    sign_transaction (account self)
      (build_transaction (contract_address self) fc
         (address (account self)) gas_limit p c 43113) = Ok stx ->
    status rc <> 1 ->
    submission self fc gas_limit
      [GetTransactionCount (address (account self)) (Ok c);
       GasPrice (Ok p);
       SendRawTransaction stx (Ok h);
       WaitForTransactionReceipt h 300 (Ok rc)]
      [Sent "Transaction" h; Failed "Transaction"] (Ok None).

End StakeTokenInteractor.

(** ** test_stake_transactions.py *)

Module TestStakeTransactions.

Section Script.
Context {Node : Type} `{LedgerClient Node}.
Variable contract_address : string.
Variable account : Account.

(** The steps every test block of the script spells out inline: ask the
    node for the nonce and the gas price, build, sign, send, print the
    hash, wait for the receipt. *)
Definition submit (what : string) (fc : function_call) (gas_ : Z)
  : M (world Node) receipt :=
  nonce_ <- eth_get_transaction_count (address account) ;;
  gas_price_ <- eth_gas_price ;;
  let tx := build_transaction contract_address fc (address account)
              gas_ gas_price_ nonce_ 43113 in
  signed_tx <- lift (sign_transaction account tx) ;;
  tx_hash <- eth_send_raw_transaction signed_tx ;;
  print (Sent what tx_hash) ;;
  eth_wait_for_transaction_receipt tx_hash 300.

(** Check current balance; an exception here ends the script. *)
Definition check_balances : M (world Node) bool :=
  try_except
    (current_balance <- eth_get_balance (address account) ;;
     print (Info "AVAX Balance" [VInt current_balance]) ;;
     token_balance <- functions_balanceOf_call (address account) ;;
     print (Info "Token Balance" [VInt token_balance]) ;;
     staked_balance <- functions_stakedBalance_call (address account) ;;
     print (Info "Staked Balance" [VInt staked_balance]) ;;
     ret true)
    (fun e => print (TestFailed "Error checking balances" e) ;; ret false).

(** Test 1: Mint tokens (owner only). *)
Definition test_mint : M (world Node) unit :=
  try_except
    (print (Info "Testing mint function..." []) ;;
     owner <- functions_owner_call ;;
     if bool_decide (lower (address account) = lower owner) then
       let mint_amount := 1000 * 10 ^ 18 in
       receipt_ <- submit "Mint"
                     {| fn := "mint"; args := [VInt mint_amount] |} 200000 ;;
       if status receipt_ =? 1 then print (Succeeded "Mint")
       else print (Failed "Mint")
     else
       print (Skipped "mint test - not contract owner") ;;
       print (Info "Owner" [VStr owner]) ;;
       print (Info "Account" [VStr (address account)]))
    (fun e => print (TestFailed "Mint" e)).

(** Test 2: Transfer tokens. *)
Definition test_transfer : M (world Node) unit :=
  try_except
    (print (Info "Testing transfer function..." []) ;;
     token_balance <- functions_balanceOf_call (address account) ;;
     if 0 <? token_balance then
       let transfer_amount := Z.min (100 * 10 ^ 18) (token_balance / 2) in
       let recipient := "0x0000000000000000000000000000000000000001"%string in
       receipt_ <- submit "Transfer"
                     {| fn := "transfer";
                        args := [VStr recipient; VInt transfer_amount] |}
                     100000 ;;
       if status receipt_ =? 1 then print (Succeeded "Transfer")
       else print (Failed "Transfer")
     else print (Skipped "transfer test - no tokens to transfer"))
    (fun e => print (TestFailed "Transfer" e)).

(** Test 3: Stake tokens. *)
Definition test_stake : M (world Node) unit :=
  try_except
    (print (Info "Testing stake function..." []) ;;
     token_balance <- functions_balanceOf_call (address account) ;;
     if 0 <? token_balance then
       let stake_amount := Z.min (50 * 10 ^ 18) (token_balance / 4) in
       receipt_ <- submit "Stake"
                     {| fn := "stake"; args := [VInt stake_amount] |} 150000 ;;
       if status receipt_ =? 1 then
         print (Succeeded "Stake") ;;
         staked_balance <- functions_stakedBalance_call (address account) ;;
         print (Info "New staked balance" [VInt staked_balance])
       else print (Failed "Stake")
     else print (Skipped "stake test - no tokens to stake"))
    (fun e => print (TestFailed "Stake" e)).

(** Final balance check. *)
Definition final_summary : M (world Node) unit :=
  try_except
    (print (Info "Final Balance Summary" []) ;;
     token_balance <- functions_balanceOf_call (address account) ;;
     staked_balance <- functions_stakedBalance_call (address account) ;;
     reward_balance <- functions_getReward_call (address account) ;;
     print (Info "Token Balance" [VInt token_balance]) ;;
     print (Info "Staked Balance" [VInt staked_balance]) ;;
     print (Info "Pending Rewards" [VInt reward_balance]))
    (fun e => print (TestFailed "Error checking final balances" e)).

(** The script from the point where the node is connected, the key is
    loaded and the contract instance exists. *)
Definition test_stake_transactions : M (world Node) unit :=
  checked <- check_balances ;;
  if (checked : bool) then
    print (Info "Testing Contract Functions" []) ;;
    test_mint ;;
    test_transfer ;;
    test_stake ;;
    final_summary ;;
    print (Info "Transaction testing completed!" [])
  else ret tt.
End Script.

End TestStakeTransactions.

(** ** A simulated node, for running the scripts *)

Module FakeLedger.

(** How the simulated node answers a broadcast. *)
Inductive behaviour : Type :=
| Mine (status_ : Z)   (* accept and include at once, with this status *)
| Hold                 (* accept into the pending pool and never include *)
| Refuse (e : exn).    (* answer with an error *)

Record fake : Type := {
  mined_count : Z;             (* transactions of the account included so far *)
  next_hash : Z;               (* hash handed to the next accepted transaction *)
  receipts : list receipt;     (* receipts of the included transactions *)
  script : list behaviour;     (* answers to the coming broadcasts, in order *)
  contract_owner : string;
  token_balance : Z
}.

Definition find_receipt (h : Z) (rs : list receipt) : option receipt :=
  List.find (fun r => transactionHash r =? h) rs.

Definition broadcast (stx : SignedTransaction) : M fake Z :=
  fun n =>
    let '(b, rest) := match script n with
                      | [] => (Mine 1, [])
                      | b :: rest => (b, rest)
                      end in
    match b with
    | Mine st =>
        (Ok (next_hash n),
         {| mined_count := mined_count n + 1; next_hash := next_hash n + 1;
            receipts := receipts n ++ [{| transactionHash := next_hash n;
                                          status := st |}];
            script := rest; contract_owner := contract_owner n;
            token_balance := token_balance n |})
    | Hold =>
        (Ok (next_hash n),
         {| mined_count := mined_count n; next_hash := next_hash n + 1;
            receipts := receipts n; script := rest;
            contract_owner := contract_owner n;
            token_balance := token_balance n |})
    | Refuse e =>
        (Raise e,
         {| mined_count := mined_count n; next_hash := next_hash n;
            receipts := receipts n; script := rest;
            contract_owner := contract_owner n;
            token_balance := token_balance n |})
    end.

Definition wait (h timeout : Z) : M fake receipt :=
  fun n => match find_receipt h (receipts n) with
           | Some r => (Ok r, n)
           | None => (Raise (TimeExhausted h timeout), n)
           end.

#[global] Instance fake_client : LedgerClient fake := {|
  get_balance := fun _ => ret (2 * 10 ^ 18);
  get_transaction_count := fun _ => gets mined_count;
  gas_price := ret 25000000000;
  send_raw_transaction := broadcast;
  wait_for_transaction_receipt := wait;
  call_owner := gets contract_owner;
  call_balanceOf := fun _ => gets token_balance;
  call_stakedBalance := fun _ => ret 0;
  call_getReward := fun _ => ret 0
|}.

Definition alice : Account :=
  {| address := "0xA11CE"; signer := fun _ => Ok 27 |}.

(** An account whose key cannot sign. *)
Definition mallory : Account :=
  {| address := "0xBAD"; signer := fun _ => Raise SigningError |}.

Definition STK : string := "0x57AC".

Definition interactor : StakeTokenInteractor.self_ :=
  {| StakeTokenInteractor.contract_address := STK;
     StakeTokenInteractor.account := alice |}.

(** The same interactor built from the key that cannot sign. *)
Definition keyless : StakeTokenInteractor.self_ :=
  {| StakeTokenInteractor.contract_address := STK;
     StakeTokenInteractor.account := mallory |}.

(** A node at transaction count [7] for the account, answering the coming
    broadcasts as [answers] says. *)
Definition node_with (answers : list behaviour) : fake :=
  {| mined_count := 7; next_hash := 4096; receipts := []; script := answers;
     contract_owner := "0xa11ce"; token_balance := 400 * 10 ^ 18 |}.

Definition start (answers : list behaviour) : world fake :=
  {| node := node_with answers; trace := []; stdout := [] |}.

Definition mint_call (amount : Z) : function_call :=
  {| fn := "mint"; args := [VInt amount] |}.

Definition transfer_call (to : string) (amount : Z) : function_call :=
  {| fn := "transfer"; args := [VStr to; VInt amount] |}.

Definition stake_call (amount : Z) : function_call :=
  {| fn := "stake"; args := [VInt amount] |}.

End FakeLedger.

(** ** Properties stated over the models *)

(** A call that returns a value and leaves the instance, slots and event log
    alike, exactly as it found it. *)
Definition read_only {S : Type} (m : M (instance S) value) : Prop :=
  forall i, exists v, m i = (Ok v, i).

(** A piece of script all of whose broadcasts, from whatever point it is
    run, carry the transaction count the node reported to that very piece
    just before. *)
Definition issues_node_counts {Node A : Type} (m : M (world Node) A) : Prop :=
  forall w, exists new,
    trace (snd (m w)) = trace w ++ new /\
    forall last, nonces_follow_counts last new.

(** The states used as concrete instances below. *)
Module Scenario.

Definition deployer : context := {| msg_sender := "0xowner"; block_number := 10 |}.
Definition bob : context := {| msg_sender := "0xbob"; block_number := 12 |}.

(** A BeginnerToken in which ["0xbob"] holds exactly 100 tokens. *)
Definition beginner_100 : instance BeginnerToken.state :=
  snd (BeginnerToken.transfer deployer "0xbob" 100
         (BeginnerToken.__init__ deployer)).


(** A Defi pool in which ["0xbob"] deposited 5000 at block 12. *)
Definition defi_bob : instance Defi.state :=
  snd (Defi.deposit bob 5000 (Defi.__init__ deployer)).

End Scenario.

(** ** examples/stake_token_examples.py: the methods built on
    [send_transaction] *)

Module StakeTokenExamples.

(** What the methods run on besides the node, neither of them in the
    source tree: Python's formatting of a number inside an f-string
    ([f"{n:,.0f}"] turns an [int] into a float first and raises
    [OverflowError] when it is too large for one), and web3's binding of a
    contract function to its arguments, [contract.functions.f(args)], which
    checks the arguments against the ABI loaded at start-up and raises when
    they do not fit. Each is taken as a function that gives the exception
    raised, if any; which arguments raise is left open. *)
Record runtime : Type := {
  format_error : string -> Z -> option exn;
  abi_error : function_call -> option exn
}.

Section Methods.
Context {Node : Type} `{LedgerClient Node}.
Variable rt : runtime.

(** The f-string of a line that shows the number [n] under the format
    [spec]: evaluated before the line is printed, so that nothing is printed
    when the formatting raises. *)
Definition fstring (spec : string) (n : Z) : M (world Node) unit :=
  match format_error rt spec n with
  | Some e => raise e
  | None => ret tt
  end.

(** [self.contract.functions.f(args)]: the contract function bound to its
    arguments, or the exception the check of the arguments raises. Nothing
    is asked of the node. *)
Definition contract_functions (fn_ : string) (args_ : list value)
  : M (world Node) function_call :=
  match abi_error rt {| fn := fn_; args := args_ |} with
  | Some e => raise e
  | None => ret {| fn := fn_; args := args_ |}
  end.

(** Mint new tokens (owner only). [amount_tokens] is a whole number of
    tokens, for which [int(amount_tokens * 10**18)] is exact. *)
Definition mint_tokens (self : StakeTokenInteractor.self_) (amount_tokens : Z)
  : M (world Node) (option Z) :=
  fstring ",.0f" amount_tokens ;;
  print (Info "Minting STK tokens..." [VInt amount_tokens]) ;;
  let amount_wei := amount_tokens * 10 ^ 18 in
  owner <- functions_owner_call ;;
  if bool_decide (lower (address (StakeTokenInteractor.account self))
                  <> lower owner) then
    print (Failed "Only owner can mint tokens") ;;
    ret None
  else
    function_call <- contract_functions "mint" [VInt amount_wei] ;;
    StakeTokenInteractor.send_transaction self function_call 200000.

(** Transfer tokens to another address. *)
Definition transfer_tokens (self : StakeTokenInteractor.self_)
    (to_address : string) (amount_tokens : Z) : M (world Node) (option Z) :=
  fstring ",.2f" amount_tokens ;;
  print (Info "Transferring STK" [VInt amount_tokens; VStr to_address]) ;;
  let amount_wei := amount_tokens * 10 ^ 18 in
  function_call <- contract_functions "transfer"
                     [VStr to_address; VInt amount_wei] ;;
  StakeTokenInteractor.send_transaction self function_call 200000.

(** Stake tokens to earn rewards. *)
Definition stake_tokens (self : StakeTokenInteractor.self_) (amount_tokens : Z)
  : M (world Node) (option Z) :=
  fstring ",.2f" amount_tokens ;;
  print (Info "Staking STK tokens..." [VInt amount_tokens]) ;;
  let amount_wei := amount_tokens * 10 ^ 18 in
  function_call <- contract_functions "stake" [VInt amount_wei] ;;
  StakeTokenInteractor.send_transaction self function_call 200000.

(** Unstake tokens and claim rewards. *)
Definition unstake_tokens (self : StakeTokenInteractor.self_)
    (amount_tokens : Z) : M (world Node) (option Z) :=
  fstring ",.2f" amount_tokens ;;
  print (Info "Unstaking STK tokens..." [VInt amount_tokens]) ;;
  let amount_wei := amount_tokens * 10 ^ 18 in
  function_call <- contract_functions "unstake" [VInt amount_wei] ;;
  StakeTokenInteractor.send_transaction self function_call 200000.

(** Set new reward rate (owner only). The rate is shown as it is, with an
    empty format. *)
Definition set_reward_rate (self : StakeTokenInteractor.self_) (new_rate : Z)
  : M (world Node) (option Z) :=
  fstring "" new_rate ;;
  print (Info "Setting reward rate" [VInt new_rate]) ;;
  owner <- functions_owner_call ;;
  if bool_decide (lower (address (StakeTokenInteractor.account self))
                  <> lower owner) then
    print (Failed "Only owner can set reward rate") ;;
    ret None
  else
    function_call <- contract_functions "setRewardRate" [VInt new_rate] ;;
    StakeTokenInteractor.send_transaction self function_call 200000.

(** Pause the contract (owner only). *)
Definition pause_contract (self : StakeTokenInteractor.self_)
  : M (world Node) (option Z) :=
  print (Info "Pausing contract..." []) ;;
  owner <- functions_owner_call ;;
  if bool_decide (lower (address (StakeTokenInteractor.account self))
                  <> lower owner) then
    print (Failed "Only owner can pause contract") ;;
    ret None
  else
    function_call <- contract_functions "pause" [] ;;
    StakeTokenInteractor.send_transaction self function_call 200000.

(** Unpause the contract (owner only). *)
Definition unpause_contract (self : StakeTokenInteractor.self_)
  : M (world Node) (option Z) :=
  print (Info "Unpausing contract..." []) ;;
  owner <- functions_owner_call ;;
  if bool_decide (lower (address (StakeTokenInteractor.account self))
                  <> lower owner) then
    print (Failed "Only owner can unpause contract") ;;
    ret None
  else
    function_call <- contract_functions "unpause" [] ;;
    StakeTokenInteractor.send_transaction self function_call 200000.

End Methods.

(** The owner-only methods, by name. *)
Inductive admin_method : Type :=
| MintTokens (amount_tokens : Z)
| SetRewardRate (new_rate : Z)
| PauseContract
| UnpauseContract.

Definition run_admin {Node : Type} `{LedgerClient Node} (rt : runtime)
    (self : StakeTokenInteractor.self_) (m : admin_method)
  : M (world Node) (option Z) :=
  match m with
  | MintTokens a => mint_tokens rt self a
  | SetRewardRate r => set_reward_rate rt self r
  | PauseContract => pause_contract rt self
  | UnpauseContract => unpause_contract rt self
  end.

(** What formatting the first line of an owner-only method raises, if
    anything: [mint_tokens] shows the amount under [,.0f], [set_reward_rate]
    shows the rate as it is, the other two show no number. *)
Definition admin_banner_error (rt : runtime) (m : admin_method) : option exn :=
  match m with
  | MintTokens a => format_error rt ",.0f" a
  | SetRewardRate r => format_error rt "" r
  | PauseContract | UnpauseContract => None
  end.

(** The contract call an owner-only method sends once the check passes. *)
Definition admin_call (m : admin_method) : function_call :=
  match m with
  | MintTokens a => {| fn := "mint"; args := [VInt (a * 10 ^ 18)] |}
  | SetRewardRate r => {| fn := "setRewardRate"; args := [VInt r] |}
  | PauseContract => {| fn := "pause"; args := [] |}
  | UnpauseContract => {| fn := "unpause"; args := [] |}
  end.

End StakeTokenExamples.

(** A simulated runtime for the instances below. Formatting under a float
    format ([,.0f], [,.2f]) raises [OverflowError] for an [int] that rounds
    past the largest float, formatting with the empty format never raises; a
    contract function takes integers in the range of [uint256] and any
    string. *)
Module FakeRuntime.

(** The least [int] that rounds past the largest float. *)
Definition float_overflow : Z := 2 ^ 1024 - 2 ^ 970.

Definition format_error (spec : string) (n : Z) : option exn :=
  if bool_decide (spec = ""%string) then None
  else if Z.abs n <? float_overflow then None
  else Some OverflowError.

Definition fits_uint256 (v : value) : bool :=
  match v with
  | VInt n => (0 <=? n) && (n <? 2 ^ 256)
  | _ => true
  end.

Definition abi_error (fc : function_call) : option exn :=
  if forallb fits_uint256 (args fc) then None
  else Some (MismatchedABI (fn fc)).

Definition python : StakeTokenExamples.runtime :=
  {| StakeTokenExamples.format_error := format_error;
     StakeTokenExamples.abi_error := abi_error |}.

End FakeRuntime.

(** ** Further notions the properties below are stated with *)

(** A piece of script that returns normally whatever the node does. *)
Definition never_raises {S A : Type} (m : M S A) : Prop :=
  forall s, is_ok (fst (m s)) = true.

(** A piece of script that hands at most [n] transactions to broadcast. *)
Definition broadcasts_at_most {Node A : Type} (n : nat)
    (m : M (world Node) A) : Prop :=
  forall w, exists new,
    trace (snd (m w)) = trace w ++ new /\
    (length (broadcasts new) <= n)%nat.

(** The count a Counter's event log speaks of: the payload of the latest
    event, and 0 for an empty log or after a [Reset]. *)
Definition count_of_log (evs : list (string * list value)) : Z :=
  match last evs with
  | Some (_, [VInt n]) => n
  | _ => 0
  end.

(** Successive [SimpleStorage.set] calls, one per value. *)
Definition store_all (vs : list Z) (i : instance SimpleStorage.state)
  : instance SimpleStorage.state :=
  foldl (fun j v => snd (SimpleStorage.set v j)) i vs.

(** No account of a balances mapping is in debt. *)
Definition no_debt (d : gmap string Z) : Prop :=
  map_Forall (fun _ v => 0 <= v) d.

(** The tokens a StakeToken has handed out: held by the owner, held by the
    user, or staked by the user. *)
Definition circulating (s : StakeToken.state) : Z :=
  StakeToken.owner_balance s + StakeToken.user_balance s
  + StakeToken.user_stake s.

(** The reward a call pays out: the pending reward, for an unstake the stake
    covers; nothing otherwise. *)
Definition reward_paid (o : StakeToken.op) (s : StakeToken.state) : Z :=
  match o with
  | StakeToken.Unstake amount =>
      if amount <=? StakeToken.user_stake s then StakeToken.user_reward s
      else 0
  | _ => 0
  end.

(** No balance, stake, reward or rate of a StakeToken is negative. *)
Definition stake_nonneg (s : StakeToken.state) : Prop :=
  0 <= StakeToken.owner_balance s /\ 0 <= StakeToken.user_balance s /\
  0 <= StakeToken.user_stake s /\ 0 <= StakeToken.user_reward s /\
  0 <= StakeToken.reward_rate s.

(** The numeric argument of a StakeToken call, if it has one, is not
    negative. *)
Definition arg_nonneg (o : StakeToken.op) : Prop :=
  match o with
  | StakeToken.Transfer _ amount | StakeToken.Mint amount
  | StakeToken.Stake amount | StakeToken.Unstake amount => 0 <= amount
  | StakeToken.SetRewardRate r => 0 <= r
  | _ => True
  end.

(** The Defi pool's books balance: the deposits recorded per user add up to
    [total_deposits]. *)
Definition pool_balanced (i : instance Defi.state) : Prop :=
  dict_sum (Defi.balances (slots i)) = Defi.total_deposits (slots i).

(** The MintableToken supply invariant. *)
Definition mintable_supply_matches (i : instance MintableToken.state) : Prop :=
  dict_sum (MintableToken.balances (slots i))
  = MintableToken.total_supply (slots i).

(** A second simulated node: the contract it serves belongs to someone
    else and the account holds none of its tokens; it includes every
    transaction at once. *)
Module StrangerLedger.

Record stranger : Type := { accepted : Z }.

#[global] Instance stranger_client : LedgerClient stranger := {|
  get_balance := fun _ => ret (10 ^ 18);
  get_transaction_count := fun _ => gets accepted;
  gas_price := ret 25000000000;
  send_raw_transaction := fun _ n =>
    (Ok (8192 + accepted n), {| accepted := accepted n + 1 |});
  wait_for_transaction_receipt := fun h _ =>
    ret {| transactionHash := h; status := 1 |};
  call_owner := ret "0x0WNER"%string;
  call_balanceOf := fun _ => ret 0;
  call_stakedBalance := fun _ => ret 0;
  call_getReward := fun _ => ret 0
|}.

Definition start : world stranger :=
  {| node := {| accepted := 3 |}; trace := []; stdout := [] |}.

End StrangerLedger.

(** A piece of script every broadcast of which satisfies [P], a property
    of the transaction that may refer to the requests the piece makes. *)
Definition sends_only {Node A : Type} (P : list rpc -> transaction -> Prop)
    (m : M (world Node) A) : Prop :=
  forall w, exists new,
    trace (snd (m w)) = trace w ++ new /\
    forall stx reply,
      In (SendRawTransaction stx reply) new -> P new (raw_transaction stx).

(** The [balanceOf(addr)] call answered with balance [b]. *)
Definition balance_reply (addr : string) (b : Z) : rpc :=
  Call {| fn := "balanceOf"; args := [VStr addr] |} (Ok (VInt b)).

(** The transactions [test_stake_transactions] can send from [addr], given
    the requests [t] it has made: the mint of 1000 tokens, a transfer to the
    test recipient of half a reported positive balance, capped at 100 tokens,
    or a stake of a quarter of a reported positive balance, capped at 50
    tokens; each with its own gas limit. *)
Definition sent_by_test_script (addr : string) (t : list rpc)
    (tx : transaction) : Prop :=
  (tx_data tx = {| fn := "mint"; args := [VInt (1000 * 10 ^ 18)] |} /\
   gas tx = 200000) \/
  (exists b, In (balance_reply addr b) t /\ 0 < b /\
     tx_data tx
     = {| fn := "transfer";
          args := [VStr "0x0000000000000000000000000000000000000001";
                   VInt (Z.min (100 * 10 ^ 18) (b / 2))] |} /\
     gas tx = 100000) \/
  (exists b, In (balance_reply addr b) t /\ 0 < b /\
     tx_data tx
     = {| fn := "stake"; args := [VInt (Z.min (50 * 10 ^ 18) (b / 4))] |} /\
     gas tx = 150000).

(** Unfold the monad and the base-class operations down to matches on the
    state. *)
Ltac py_run :=
  cbv beta iota zeta delta
    [Py.bind Py.ret Py.raise Py.gets Py.modify Py.when Py.try_except
     PySmartContract.read PySmartContract.write PySmartContract.event
     PySmartContract.require PySmartContract.construct];
  cbn [fst snd slots events].

(** ** Counter *)

Section CounterFacts.
Import Counter.

Lemma counter_call_returns (o : op) (i : instance state) :
  is_ok (fst (call o i)) = true.
Proof.
  destruct o, i as [[c] ev];
    unfold call, increment, decrement, get_count, reset; py_run;
    try reflexivity.
  cbn [count]. destruct (0 <? c); reflexivity.
Qed.

Lemma counter_call_nonneg (o : op) (i : instance state) :
  0 <= count (slots i) -> 0 <= count (slots (snd (call o i))).
Proof.
  destruct o, i as [[c] ev];
    unfold call, increment, decrement, get_count, reset; py_run;
    cbn [count set_count]; intros Hc; try lia.
  destruct (Z.ltb_spec 0 c); cbn; lia.
Qed.

Lemma counter_run_nonneg (ops : list op) :
  forall i, 0 <= count (slots i) -> 0 <= count (slots (run ops i)).
Proof.
  induction ops as [|o rest IH]; intros i Hi; cbn [run]; [exact Hi|].
  apply IH, counter_call_nonneg, Hi.
Qed.

Lemma decrement_at_zero (ev : list (string * list value)) :
  decrement {| slots := {| count := 0 |}; events := ev |}
  = (Ok tt, {| slots := {| count := 0 |}; events := ev |}).
Proof. reflexivity. Qed.
End CounterFacts.

(** C6. A freshly constructed Counter holds [count = 0]; three successive
    calls of [increment] each return normally, a read of the count then
    returns 3, and the event log holds exactly the three [Incremented] events
    with payloads 1, 2, 3 in that order. *)
Theorem counter_three_increments :
  Counter.count (slots Counter.__init__) = 0 /\
  events Counter.__init__ = [] /\
  exists i1 i2 i3,
    Counter.increment Counter.__init__ = (Ok tt, i1) /\
    Counter.increment i1 = (Ok tt, i2) /\
    Counter.increment i2 = (Ok tt, i3) /\
    Counter.get_count i3 = (Ok 3, i3) /\
    events i3 = [("Incremented"%string, [VInt 1]);
                 ("Incremented"%string, [VInt 2]);
                 ("Incremented"%string, [VInt 3])].
Proof.
  split; [reflexivity|]. split; [reflexivity|].
  do 3 eexists. repeat split; reflexivity.
Qed.

(** C8. The Counter keeps [count >= 0]: from any instance whose count is not
    negative, every sequence of [increment], [decrement], [get_count] and
    [reset] calls leaves it not negative, no call raises, and [decrement] on a
    count of 0 returns normally with the count still 0 and the event log
    untouched. *)
Theorem counter_count_never_negative (ops : list Counter.op)
    (i : instance Counter.state) :
  0 <= Counter.count (slots i) ->
  0 <= Counter.count (slots (Counter.run ops i)) /\
  (forall o j, is_ok (fst (Counter.call o j)) = true) /\
  (forall ev,
     Counter.decrement {| slots := {| Counter.count := 0 |}; events := ev |}
     = (Ok tt, {| slots := {| Counter.count := 0 |}; events := ev |})).
Proof.
  intros Hi. split; [|split].
  - apply counter_run_nonneg, Hi.
  - apply counter_call_returns.
  - apply decrement_at_zero.
Qed.

Lemma counter_count_never_negative_witness :
  0 <= Counter.count (slots Counter.__init__) /\
  0 <= Counter.count
         (slots (Counter.run [Counter.Decrement; Counter.Increment;
                              Counter.Reset; Counter.Decrement]
                   Counter.__init__)).
Proof.
  split; [cbn; lia|].
  apply (counter_count_never_negative
           [Counter.Decrement; Counter.Increment; Counter.Reset; Counter.Decrement]
           Counter.__init__).
  cbn; lia.
Defined.

(** ** StakeToken.mint *)

(** C10. Whoever calls and whatever the amount (zero and negative amounts
    included, the contract paused or not), [StakeToken.mint] returns
    normally; afterwards [total_supply] and [owner_balance] each hold their
    previous value plus [amount], every other slot holds its previous value,
    and the log has gained one [Mint] event carrying the amount and the new
    total supply. *)
Theorem stake_mint_unconditional (ctx : context) (amount : Z)
    (i : instance StakeToken.state) :
  let i' := snd (StakeToken.call ctx (StakeToken.Mint amount) i) in
  fst (StakeToken.call ctx (StakeToken.Mint amount) i) = Ok VNone /\
  StakeToken.total_supply (slots i')
  = StakeToken.total_supply (slots i) + amount /\
  StakeToken.owner_balance (slots i')
  = StakeToken.owner_balance (slots i) + amount /\
  StakeToken.name (slots i') = StakeToken.name (slots i) /\
  StakeToken.symbol (slots i') = StakeToken.symbol (slots i) /\
  StakeToken.decimals (slots i') = StakeToken.decimals (slots i) /\
  StakeToken.owner (slots i') = StakeToken.owner (slots i) /\
  StakeToken.is_paused (slots i') = StakeToken.is_paused (slots i) /\
  StakeToken.user_balance (slots i') = StakeToken.user_balance (slots i) /\
  StakeToken.user_stake (slots i') = StakeToken.user_stake (slots i) /\
  StakeToken.user_reward (slots i') = StakeToken.user_reward (slots i) /\
  StakeToken.reward_rate (slots i') = StakeToken.reward_rate (slots i) /\
  events i'
  = events i ++ [("Mint"%string,
                  [VInt amount;
                   VInt (StakeToken.total_supply (slots i) + amount)])].
Proof. destruct i as [s ev]. cbv zeta. repeat split. Qed.

(** ** Read operations *)

Section ReadOnly.

Lemma counter_reads (o : Counter.op) :
  Counter.tag o = Read -> read_only (Counter.call o).
Proof.
  destruct o; cbn; try discriminate. intros _ [s ev].
  eexists. reflexivity.
Qed.

Lemma storage_reads (o : SimpleStorage.op) :
  SimpleStorage.tag o = Read -> read_only (SimpleStorage.call o).
Proof.
  destruct o; cbn; try discriminate. intros _ [s ev].
  eexists. reflexivity.
Qed.

Lemma beginner_reads (ctx : context) (o : BeginnerToken.op) :
  BeginnerToken.tag o = Read -> read_only (BeginnerToken.call ctx o).
Proof.
  destruct o; cbn; try discriminate; intros _ [s ev];
    eexists; reflexivity.
Qed.

Lemma stake_reads (ctx : context) (o : StakeToken.op) :
  StakeToken.tag o = Read -> read_only (StakeToken.call ctx o).
Proof.
  destruct o; cbn [StakeToken.tag]; try discriminate; intros _ [s ev];
    unfold StakeToken.call, StakeToken.balance_of, StakeToken.stake_of,
      StakeToken.reward_of, StakeToken.get_name, StakeToken.get_symbol,
      StakeToken.get_decimals, StakeToken.get_total_supply,
      StakeToken.get_reward_rate;
    try (destruct (account =? 1)); py_run; eexists; reflexivity.
Qed.

Lemma mintable_reads (ctx : context) (o : MintableToken.op) :
  MintableToken.tag o = Read -> read_only (MintableToken.call ctx o).
Proof.
  destruct o; cbn; try discriminate; intros _ [s ev];
    eexists; reflexivity.
Qed.

(** [Defi.balance_of] computes the pending interest and stores nothing. *)
Lemma defi_balance_of_pure (ctx : context) (user : string)
    (i : instance Defi.state) :
  exists n, Defi.balance_of ctx user i = (Ok n, i).
Proof.
  destruct i as [s ev].
  unfold Defi.balance_of, Defi.balances_get, Defi.last_update_get. py_run.
  destruct (dict_get (Defi.balances s) user 0 =? 0); [eexists; reflexivity|].
  destruct (0 <? _); eexists; reflexivity.
Qed.

Lemma defi_reads (ctx : context) (o : Defi.op) :
  Defi.tag o = Read -> read_only (Defi.call ctx o).
Proof.
  destruct o; cbn [Defi.tag]; try discriminate; intros _ i.
  - destruct (defi_balance_of_pure ctx user i) as [n Hn].
    exists (VInt n). unfold Defi.call, bind. rewrite Hn. reflexivity.
  - destruct i as [s ev]. eexists. reflexivity.
Qed.

(** What one read leaves behind is what the next read sees. *)
Lemma read_then_read {S : Type} (m1 m2 : M (instance S) value) :
  read_only m1 -> forall i, m2 (snd (m1 i)) = m2 i.
Proof. intros H1 i. destruct (H1 i) as [v Hv]. rewrite Hv. reflexivity. Qed.

End ReadOnly.

(** C3. On every contract, an operation tagged [Read] returns a value and
    leaves every slot and the event log exactly as they were; hence any
    operation run after a read behaves as if the read had not happened. In
    particular [Defi.balance_of] returns the balance with the pending interest
    without writing it back. *)
Theorem read_operations_do_not_mutate :
  (forall o, Counter.tag o = Read -> read_only (Counter.call o)) /\
  (forall o, SimpleStorage.tag o = Read -> read_only (SimpleStorage.call o)) /\
  (forall ctx o, BeginnerToken.tag o = Read ->
                 read_only (BeginnerToken.call ctx o)) /\
  (forall ctx o, StakeToken.tag o = Read -> read_only (StakeToken.call ctx o)) /\
  (forall ctx o, Defi.tag o = Read -> read_only (Defi.call ctx o)) /\
  (forall ctx o, MintableToken.tag o = Read ->
                 read_only (MintableToken.call ctx o)) /\
  (forall ctx user i, exists n, Defi.balance_of ctx user i = (Ok n, i)) /\
  (forall (S : Type) (m1 m2 : M (instance S) value),
     read_only m1 -> forall i, m2 (snd (m1 i)) = m2 i).
Proof.
  repeat split.
  - apply counter_reads.
  - apply storage_reads.
  - apply beginner_reads.
  - apply stake_reads.
  - apply defi_reads.
  - apply mintable_reads.
  - apply defi_balance_of_pure.
  - intros S m1 m2. apply read_then_read.
Qed.

(** A read of Bob's balance in the pool, two blocks after his deposit: the
    answer includes the interest, the pool is as before, and a second read
    gives the same answer. *)
Lemma read_operations_do_not_mutate_witness :
  Defi.tag (Defi.BalanceOf "0xbob") = Read /\
  let later := {| msg_sender := "0xcarol"; block_number := 14 |} in
  Defi.call later (Defi.BalanceOf "0xbob") Scenario.defi_bob
  = (Ok (VInt 5050), Scenario.defi_bob) /\
  Defi.call later (Defi.BalanceOf "0xbob")
    (snd (Defi.call later (Defi.BalanceOf "0xbob") Scenario.defi_bob))
  = Defi.call later (Defi.BalanceOf "0xbob") Scenario.defi_bob.
Proof.
  split; [reflexivity|]. cbv zeta. split; [vm_compute; reflexivity|].
  destruct read_operations_do_not_mutate as (_ & _ & _ & _ & Hdefi & _ & _ & Hrr).
  apply Hrr, Hdefi. reflexivity.
Defined.

(** ** Missing keys of a balances mapping *)

(** C7. For an account with no entry in the balances mapping, [balance_of]
    returns 0, without raising and without touching the contract, in
    BeginnerToken, in MintableToken and in Defi. *)
Theorem balance_of_missing_key_is_zero (account : string) (ctx : context)
    (b : instance BeginnerToken.state) (m : instance MintableToken.state)
    (d : instance Defi.state) :
  BeginnerToken.balances (slots b) !! account = None ->
  MintableToken.balances (slots m) !! account = None ->
  Defi.balances (slots d) !! account = None ->
  BeginnerToken.balance_of account b = (Ok 0, b) /\
  MintableToken.balance_of account m = (Ok 0, m) /\
  Defi.balance_of ctx account d = (Ok 0, d).
Proof.
  intros Hb Hm Hd. destruct b as [sb eb], m as [sm em], d as [sd ed].
  cbn [slots] in *.
  unfold BeginnerToken.balance_of, BeginnerToken.balances_get,
    MintableToken.balance_of, MintableToken.balances_get,
    Defi.balance_of, Defi.balances_get.
  py_run. unfold dict_get. rewrite Hb, Hm, Hd. repeat split.
Qed.

Lemma balance_of_missing_key_is_zero_witness :
  BeginnerToken.balance_of "0xnobody" (BeginnerToken.__init__ Scenario.deployer)
  = (Ok 0, BeginnerToken.__init__ Scenario.deployer) /\
  MintableToken.balance_of "0xnobody" (MintableToken.__init__ Scenario.deployer)
  = (Ok 0, MintableToken.__init__ Scenario.deployer) /\
  Defi.balance_of Scenario.bob "0xnobody" Scenario.defi_bob
  = (Ok 0, Scenario.defi_bob).
Proof.
  apply (balance_of_missing_key_is_zero "0xnobody" Scenario.bob
           (BeginnerToken.__init__ Scenario.deployer)
           (MintableToken.__init__ Scenario.deployer)
           Scenario.defi_bob); vm_compute; reflexivity.
Defined.

(** ** BeginnerToken: the supply invariant *)

Lemma dict_sum_insert (d : gmap string Z) (k : string) (v : Z) :
  dict_sum (<[k := v]> d) = dict_sum d - dict_get d k 0 + v.
Proof.
  unfold dict_sum, dict_get.
  destruct (d !! k) as [old|] eqn:Hk.
  - rewrite <- (insert_delete_eq d k v).
    rewrite map_fold_insert_L; [| intros; lia | apply lookup_delete_eq].
    rewrite (map_fold_delete_L _ 0 k old d); [lia | intros; lia | exact Hk].
  - rewrite map_fold_insert_L; [lia | intros; lia | exact Hk].
Qed.

Section BeginnerFacts.
Import BeginnerToken.

Ltac beginner_run :=
  unfold call, transfer, mint, burn, balance_of, get_name, get_symbol,
    get_total_supply, balances_get, balances_getitem, balances_setitem;
  py_run.

Ltac beginner_sum :=
  unfold supply_matches;
  cbn [fst snd slots balances total_supply set_balances set_total_supply owner];
  intros Hs; rewrite !dict_sum_insert.

Lemma beginner_init_supply (ctx : context) : supply_matches (__init__ ctx).
Proof.
  unfold supply_matches, __init__, balances_setitem. py_run.
  cbn. rewrite dict_sum_insert. reflexivity.
Qed.



Lemma beginner_transfer_outcome (ctx : context) (to : string) (amount : Z)
    (i : instance state) :
  match fst (transfer ctx to amount i) with
  | Ok _ => supply_matches i -> supply_matches (snd (transfer ctx to amount i))
  | Raise _ => snd (transfer ctx to amount i) = i
  end.
Proof.
  destruct i as [s ev]. beginner_run.
  destruct (Z.ltb_spec (dict_get (balances s) (msg_sender ctx) 0) amount);
    [reflexivity|]. cbn [fst snd].
  destruct (Z.leb_spec amount 0); [reflexivity|].
  beginner_sum. lia.
Qed.

Lemma beginner_mint_outcome (ctx : context) (amount : Z) (i : instance state) :
  match fst (mint ctx amount i) with
  | Ok _ => supply_matches i -> supply_matches (snd (mint ctx amount i))
  | Raise _ => snd (mint ctx amount i) = i
  end.
Proof.
  destruct i as [s ev]. beginner_run.
  destruct (bool_decide _); [reflexivity|]. cbn [fst snd].
  destruct (Z.leb_spec amount 0); [reflexivity|].
  beginner_sum. cbn [total_supply set_total_supply]. lia.
Qed.

Lemma beginner_burn_outcome (ctx : context) (amount : Z) (i : instance state) :
  match fst (burn ctx amount i) with
  | Ok _ => supply_matches i -> supply_matches (snd (burn ctx amount i))
  | Raise _ => snd (burn ctx amount i) = i
  end.
Proof.
  destruct i as [s ev]. beginner_run.
  destruct (Z.ltb_spec (dict_get (balances s) (msg_sender ctx) 0) amount);
    [reflexivity|]. cbn [fst snd].
  destruct (Z.leb_spec amount 0); [reflexivity|]. cbn [fst snd slots].
  destruct (balances s !! msg_sender ctx) as [cur|] eqn:Hcur; [|reflexivity].
  beginner_sum. cbn [total_supply set_total_supply].
  unfold dict_get. rewrite Hcur. lia.
Qed.

Lemma beginner_call_outcome (ctx : context) (o : op) (i : instance state) :
  match fst (call ctx o i) with
  | Ok _ => supply_matches i -> supply_matches (snd (call ctx o i))
  | Raise _ => snd (call ctx o i) = i
  end.
Proof.
  destruct o.
  1-4: destruct i as [s ev]; cbn; intros Hs; exact Hs.
  - pose proof (beginner_transfer_outcome ctx to amount i) as Ht.
    unfold call, bind. destruct (transfer ctx to amount i) as [[[]|e] i'];
      exact Ht.
  - pose proof (beginner_mint_outcome ctx amount i) as Ht.
    unfold call, bind. destruct (mint ctx amount i) as [[[]|e] i'];
      exact Ht.
  - pose proof (beginner_burn_outcome ctx amount i) as Ht.
    unfold call, bind. destruct (burn ctx amount i) as [[[]|e] i'];
      exact Ht.
Qed.
End BeginnerFacts.

(** C9. In BeginnerToken the balances add up to [total_supply]: this holds
    of a freshly constructed contract, whose creator holds the whole supply,
    and every call ([transfer], [mint], [burn] or a read) that returns
    normally keeps it, while a call that raises leaves the whole instance,
    balances and [total_supply] included, exactly as it was. *)
Theorem beginner_supply_invariant (ctx : context) (o : BeginnerToken.op)
    (i : instance BeginnerToken.state) :
  BeginnerToken.supply_matches i ->
  BeginnerToken.supply_matches (BeginnerToken.__init__ ctx) /\
  match fst (BeginnerToken.call ctx o i) with
  | Ok _ => BeginnerToken.supply_matches (snd (BeginnerToken.call ctx o i))
  | Raise _ => snd (BeginnerToken.call ctx o i) = i
  end.
Proof.
  intros Hi. split; [apply beginner_init_supply|].
  pose proof (beginner_call_outcome ctx o i) as H.
  destruct (fst (BeginnerToken.call ctx o i)); auto.
Qed.

Lemma beginner_supply_invariant_witness :
  BeginnerToken.supply_matches (BeginnerToken.__init__ Scenario.deployer) /\
  fst (BeginnerToken.call Scenario.deployer (BeginnerToken.Transfer "0xbob" 100)
         (BeginnerToken.__init__ Scenario.deployer)) = Ok VNone /\
  BeginnerToken.supply_matches
    (snd (BeginnerToken.call Scenario.deployer (BeginnerToken.Transfer "0xbob" 100)
            (BeginnerToken.__init__ Scenario.deployer))).
Proof.
  assert (H0 : BeginnerToken.supply_matches
                 (BeginnerToken.__init__ Scenario.deployer))
    by (vm_compute; reflexivity).
  assert (H1 : fst (BeginnerToken.call Scenario.deployer
                      (BeginnerToken.Transfer "0xbob" 100)
                      (BeginnerToken.__init__ Scenario.deployer)) = Ok VNone)
    by (vm_compute; reflexivity).
  split; [exact H0|]. split; [exact H1|].
  pose proof (beginner_supply_invariant Scenario.deployer
                (BeginnerToken.Transfer "0xbob" 100)
                (BeginnerToken.__init__ Scenario.deployer) H0) as [_ H].
  rewrite H1 in H. exact H.
Defined.

(** ** Writes that would take a balance below zero *)

Section Overdraw.



End Overdraw.




(** ** Transaction submission *)

Lemma consecutive_prefix (l k : list Z) :
  consecutive (l ++ k) -> consecutive l.
Proof.
  induction l as [|x l IH]; [intros _; exact I|].
  destruct l as [|y l]; [intros _; exact I|].
  cbn [app consecutive]. intros [Hxy Hrest]. split; [exact Hxy|].
  apply IH. exact Hrest.
Qed.

Lemma broadcasts_app (t1 t2 : list rpc) :
  broadcasts (t1 ++ t2) = broadcasts t1 ++ broadcasts t2.
Proof. unfold broadcasts. apply omap_app. Qed.

Lemma broadcast_nonces_app (t1 t2 : list rpc) :
  broadcast_nonces (t1 ++ t2) = broadcast_nonces t1 ++ broadcast_nonces t2.
Proof. unfold broadcast_nonces. rewrite broadcasts_app. apply map_app. Qed.

Lemma reported_counts_app (t1 t2 : list rpc) :
  reported_counts (t1 ++ t2) = reported_counts t1 ++ reported_counts t2.
Proof. unfold reported_counts. apply omap_app. Qed.

Lemma sign_transaction_raw (a : Account) (tx : transaction)
    (stx : SignedTransaction) :
  sign_transaction a tx = Ok stx -> raw_transaction stx = tx.
Proof.
  unfold sign_transaction. destruct (signer a tx); [|discriminate].
  intros [= <-]. reflexivity.
Qed.

Lemma sign_transaction_fails (a : Account) (tx : transaction) (e : exn) :
  signer a tx = Raise e -> sign_transaction a tx = Raise e.
Proof. unfold sign_transaction. intros ->. reflexivity. Qed.

Section SubmissionFacts.
Import StakeTokenInteractor.
Context {Node : Type} `{LedgerClient Node}.

(** Every run of [send_transaction] is one of the listed submissions. *)
Lemma send_transaction_submission (self : self_) (fc : function_call)
    (gas_limit : Z) (w : world Node) :
  exists new out,
    trace (snd (send_transaction self fc gas_limit w)) = trace w ++ new /\
    stdout (snd (send_transaction self fc gas_limit w)) = stdout w ++ out /\
    submission self fc gas_limit new out
      (fst (send_transaction self fc gas_limit w)).
Proof.
  destruct w as [n tr out0].
  unfold send_transaction, eth_get_transaction_count, eth_gas_price,
    eth_send_raw_transaction, eth_wait_for_transaction_receipt, request,
    print, lift, bind, ret, modify.
  cbn [node trace stdout].
  destruct (get_transaction_count (address (account self)) n) as [[c|e] n1];
    cbn [node trace stdout].
  2:{ cbn. do 2 eexists. split; [reflexivity|].
      split; [symmetry; apply app_nil_r|]. constructor. }
  destruct (gas_price n1) as [[p|e] n2]; cbn [node trace stdout].
  2:{ cbn. do 2 eexists. rewrite <- app_assoc. split; [reflexivity|].
      split; [symmetry; apply app_nil_r|]. constructor. }
  destruct (sign_transaction _ _) as [stx|e] eqn:Hsign.
  2:{ cbn. do 2 eexists. rewrite <- app_assoc. split; [reflexivity|].
      split; [symmetry; apply app_nil_r|]. constructor. exact Hsign. }
  destruct (send_raw_transaction stx n2) as [[h|e] n3];
    cbn [node trace stdout].
  2:{ cbn. do 2 eexists. rewrite <- !app_assoc. split; [reflexivity|].
      split; [symmetry; apply app_nil_r|]. constructor. exact Hsign. }
  destruct (wait_for_transaction_receipt h 300 n3) as [[rc|e] n4];
    cbn [node trace stdout].
  2:{ cbn. do 2 eexists. rewrite <- !app_assoc. split; [reflexivity|].
      split; [reflexivity|]. constructor. exact Hsign. }
  destruct (Z.eqb_spec (status rc) 1) as [Hst|Hst]; cbn;
    do 2 eexists; rewrite <- !app_assoc;
    (split; [reflexivity|]); (split; [reflexivity|]).
  - apply ReceiptSuccess; assumption.
  - apply ReceiptFailure; assumption.
Qed.

(** In a submission the nonce handed to broadcast is the count the node
    reported; a submission that returns has broadcast exactly once. *)
Lemma submission_nonces self fc gas_limit new out r :
  submission self fc gas_limit new out r ->
  broadcast_nonces new `prefix_of` reported_counts new /\
  (is_ok r = true -> broadcast_nonces new = reported_counts new).
Proof.
  intros Hsub.
  destruct Hsub as [e|c e|c p e Hs|c p stx e Hs|c p stx h e Hs
                   |c p stx h rc Hs Hst|c p stx h rc Hs Hst];
    try apply sign_transaction_raw in Hs;
    unfold broadcast_nonces, broadcasts, reported_counts; cbn;
    try rewrite Hs; cbn;
    (split; [first [apply prefix_nil | reflexivity] | ]);
    first [discriminate | reflexivity].
Qed.

Lemma submission_broadcasts_once self fc gas_limit new out r :
  submission self fc gas_limit new out r ->
  (length (broadcasts new) <= 1)%nat.
Proof. intros Hsub. destruct Hsub; cbn; lia. Qed.

Lemma submission_broadcast_error self fc gas_limit new out r stx e :
  submission self fc gas_limit new out r ->
  In (SendRawTransaction stx (Raise e)) new ->
  r = Raise e /\
  new = [GetTransactionCount (address (account self))
           (Ok (nonce (raw_transaction stx)));
         GasPrice (Ok (gasPrice (raw_transaction stx)));
         SendRawTransaction stx (Raise e)].
Proof.
  intros Hsub Hin.
  destruct Hsub as [e'|c e'|c p e' Hs|c p stx' e' Hs|c p stx' h e' Hs
                   |c p stx' h rc Hs Hst|c p stx' h rc Hs Hst];
    cbn in Hin;
    repeat (destruct Hin as [Hin|Hin]; try discriminate Hin);
    try contradiction.
  injection Hin as -> ->. apply sign_transaction_raw in Hs.
  rewrite Hs. split; reflexivity.
Qed.

(** When the envelope built from the reported count and gas price cannot be
    signed, the two queries are all that is asked of the node. *)
Lemma submission_signing_error self fc gas_limit new out r c p e :
  submission self fc gas_limit new out r ->
  In (GetTransactionCount (address (account self)) (Ok c)) new ->
  In (GasPrice (Ok p)) new ->
  signer (account self)
    (build_transaction (contract_address self) fc (address (account self))
       gas_limit p c 43113) = Raise e ->
  new = [GetTransactionCount (address (account self)) (Ok c);
         GasPrice (Ok p)] /\
  r = Raise e.
Proof.
  intros Hsub Hc Hp Hno. apply sign_transaction_fails in Hno.
  destruct Hsub as [e'|c' e'|c' p' e' Hs|c' p' stx e' Hs|c' p' stx h e' Hs
                   |c' p' stx h rc Hs Hst|c' p' stx h rc Hs Hst];
    cbn in Hc, Hp;
    repeat (destruct Hc as [Hc|Hc]; try discriminate Hc);
    try contradiction;
    repeat (destruct Hp as [Hp|Hp]; try discriminate Hp);
    try contradiction;
    injection Hc as ->; injection Hp as ->;
    rewrite Hno in Hs; try discriminate Hs.
  injection Hs as ->. split; reflexivity.
Qed.


Lemma send_all_nonces (self : self_) (fcs : list function_call) :
  forall w : world Node,
  exists new,
    trace (snd (send_all self fcs w)) = trace w ++ new /\
    broadcast_nonces new `prefix_of` reported_counts new /\
    (is_ok (fst (send_all self fcs w)) = true ->
     broadcast_nonces new = reported_counts new).
Proof.
  induction fcs as [|fc rest IH]; intros w.
  - exists []. cbn. split; [symmetry; apply app_nil_r|].
    split; [apply prefix_nil | reflexivity].
  - destruct (send_transaction_submission self fc 200000 w)
      as (new1 & out1 & Htr1 & _ & Hsub).
    apply submission_nonces in Hsub as [Hpre1 Heq1].
    assert (Hstep : send_all self (fc :: rest) w
                    = match send_transaction self fc 200000 w with
                      | (Ok r, w1) =>
                          match send_all self rest w1 with
                          | (Ok rs, w2) => (Ok (r :: rs), w2)
                          | (Raise e, w2) => (Raise e, w2)
                          end
                      | (Raise e, w1) => (Raise e, w1)
                      end) by reflexivity.
    rewrite Hstep. clear Hstep.
    destruct (send_transaction self fc 200000 w) as [[r|e] w1];
      cbn [fst snd] in *.
    + specialize (Heq1 eq_refl).
      destruct (IH w1) as (new2 & Htr2 & Hpre2 & Heq2).
      exists (new1 ++ new2).
      destruct (send_all self rest w1) as [[rs|e] w2]; cbn [fst snd] in *;
        (split; [rewrite Htr2, Htr1; symmetry; apply app_assoc|]);
        rewrite broadcast_nonces_app, reported_counts_app, Heq1.
      * split; [apply prefix_app, Hpre2|]. intros _.
        rewrite (Heq2 eq_refl). reflexivity.
      * split; [apply prefix_app, Hpre2 | cbn; discriminate].
    + exists new1. split; [exact Htr1|].
      split; [exact Hpre1 | cbn; discriminate].
Qed.
End SubmissionFacts.

Lemma nonces_follow_counts_app (t1 t2 : list rpc) :
  forall last,
    nonces_follow_counts last t1 ->
    (forall last', nonces_follow_counts last' t2) ->
    nonces_follow_counts last (t1 ++ t2).
Proof.
  induction t1 as [|entry rest IH]; intros last H1 H2; [apply H2|].
  destruct entry as [a r|a [c|e]|r|stx r|h t r|fc r]; cbn in *;
    try (apply IH; assumption).
  destruct H1 as [Hl Hrest]. split; [exact Hl|]. apply IH; assumption.
Qed.

Section NonceFacts.
Context {Node : Type} `{LedgerClient Node}.

Lemma quiet_issues {A} (m : M (world Node) A) :
  (forall w, trace (snd (m w)) = trace w) -> issues_node_counts m.
Proof.
  intros Hq w. exists []. rewrite app_nil_r. split; [apply Hq|].
  intros last. exact I.
Qed.

Lemma ret_issues {A} (a : A) : issues_node_counts (Node := Node) (ret a).
Proof. apply quiet_issues. reflexivity. Qed.

Lemma print_issues (o : output) : issues_node_counts (Node := Node) (print o).
Proof. apply quiet_issues. reflexivity. Qed.

Lemma bind_issues {A B} (m : M (world Node) A) (k : A -> M (world Node) B) :
  issues_node_counts m -> (forall a, issues_node_counts (k a)) ->
  issues_node_counts (bind m k).
Proof.
  intros Hm Hk w. destruct (Hm w) as (new1 & Htr1 & Hn1).
  unfold bind. destruct (m w) as [[a|e] w1]; cbn [fst snd] in *.
  - destruct (Hk a w1) as (new2 & Htr2 & Hn2).
    exists (new1 ++ new2). split.
    + rewrite Htr2, Htr1. symmetry. apply app_assoc.
    + intros last. apply nonces_follow_counts_app; [apply Hn1 | exact Hn2].
  - exists new1. split; assumption.
Qed.

Lemma try_except_issues {A} (body : M (world Node) A)
    (handler : exn -> M (world Node) A) :
  issues_node_counts body -> (forall e, issues_node_counts (handler e)) ->
  issues_node_counts (try_except body handler).
Proof.
  intros Hm Hk w. destruct (Hm w) as (new1 & Htr1 & Hn1).
  unfold try_except. destruct (body w) as [[a|e] w1]; cbn [fst snd] in *.
  - exists new1. split; assumption.
  - destruct (Hk e w1) as (new2 & Htr2 & Hn2).
    exists (new1 ++ new2). split.
    + rewrite Htr2, Htr1. symmetry. apply app_assoc.
    + intros last. apply nonces_follow_counts_app; [apply Hn1 | exact Hn2].
Qed.

(** A request that is not a broadcast. *)
Lemma request_issues {A} (m : M Node A) (entry : result A -> rpc) :
  (forall r last, nonces_follow_counts last [entry r]) ->
  issues_node_counts (request m entry).
Proof.
  intros Hq w. unfold request. destruct (m (node w)) as [r n'].
  exists [entry r]. split; [reflexivity | apply Hq].
Qed.

Lemma submit_issues contract_address account what fc gas_ :
  issues_node_counts
    (TestStakeTransactions.submit (Node := Node) contract_address account
     what fc gas_).
Proof.
  intros w. destruct w as [n tr out0].
  unfold TestStakeTransactions.submit, eth_get_transaction_count,
    eth_gas_price, eth_send_raw_transaction,
    eth_wait_for_transaction_receipt, request, print, lift, bind, ret, modify.
  cbn [node trace stdout].
  destruct (get_transaction_count (address account) n) as [[c|e] n1];
    cbn [node trace stdout fst snd].
  2:{ eexists. split; [reflexivity|]. intros last. exact I. }
  destruct (gas_price n1) as [[p|e] n2]; cbn [node trace stdout fst snd].
  2:{ eexists. rewrite <- app_assoc. split; [reflexivity|]. intros last. exact I. }
  destruct (sign_transaction _ _) as [stx|e] eqn:Hsign.
  2:{ eexists. rewrite <- app_assoc. split; [reflexivity|]. intros last. exact I. }
  apply sign_transaction_raw in Hsign.
  destruct (send_raw_transaction stx n2) as [[h|e] n3];
    cbn [node trace stdout fst snd].
  2:{ eexists. rewrite <- !app_assoc. split; [reflexivity|]. intros last.
      cbn. rewrite Hsign. cbn. split; reflexivity. }
  destruct (wait_for_transaction_receipt h 300 n3) as [r n4];
    cbn [node trace stdout fst snd].
  eexists. rewrite <- !app_assoc. split; [reflexivity|]. intros last.
  cbn. rewrite Hsign. cbn. split; reflexivity.
Qed.

Lemma send_transaction_issues self fc gas_limit :
  issues_node_counts
    (StakeTokenInteractor.send_transaction (Node := Node) self fc gas_limit).
Proof.
  intros w.
  destruct (send_transaction_submission self fc gas_limit w)
    as (new & out & Htr & _ & Hsub).
  exists new. split; [exact Htr|]. intros last.
  destruct Hsub as [e|c e|c p e Hs|c p stx e Hs|c p stx h e Hs
                   |c p stx h rc Hs Hst|c p stx h rc Hs Hst];
    try apply sign_transaction_raw in Hs; cbn; try rewrite Hs; cbn;
    repeat split.
Qed.

Lemma send_all_issues self fcs :
  issues_node_counts (StakeTokenInteractor.send_all (Node := Node) self fcs).
Proof.
  induction fcs as [|fc rest IH]; cbn [StakeTokenInteractor.send_all].
  - apply ret_issues.
  - apply bind_issues; [apply send_transaction_issues|]. intros r.
    apply bind_issues; [exact IH|]. intros rs. apply ret_issues.
Qed.

(** Take a script apart along its binds, handlers and branches. *)
Ltac issues_step :=
  first
    [ apply ret_issues
    | apply print_issues
    | apply submit_issues
    | apply request_issues; intros ? ?; exact I
    | apply bind_issues; [|intros ?]
    | apply try_except_issues; [|intros ?]
    | match goal with
      | |- issues_node_counts (if ?c then _ else _) => destruct c
      end ].

Lemma test_stake_transactions_issues contract_address account :
  issues_node_counts
    (TestStakeTransactions.test_stake_transactions (Node := Node)
       contract_address account).
Proof.
  unfold TestStakeTransactions.test_stake_transactions,
    TestStakeTransactions.check_balances, TestStakeTransactions.test_mint,
    TestStakeTransactions.test_transfer, TestStakeTransactions.test_stake,
    TestStakeTransactions.final_summary,
    eth_get_balance, functions_owner_call, functions_balanceOf_call,
    functions_stakedBalance_call, functions_getReward_call.
  repeat issues_step.
Qed.
End NonceFacts.

(** C1 (as the code has it). The scripts keep no record of the nonces they
    have issued: in [send_transaction], over any run of successive
    submissions, and throughout [test_stake_transactions], every transaction
    handed to broadcast carries as its nonce the transaction count the node
    reported when it was built. Over a run of successive submissions the
    nonces broadcast are thus, in order, the counts the node reported (all of
    them when the run returns, a leading part when a step raised), and they
    are strictly increasing without gap or repeat whenever the reported
    counts are. *)
Theorem broadcast_nonces_are_reported_counts {Node : Type}
    `{LedgerClient Node} (self : StakeTokenInteractor.self_)
    (fcs : list function_call) (contract_address : string)
    (account : Account) (w : world Node) :
  (exists new,
     trace (snd (StakeTokenInteractor.send_all self fcs w)) = trace w ++ new /\
     (forall last, nonces_follow_counts last new) /\
     broadcast_nonces new `prefix_of` reported_counts new /\
     (is_ok (fst (StakeTokenInteractor.send_all self fcs w)) = true ->
      broadcast_nonces new = reported_counts new) /\
     (consecutive (reported_counts new) -> consecutive (broadcast_nonces new))) /\
  (exists new,
     trace (snd (TestStakeTransactions.test_stake_transactions
                   contract_address account w)) = trace w ++ new /\
     (forall last, nonces_follow_counts last new)).
Proof.
  split.
  - destruct (send_all_nonces self fcs w) as (new & Htr & Hpre & Heq).
    destruct (send_all_issues self fcs w) as (new' & Htr' & Hfol).
    assert (new' = new) as ->.
    { rewrite Htr in Htr'. apply app_inv_head in Htr'. congruence. }
    exists new. repeat split; try assumption.
    destruct Hpre as [k Hk]. rewrite Hk. apply consecutive_prefix.
  - apply test_stake_transactions_issues.
Qed.

(** Three submissions against a node that includes each transaction at once:
    the node reports 7, 8, 9 and these are the nonces broadcast. *)
Lemma broadcast_nonces_are_reported_counts_witness :
  let w' := snd (StakeTokenInteractor.send_all (Node := FakeLedger.fake)
                   FakeLedger.interactor
                   [FakeLedger.mint_call 5; FakeLedger.transfer_call "0xdEaD" 1;
                    FakeLedger.stake_call 2]
                   (FakeLedger.start [])) in
  consecutive (reported_counts (trace w')) /\
  broadcast_nonces (trace w') = [7; 8; 9] /\
  consecutive (broadcast_nonces (trace w')).
Proof.
  cbv zeta.
  destruct (broadcast_nonces_are_reported_counts (Node := FakeLedger.fake)
              FakeLedger.interactor
              [FakeLedger.mint_call 5; FakeLedger.transfer_call "0xdEaD" 1;
               FakeLedger.stake_call 2]
              FakeLedger.STK FakeLedger.alice
              (FakeLedger.start [])) as [(new & Htr & _ & _ & _ & Hcons) _].
  change (trace (FakeLedger.start [])) with (@nil rpc) in Htr.
  rewrite app_nil_l in Htr.
  assert (Hrep : consecutive (reported_counts new)).
  { rewrite <- Htr. vm_compute. repeat split. }
  split; [rewrite Htr; exact Hrep|].
  split; [vm_compute; reflexivity|].
  rewrite Htr. apply Hcons, Hrep.
Defined.

(** C1 as stated fails on [test_stake_transactions]: when the mint
    transaction stays pending past the wait, the script catches the
    exception and builds the transfer and the stake from the node's count
    again, which is still 7. The node sees the nonces 7, 7, 7; a builder that
    tracked its last issued nonce would have chosen 8 for the second. *)
Lemma test_script_reuses_pending_nonce :
  let w' := snd (TestStakeTransactions.test_stake_transactions
                   (Node := FakeLedger.fake) FakeLedger.STK FakeLedger.alice
                   (FakeLedger.start
                      [FakeLedger.Hold;
                       FakeLedger.Refuse
                         (NodeRejected "replacement transaction underpriced");
                       FakeLedger.Refuse
                         (NodeRejected "replacement transaction underpriced")])) in
  broadcast_nonces (trace w') = [7; 7; 7] /\
  ~ consecutive (broadcast_nonces (trace w')) /\
  tracked_nonce (Some 7) 7 = 8.
Proof.
  cbv zeta. split; [vm_compute; reflexivity|].
  split; [|reflexivity].
  vm_compute. intros [Habs _]. discriminate Habs.
Qed.

(** C4 (as the code has it). [send_transaction] hands a transaction to
    broadcast at most once. Whatever error the broadcast raises, a transient
    network error as much as a rejection by the node, is raised to the caller
    at once with no second attempt: the two queries and that one broadcast
    are all the requests made. A failure to sign is not retried either: when
    the transaction built from the count and the gas price the node reported
    cannot be signed, the error of the signing is raised to the caller, the
    two queries are all the requests made, and nothing is broadcast. *)
Theorem broadcast_is_never_retried {Node : Type} `{LedgerClient Node}
    (self : StakeTokenInteractor.self_) (fc : function_call) (gas_limit : Z)
    (w : world Node) :
  let addr := address (StakeTokenInteractor.account self) in
  exists new,
    trace (snd (StakeTokenInteractor.send_transaction self fc gas_limit w))
    = trace w ++ new /\
    (length (broadcasts new) <= 1)%nat /\
    (forall stx e,
       In (SendRawTransaction stx (Raise e)) new ->
       fst (StakeTokenInteractor.send_transaction self fc gas_limit w)
       = Raise e /\
       new = [GetTransactionCount addr (Ok (nonce (raw_transaction stx)));
              GasPrice (Ok (gasPrice (raw_transaction stx)));
              SendRawTransaction stx (Raise e)]) /\
    (forall c p e,
       In (GetTransactionCount addr (Ok c)) new ->
       In (GasPrice (Ok p)) new ->
       signer (StakeTokenInteractor.account self)
         (build_transaction (StakeTokenInteractor.contract_address self) fc
            addr gas_limit p c 43113) = Raise e ->
       new = [GetTransactionCount addr (Ok c); GasPrice (Ok p)] /\
       broadcasts new = [] /\
       fst (StakeTokenInteractor.send_transaction self fc gas_limit w)
       = Raise e).
Proof.
  cbv zeta.
  destruct (send_transaction_submission self fc gas_limit w)
    as (new & out & Htr & _ & Hsub).
  exists new. split; [exact Htr|]. split; [|split].
  - eapply submission_broadcasts_once, Hsub.
  - intros stx e. eapply submission_broadcast_error, Hsub.
  - intros c p e Hc Hp Hno.
    destruct (submission_signing_error _ _ _ _ _ _ c p e Hsub Hc Hp Hno)
      as [-> Hr].
    split; [reflexivity|]. split; [reflexivity | exact Hr].
Qed.

(** A node that refuses the transaction for insufficient funds: one
    broadcast, and the refusal reaches the caller. An account that cannot
    sign the transaction built from count 7 and the reported gas price: the
    two queries, and nothing is broadcast. *)
Lemma broadcast_is_never_retried_witness :
  let rw := StakeTokenInteractor.send_transaction (Node := FakeLedger.fake)
              FakeLedger.interactor (FakeLedger.mint_call 5) 200000
              (FakeLedger.start
                 [FakeLedger.Refuse (NodeRejected "insufficient funds")]) in
  let rw' := StakeTokenInteractor.send_transaction (Node := FakeLedger.fake)
               FakeLedger.keyless (FakeLedger.mint_call 5) 200000
               (FakeLedger.start []) in
  (exists stx,
     In (SendRawTransaction stx (Raise (NodeRejected "insufficient funds")))
        (trace (snd rw))) /\
  fst rw = Raise (NodeRejected "insufficient funds") /\
  trace (snd rw')
  = [GetTransactionCount "0xBAD" (Ok 7); GasPrice (Ok 25000000000)] /\
  broadcasts (trace (snd rw')) = [] /\
  fst rw' = Raise SigningError.
Proof.
  cbv zeta.
  destruct (broadcast_is_never_retried (Node := FakeLedger.fake)
              FakeLedger.interactor (FakeLedger.mint_call 5) 200000
              (FakeLedger.start
                 [FakeLedger.Refuse (NodeRejected "insufficient funds")]))
    as (new & Htr & _ & Herr & _).
  destruct (broadcast_is_never_retried (Node := FakeLedger.fake)
              FakeLedger.keyless (FakeLedger.mint_call 5) 200000
              (FakeLedger.start []))
    as (new' & Htr' & _ & _ & Hsig).
  change (trace (FakeLedger.start
                   [FakeLedger.Refuse (NodeRejected "insufficient funds")]))
    with (@nil rpc) in Htr.
  change (trace (FakeLedger.start [])) with (@nil rpc) in Htr'.
  rewrite app_nil_l in Htr, Htr'.
  assert (Hin : exists stx,
             In (SendRawTransaction stx
                   (Raise (NodeRejected "insufficient funds"))) new).
  { rewrite <- Htr. vm_compute. eexists. right; right; left. reflexivity. }
  split; [rewrite Htr; exact Hin|].
  split; [destruct Hin as [stx Hin]; exact (proj1 (Herr stx _ Hin))|].
  rewrite Htr'.
  apply (Hsig 7 25000000000 SigningError).
  - rewrite <- Htr'. vm_compute. left. reflexivity.
  - rewrite <- Htr'. vm_compute. right; left. reflexivity.
  - reflexivity.
Defined.

(** C4 as stated fails on a transient error: the node cannot be reached at
    the first broadcast and would accept a second one, but
    [send_transaction] broadcasts once and raises the connection error. *)
Lemma transient_broadcast_error_is_not_retried :
  let rw := StakeTokenInteractor.send_transaction (Node := FakeLedger.fake)
              FakeLedger.interactor (FakeLedger.mint_call 5) 200000
              (FakeLedger.start [FakeLedger.Refuse ConnectionError]) in
  fst rw = Raise ConnectionError /\
  length (broadcasts (trace (snd rw))) = 1%nat /\
  (forall stx,
     fst (send_raw_transaction stx (node (snd rw))) = Ok 4096).
Proof. cbv zeta. repeat split. Qed.




(** ** Counter: the event log and the count *)

Lemma count_of_log_snoc (evs : list (string * list value)) (name : string)
    (payload : list value) :
  count_of_log (evs ++ [(name, payload)])
  = match payload with [VInt n] => n | _ => 0 end.
Proof. unfold count_of_log. rewrite last_snoc. reflexivity. Qed.

Lemma counter_call_keeps_log (o : Counter.op) (i : instance Counter.state) :
  Counter.count (slots i) = count_of_log (events i) ->
  Counter.count (slots (snd (Counter.call o i)))
  = count_of_log (events (snd (Counter.call o i))).
Proof.
  destruct i as [[c] ev]. cbn [slots events Counter.count]. intros Hc.
  destruct o;
    unfold Counter.call, Counter.increment, Counter.decrement,
      Counter.get_count, Counter.reset; py_run; cbn [Counter.count].
  - cbn. rewrite count_of_log_snoc. reflexivity.
  - destruct (0 <? c); cbn; [rewrite count_of_log_snoc; reflexivity | exact Hc].
  - cbn. exact Hc.
  - cbn. rewrite count_of_log_snoc. reflexivity.
Qed.

(** X1. After any sequence of calls on a freshly constructed Counter, the
    count is the one the event log speaks of: the payload of the latest
    event, and 0 when the log is empty or its latest event is [Reset]. *)
Theorem counter_count_is_in_the_log (ops : list Counter.op) :
  Counter.count (slots (Counter.run ops Counter.__init__))
  = count_of_log (events (Counter.run ops Counter.__init__)).
Proof.
  assert (Hgen : forall i,
             Counter.count (slots i) = count_of_log (events i) ->
             Counter.count (slots (Counter.run ops i))
             = count_of_log (events (Counter.run ops i))).
  { induction ops as [|o rest IH]; intros i Hi; cbn [Counter.run];
      [exact Hi|]. apply IH, counter_call_keeps_log, Hi. }
  apply Hgen. reflexivity.
Qed.

(** X2. On a Counter whose count is not negative, [increment] followed by
    [decrement] brings the count back to what it was; both calls return
    normally and the log gains the two events, carrying the count plus one
    and the count. *)
Theorem counter_increment_then_decrement (i : instance Counter.state) :
  0 <= Counter.count (slots i) ->
  exists j k,
    Counter.increment i = (Ok tt, j) /\
    Counter.decrement j = (Ok tt, k) /\
    Counter.count (slots k) = Counter.count (slots i) /\
    events k = events i
               ++ [("Incremented"%string, [VInt (Counter.count (slots i) + 1)]);
                   ("Decremented"%string, [VInt (Counter.count (slots i))])].
Proof.
  destruct i as [[c] ev]. cbn [slots events Counter.count]. intros Hc.
  assert (Hpos : (0 <? c + 1) = true) by (apply Z.ltb_lt; lia).
  exists {| slots := {| Counter.count := c + 1 |};
            events := ev ++ [("Incremented"%string, [VInt (c + 1)])] |},
         {| slots := {| Counter.count := c + 1 - 1 |};
            events := (ev ++ [("Incremented"%string, [VInt (c + 1)])])
                      ++ [("Decremented"%string, [VInt (c + 1 - 1)])] |}.
  split; [reflexivity|]. split.
  - unfold Counter.decrement. py_run. cbn [Counter.count]. rewrite Hpos.
    reflexivity.
  - cbn [slots events Counter.count]. split; [lia|].
    rewrite <- app_assoc. replace (c + 1 - 1) with c by lia. reflexivity.
Qed.

Lemma counter_increment_then_decrement_witness :
  exists j k,
    Counter.increment Counter.__init__ = (Ok tt, j) /\
    Counter.decrement j = (Ok tt, k) /\
    Counter.count (slots k) = Counter.count (slots Counter.__init__) /\
    events k = events Counter.__init__
               ++ [("Incremented"%string,
                    [VInt (Counter.count (slots Counter.__init__) + 1)]);
                   ("Decremented"%string,
                    [VInt (Counter.count (slots Counter.__init__))])].
Proof.
  apply (counter_increment_then_decrement Counter.__init__). cbn. lia.
Defined.

(** ** SimpleStorage: the last write wins *)

Lemma store_all_snoc (vs : list Z) (v : Z) (i : instance SimpleStorage.state) :
  store_all (vs ++ [v]) i = snd (SimpleStorage.set v (store_all vs i)).
Proof. unfold store_all. rewrite foldl_app. reflexivity. Qed.

(** X3. After successive [set] calls, [get] returns the value of the last
    call (the value stored before, when there was no call), and the event
    log has gained one [DataStored] event per call, in call order, each
    carrying the value set. *)
Theorem storage_last_write_wins (vs : list Z)
    (i : instance SimpleStorage.state) :
  SimpleStorage.get (store_all vs i)
  = (Ok (default (SimpleStorage.stored_data (slots i)) (last vs)),
     store_all vs i) /\
  events (store_all vs i)
  = events i ++ map (fun v => ("DataStored"%string, [VInt v])) vs.
Proof.
  induction vs as [|v vs IH] using rev_ind.
  - destruct i as [[d] ev]. cbn. rewrite app_nil_r. split; reflexivity.
  - rewrite store_all_snoc, last_snoc, map_app, app_assoc.
    destruct IH as [_ IHev]. rewrite <- IHev.
    destruct (store_all vs i) as [[d] ev]. split; reflexivity.
Qed.

(** ** BeginnerToken: transfers, minting and burning *)

Lemma dict_get_insert (d : gmap string Z) (k k' : string) (v x : Z) :
  dict_get (<[k := v]> d) k' x
  = if bool_decide (k' = k) then v else dict_get d k' x.
Proof.
  unfold dict_get. destruct (decide (k' = k)) as [->|Hne].
  - rewrite lookup_insert_eq, bool_decide_eq_true_2; reflexivity.
  - rewrite lookup_insert_ne by congruence.
    rewrite bool_decide_eq_false_2 by exact Hne. reflexivity.
Qed.

Lemma no_debt_get (d : gmap string Z) (k : string) :
  no_debt d -> 0 <= dict_get d k 0.
Proof.
  intros Hd. unfold dict_get. destruct (d !! k) as [v|] eqn:Hk; [|lia].
  exact (Hd k v Hk).
Qed.

Lemma no_debt_insert (d : gmap string Z) (k : string) (v : Z) :
  0 <= v -> no_debt d -> no_debt (<[k := v]> d).
Proof. intros Hv Hd. apply map_Forall_insert_2; assumption. Qed.

Section BeginnerMore.
Import BeginnerToken.

Ltac token_run :=
  unfold call, transfer, mint, burn, balance_of, get_name, get_symbol,
    get_total_supply, balances_get, balances_getitem, balances_setitem;
  py_run.

Lemma beginner_call_no_debt (ctx : context) (o : op) (i : instance state) :
  no_debt (balances (slots i)) ->
  no_debt (balances (slots (snd (call ctx o i)))).
Proof.
  destruct i as [s ev]. cbn [slots]. intros Hd.
  pose proof (no_debt_get _ (msg_sender ctx) Hd) as Hsender.
  destruct o; token_run; try exact Hd.
  - destruct (Z.ltb_spec (dict_get (balances s) (msg_sender ctx) 0) amount);
      [exact Hd|]. cbn [fst snd].
    destruct (Z.leb_spec amount 0); [exact Hd|].
    cbn [fst snd slots balances set_balances].
    apply no_debt_insert.
    + rewrite dict_get_insert. case_bool_decide; [lia|].
      pose proof (no_debt_get _ to Hd). lia.
    + apply no_debt_insert; [lia | exact Hd].
  - destruct (bool_decide _); [exact Hd|]. cbn [fst snd].
    destruct (Z.leb_spec amount 0); [exact Hd|].
    cbn [fst snd slots balances set_balances set_total_supply owner].
    apply no_debt_insert; [|exact Hd].
    pose proof (no_debt_get _ (owner s) Hd). lia.
  - destruct (Z.ltb_spec (dict_get (balances s) (msg_sender ctx) 0) amount);
      [exact Hd|]. cbn [fst snd].
    destruct (Z.leb_spec amount 0); [exact Hd|]. cbn [fst snd slots].
    destruct (balances s !! msg_sender ctx) as [cur|] eqn:Hcur; [|exact Hd].
    cbn [fst snd slots balances set_balances set_total_supply].
    apply no_debt_insert; [|exact Hd].
    unfold dict_get in *. rewrite Hcur in *. lia.
Qed.

Lemma beginner_init_no_debt (ctx : context) :
  no_debt (balances (slots (__init__ ctx))).
Proof.
  unfold __init__, balances_setitem. py_run. cbn.
  apply no_debt_insert; [lia|]. apply map_Forall_empty.
Qed.
End BeginnerMore.

(** X4. A BeginnerToken transfer of a positive amount the sender can cover
    returns normally, takes the amount from the sender's balance and adds it
    to the recipient's (a transfer to oneself changes no balance), leaves
    every other balance and the total supply as they were, and logs one
    [Transfer] event. *)
Theorem beginner_transfer_moves_amount (ctx : context) (to : string)
    (amount : Z) (i : instance BeginnerToken.state) :
  0 < amount ->
  amount <= dict_get (BeginnerToken.balances (slots i)) (msg_sender ctx) 0 ->
  exists i',
    BeginnerToken.transfer ctx to amount i = (Ok tt, i') /\
    BeginnerToken.total_supply (slots i')
    = BeginnerToken.total_supply (slots i) /\
    events i' = events i ++ [("Transfer"%string,
                              [VStr (msg_sender ctx); VStr to; VInt amount])] /\
    forall account,
      dict_get (BeginnerToken.balances (slots i')) account 0
      = dict_get (BeginnerToken.balances (slots i)) account 0
        - (if bool_decide (account = msg_sender ctx) then amount else 0)
        + (if bool_decide (account = to) then amount else 0).
Proof.
  destruct i as [s ev]. cbn [slots events]. intros Hpos Hle.
  unfold BeginnerToken.transfer, BeginnerToken.balances_get,
    BeginnerToken.balances_setitem. py_run.
  destruct (Z.ltb_spec (dict_get (BeginnerToken.balances s) (msg_sender ctx) 0)
              amount); [lia|]. cbn [fst snd].
  destruct (Z.leb_spec amount 0); [lia|].
  cbn [fst snd slots events BeginnerToken.balances BeginnerToken.set_balances].
  eexists. split; [reflexivity|].
  cbn [slots events BeginnerToken.balances BeginnerToken.set_balances
       BeginnerToken.total_supply].
  split; [reflexivity|]. split; [reflexivity|].
  intros account. rewrite !dict_get_insert.
  repeat case_bool_decide; subst; try congruence; lia.
Qed.

Lemma beginner_transfer_moves_amount_witness :
  exists i',
    BeginnerToken.transfer Scenario.bob "0xcarol" 40 Scenario.beginner_100
    = (Ok tt, i') /\
    dict_get (BeginnerToken.balances (slots i')) "0xbob" 0 = 60 /\
    dict_get (BeginnerToken.balances (slots i')) "0xcarol" 0 = 40.
Proof.
  destruct (beginner_transfer_moves_amount Scenario.bob "0xcarol" 40
              Scenario.beginner_100) as (i' & Hrun & _ & _ & Hbal).
  - lia.
  - vm_compute. discriminate.
  - exists i'. split; [exact Hrun|].
    rewrite (Hbal "0xbob"), (Hbal "0xcarol"). vm_compute. split; reflexivity.
Defined.

(** X5. BeginnerToken accepts no zero or negative amount: [transfer],
    [mint] and [burn] of such an amount raise, whoever calls, and leave the
    contract exactly as it was. *)
Theorem beginner_rejects_nonpositive_amounts (ctx : context) (to : string)
    (amount : Z) (i : instance BeginnerToken.state) :
  amount <= 0 ->
  (exists e, BeginnerToken.transfer ctx to amount i = (Raise e, i)) /\
  (exists e, BeginnerToken.mint ctx amount i = (Raise e, i)) /\
  (exists e, BeginnerToken.burn ctx amount i = (Raise e, i)).
Proof.
  destruct i as [s ev]. intros Hle.
  unfold BeginnerToken.transfer, BeginnerToken.mint, BeginnerToken.burn,
    BeginnerToken.balances_get, BeginnerToken.balances_getitem,
    BeginnerToken.balances_setitem. py_run.
  assert (Hz : (amount <=? 0) = true) by (apply Z.leb_le; exact Hle).
  destruct (dict_get (BeginnerToken.balances s) (msg_sender ctx) 0 <? amount);
    destruct (bool_decide _); cbn [fst snd]; rewrite ?Hz;
    repeat split; eexists; reflexivity.
Qed.

Lemma beginner_rejects_nonpositive_amounts_witness :
  exists e,
    BeginnerToken.transfer Scenario.bob "0xcarol" 0 Scenario.beginner_100
    = (Raise e, Scenario.beginner_100).
Proof.
  apply (beginner_rejects_nonpositive_amounts Scenario.bob "0xcarol" 0
           Scenario.beginner_100). lia.
Defined.

(** X6. [BeginnerToken.burn] subscripts the balances mapping without a
    default, yet it never raises [KeyError]: a sender with no entry is
    stopped by the checks that come first. *)
Theorem beginner_burn_never_key_error (ctx : context) (amount : Z)
    (i : instance BeginnerToken.state) (k : string) :
  fst (BeginnerToken.burn ctx amount i) <> Raise (KeyError k).
Proof.
  destruct i as [s ev].
  unfold BeginnerToken.burn, BeginnerToken.balances_get,
    BeginnerToken.balances_getitem, BeginnerToken.balances_setitem. py_run.
  destruct (Z.ltb_spec (dict_get (BeginnerToken.balances s) (msg_sender ctx) 0)
              amount) as [Hlt|Hge]; [discriminate|]. cbn [fst snd].
  destruct (Z.leb_spec amount 0) as [Hle|Hpos]; [discriminate|].
  cbn [fst snd slots]. unfold dict_get in Hge.
  destruct (BeginnerToken.balances s !! msg_sender ctx); [discriminate | lia].
Qed.

(** X7. Only the owner mints BeginnerToken: a call of [mint] by anyone else
    raises and leaves the contract as it was, whatever the amount; a call by
    the owner with a positive amount returns normally, adds the amount to the
    total supply and to the owner's balance and leaves every other balance as
    it was. *)
Theorem beginner_mint_owner_only (ctx : context) (amount : Z)
    (i : instance BeginnerToken.state) :
  (msg_sender ctx <> BeginnerToken.owner (slots i) ->
   BeginnerToken.mint ctx amount i
   = (Raise (Exception "Only owner can mint tokens!"), i)) /\
  (msg_sender ctx = BeginnerToken.owner (slots i) -> 0 < amount ->
   exists i',
     BeginnerToken.mint ctx amount i = (Ok tt, i') /\
     BeginnerToken.total_supply (slots i')
     = BeginnerToken.total_supply (slots i) + amount /\
     BeginnerToken.owner (slots i') = BeginnerToken.owner (slots i) /\
     forall account,
       dict_get (BeginnerToken.balances (slots i')) account 0
       = dict_get (BeginnerToken.balances (slots i)) account 0
         + (if bool_decide (account = BeginnerToken.owner (slots i))
            then amount else 0)).
Proof.
  destruct i as [s ev]. cbn [slots].
  unfold BeginnerToken.mint, BeginnerToken.balances_get,
    BeginnerToken.balances_setitem. py_run. split.
  - intros Hne. rewrite bool_decide_eq_true_2 by exact Hne. reflexivity.
  - intros Heq Hpos.
    rewrite bool_decide_eq_false_2 by (intros Hne; apply Hne, Heq).
    cbn [fst snd].
    destruct (Z.leb_spec amount 0); [lia|].
    cbn [fst snd slots BeginnerToken.balances BeginnerToken.set_balances
         BeginnerToken.set_total_supply BeginnerToken.owner
         BeginnerToken.total_supply].
    eexists. split; [reflexivity|].
    cbn [slots BeginnerToken.balances BeginnerToken.set_balances
         BeginnerToken.set_total_supply BeginnerToken.owner
         BeginnerToken.total_supply].
    split; [reflexivity|]. split; [reflexivity|].
    intros account. rewrite dict_get_insert.
    case_bool_decide; subst; lia.
Qed.

Lemma beginner_mint_owner_only_witness :
  BeginnerToken.mint Scenario.bob 5 Scenario.beginner_100
  = (Raise (Exception "Only owner can mint tokens!"), Scenario.beginner_100) /\
  exists i',
    BeginnerToken.mint Scenario.deployer 5 Scenario.beginner_100 = (Ok tt, i') /\
    BeginnerToken.total_supply (slots i') = 1000005.
Proof.
  destruct (beginner_mint_owner_only Scenario.bob 5 Scenario.beginner_100)
    as [Hother _].
  destruct (beginner_mint_owner_only Scenario.deployer 5 Scenario.beginner_100)
    as [_ Howner].
  split; [apply Hother; vm_compute; discriminate|].
  destruct Howner as (i' & Hrun & Hsupply & _); [reflexivity | lia |].
  exists i'. split; [exact Hrun|]. rewrite Hsupply. reflexivity.
Defined.

(** X8. No BeginnerToken account is ever in debt: the balances of a freshly
    constructed contract are not negative, and no call, whatever its
    arguments and whether it returns or raises, makes a balance negative. *)
Theorem beginner_balances_never_negative (ctx : context)
    (o : BeginnerToken.op) (i : instance BeginnerToken.state) :
  no_debt (BeginnerToken.balances (slots i)) ->
  no_debt (BeginnerToken.balances (slots (BeginnerToken.__init__ ctx))) /\
  no_debt (BeginnerToken.balances (slots (snd (BeginnerToken.call ctx o i)))).
Proof.
  intros Hd. split; [apply beginner_init_no_debt|].
  apply beginner_call_no_debt, Hd.
Qed.

Lemma beginner_balances_never_negative_witness :
  no_debt (BeginnerToken.balances (slots Scenario.beginner_100)) /\
  no_debt (BeginnerToken.balances
             (slots (snd (BeginnerToken.call Scenario.bob
                            (BeginnerToken.Burn 100) Scenario.beginner_100)))).
Proof.
  assert (H0 : no_debt (BeginnerToken.balances (slots Scenario.beginner_100))).
  { unfold no_debt. apply (bool_decide_unpack _). vm_compute. exact I. }
  split; [exact H0|].
  apply (beginner_balances_never_negative Scenario.bob (BeginnerToken.Burn 100)
           Scenario.beginner_100 H0).
Defined.

(** ** StakeToken: accounting, staking and pausing *)

Ltac stake_run :=
  unfold StakeToken.call, StakeToken.transfer, StakeToken.mint,
    StakeToken.stake, StakeToken.unstake, StakeToken.set_reward_rate,
    StakeToken.pause, StakeToken.unpause, StakeToken.balance_of,
    StakeToken.stake_of, StakeToken.reward_of, StakeToken.get_name,
    StakeToken.get_symbol, StakeToken.get_decimals,
    StakeToken.get_total_supply, StakeToken.get_reward_rate;
  py_run.

Ltac stake_fields :=
  cbn [fst snd slots events
       StakeToken.name StakeToken.symbol StakeToken.decimals
       StakeToken.total_supply StakeToken.owner StakeToken.is_paused
       StakeToken.owner_balance StakeToken.user_balance StakeToken.user_stake
       StakeToken.user_reward StakeToken.reward_rate
       StakeToken.set_total_supply StakeToken.set_is_paused
       StakeToken.set_owner_balance StakeToken.set_user_balance
       StakeToken.set_user_stake StakeToken.set_user_reward
       StakeToken.set_reward_rate_slot] in *.

(** X9. StakeToken's books: the tokens handed out (owner balance, user
    balance and user stake together) move in step with [total_supply] under
    every call, minting included, except that a successful [unstake] credits
    the pending reward to the user without adding it to the supply. *)
Theorem stake_rewards_are_not_minted (ctx : context) (o : StakeToken.op)
    (i : instance StakeToken.state) :
  circulating (slots (snd (StakeToken.call ctx o i)))
  - StakeToken.total_supply (slots (snd (StakeToken.call ctx o i)))
  = circulating (slots i) - StakeToken.total_supply (slots i)
    + reward_paid o (slots i).
Proof.
  destruct i as [s ev]. unfold circulating, reward_paid.
  destruct o; stake_run; stake_fields; try lia.
  - destruct (account =? 1); stake_fields; lia.
  - destruct (account =? 1); stake_fields; lia.
  - destruct (account =? 1); stake_fields; lia.
  - destruct (StakeToken.is_paused s =? 1); stake_fields; [lia|].
    destruct (amount <=? StakeToken.owner_balance s); stake_fields; lia.
  - destruct (StakeToken.is_paused s =? 1); stake_fields; [lia|].
    destruct (amount <=? StakeToken.user_balance s); stake_fields; lia.
  - destruct (amount <=? StakeToken.user_stake s); stake_fields; lia.
Qed.

Lemma stake_call_nonneg (ctx : context) (o : StakeToken.op)
    (i : instance StakeToken.state) :
  stake_nonneg (slots i) -> arg_nonneg o ->
  stake_nonneg (slots (snd (StakeToken.call ctx o i))).
Proof.
  destruct i as [s ev]. unfold stake_nonneg, arg_nonneg.
  intros (Ho & Hu & Hs & Hr & Hrate) Harg.
  destruct o; stake_run; stake_fields; try (repeat split; lia).
  - destruct (account =? 1); stake_fields; repeat split; lia.
  - destruct (account =? 1); stake_fields; repeat split; lia.
  - destruct (account =? 1); stake_fields; repeat split; lia.
  - destruct (StakeToken.is_paused s =? 1); stake_fields;
      [repeat split; lia|].
    destruct (Z.leb_spec amount (StakeToken.owner_balance s)); stake_fields;
      repeat split; lia.
  - destruct (StakeToken.is_paused s =? 1); stake_fields;
      [repeat split; lia|].
    destruct (Z.leb_spec amount (StakeToken.user_balance s)); stake_fields;
      [|repeat split; lia].
    assert (0 <= amount * StakeToken.reward_rate s / 100)
      by (apply Z.div_pos; nia).
    repeat split; lia.
  - destruct (Z.leb_spec amount (StakeToken.user_stake s)); stake_fields;
      repeat split; lia.
Qed.

(** X10. As long as no call is given a negative amount or rate, nothing in a
    StakeToken goes negative: the balances, the stake, the pending reward and
    the rate of a fresh contract are not negative, and every call keeps them
    so. *)
Theorem stake_token_never_negative (ctx : context) (o : StakeToken.op)
    (i : instance StakeToken.state) :
  stake_nonneg (slots i) -> arg_nonneg o ->
  stake_nonneg (slots StakeToken.__init__) /\
  stake_nonneg (slots (snd (StakeToken.call ctx o i))).
Proof.
  intros Hi Ho. split; [|apply stake_call_nonneg; assumption].
  unfold stake_nonneg. cbn. repeat split; lia.
Qed.

Lemma stake_token_never_negative_witness :
  stake_nonneg (slots StakeToken.__init__) /\
  arg_nonneg (StakeToken.Transfer 2 300) /\
  stake_nonneg (slots (snd (StakeToken.call Scenario.bob
                              (StakeToken.Transfer 2 300) StakeToken.__init__))).
Proof.
  assert (H0 : stake_nonneg (slots StakeToken.__init__))
    by (unfold stake_nonneg; cbn; repeat split; lia).
  assert (H1 : arg_nonneg (StakeToken.Transfer 2 300)) by (cbn; lia).
  split; [exact H0|]. split; [exact H1|].
  apply (stake_token_never_negative Scenario.bob (StakeToken.Transfer 2 300)
           StakeToken.__init__ H0 H1).
Defined.

(** X11. Staking an amount the user balance covers and unstaking the same
    amount, on a contract that is not paused and whose stake is not negative:
    both calls return normally, the stake is back where it was, the pending
    reward is paid out in full and reset to 0, and the user balance has grown
    by the reward pending before plus [amount * reward_rate // 100]. *)
Theorem stake_then_unstake (amount : Z) (i : instance StakeToken.state) :
  StakeToken.is_paused (slots i) <> 1 ->
  amount <= StakeToken.user_balance (slots i) ->
  0 <= StakeToken.user_stake (slots i) ->
  exists j k,
    StakeToken.stake amount i = (Ok tt, j) /\
    StakeToken.unstake amount j = (Ok tt, k) /\
    StakeToken.user_stake (slots k) = StakeToken.user_stake (slots i) /\
    StakeToken.user_reward (slots k) = 0 /\
    StakeToken.user_balance (slots k)
    = StakeToken.user_balance (slots i) + StakeToken.user_reward (slots i)
      + amount * StakeToken.reward_rate (slots i) / 100 /\
    StakeToken.owner_balance (slots k) = StakeToken.owner_balance (slots i) /\
    StakeToken.total_supply (slots k) = StakeToken.total_supply (slots i).
Proof.
  destruct i as [s ev]. cbn [slots]. intros Hp Hbal Hst.
  assert (Hp' : (StakeToken.is_paused s =? 1) = false)
    by (apply Z.eqb_neq; exact Hp).
  assert (Hb' : (amount <=? StakeToken.user_balance s) = true)
    by (apply Z.leb_le; exact Hbal).
  assert (Hs' : (amount <=? StakeToken.user_stake s + amount) = true)
    by (apply Z.leb_le; lia).
  eexists. eexists. split.
  { unfold StakeToken.stake. py_run. stake_fields. rewrite Hp'.
    stake_fields. rewrite Hb'. stake_fields. reflexivity. }
  split.
  { unfold StakeToken.unstake. py_run. stake_fields. rewrite Hs'.
    stake_fields. reflexivity. }
  stake_fields. repeat split; lia.
Qed.

Lemma stake_then_unstake_witness :
  exists j k,
    StakeToken.stake 200 (snd (StakeToken.transfer 2 300 StakeToken.__init__))
    = (Ok tt, j) /\
    StakeToken.unstake 200 j = (Ok tt, k) /\
    StakeToken.user_stake (slots k) = 0 /\
    StakeToken.user_balance (slots k) = 320.
Proof.
  destruct (stake_then_unstake 200
              (snd (StakeToken.transfer 2 300 StakeToken.__init__)))
    as (j & k & Hj & Hk & Hst & _ & Hbal & _).
  - vm_compute. discriminate.
  - vm_compute. discriminate.
  - vm_compute. discriminate.
  - exists j, k. split; [exact Hj|]. split; [exact Hk|].
    rewrite Hst, Hbal. split; reflexivity.
Defined.



(** ** MintableToken: the supply invariant *)

Lemma dict_get_insert_eq (d : gmap string Z) (k : string) (v x : Z) :
  dict_get (<[k := v]> d) k x = v.
Proof. rewrite dict_get_insert, bool_decide_eq_true_2; reflexivity. Qed.

Lemma mintable_call_outcome (ctx : context) (o : MintableToken.op)
    (i : instance MintableToken.state) :
  match fst (MintableToken.call ctx o i) with
  | Ok _ => mintable_supply_matches i ->
            mintable_supply_matches (snd (MintableToken.call ctx o i))
  | Raise _ => snd (MintableToken.call ctx o i) = i
  end.
Proof.
  destruct i as [s ev]. unfold mintable_supply_matches.
  destruct o;
    unfold MintableToken.call, MintableToken.transfer, MintableToken.mint,
      MintableToken.balance_of, MintableToken.get_total_supply,
      MintableToken.get_name, MintableToken.get_symbol,
      MintableToken.get_decimals, MintableToken.balances_get,
      MintableToken.balances_setitem;
    py_run; try (cbn; intros Hs; exact Hs).
  - destruct (Z.ltb_spec 0 amount); [|reflexivity].
    cbn [fst snd slots events].
    destruct (Z.leb_spec amount
                (dict_get (MintableToken.balances s) (msg_sender ctx) 0));
      [|reflexivity].
    cbn [fst snd slots MintableToken.balances MintableToken.set_balances
         MintableToken.total_supply].
    intros Hs. rewrite !dict_sum_insert. lia.
  - destruct (bool_decide _); [|reflexivity]. cbn [fst snd].
    destruct (Z.ltb_spec 0 amount); [|reflexivity].
    cbn [fst snd slots MintableToken.balances MintableToken.set_balances
         MintableToken.set_total_supply MintableToken.total_supply].
    intros Hs. rewrite !dict_sum_insert. lia.
Qed.

(** X13. In MintableToken the balances add up to [total_supply]: a fresh
    contract has no balance and a supply of 0, every call that returns
    normally keeps the two equal, and a call that raises leaves the whole
    contract as it was. *)
Theorem mintable_supply_invariant (ctx : context) (o : MintableToken.op)
    (i : instance MintableToken.state) :
  mintable_supply_matches i ->
  mintable_supply_matches (MintableToken.__init__ ctx) /\
  match fst (MintableToken.call ctx o i) with
  | Ok _ => mintable_supply_matches (snd (MintableToken.call ctx o i))
  | Raise _ => snd (MintableToken.call ctx o i) = i
  end.
Proof.
  intros Hi. split; [reflexivity|].
  pose proof (mintable_call_outcome ctx o i) as H.
  destruct (fst (MintableToken.call ctx o i)); auto.
Qed.

Lemma mintable_supply_invariant_witness :
  mintable_supply_matches (MintableToken.__init__ Scenario.deployer) /\
  mintable_supply_matches
    (snd (MintableToken.call Scenario.deployer (MintableToken.Mint "0xbob" 70)
            (MintableToken.__init__ Scenario.deployer))).
Proof.
  assert (H0 : mintable_supply_matches (MintableToken.__init__ Scenario.deployer))
    by reflexivity.
  assert (H1 : fst (MintableToken.call Scenario.deployer
                      (MintableToken.Mint "0xbob" 70)
                      (MintableToken.__init__ Scenario.deployer)) = Ok VNone)
    by (vm_compute; reflexivity).
  split; [exact H0|].
  pose proof (mintable_supply_invariant Scenario.deployer
                (MintableToken.Mint "0xbob" 70)
                (MintableToken.__init__ Scenario.deployer) H0) as [_ H].
  rewrite H1 in H. exact H.
Defined.

(** ** Defi: interest, deposits and withdrawals *)

Ltac defi_fields :=
  cbn [fst snd slots events
       Defi.admin Defi.balances Defi.total_deposits Defi.interest_rate
       Defi.last_update Defi.set_balances Defi.set_total_deposits
       Defi.set_interest_rate_slot Defi.set_last_update] in *.

(** What [_apply_interest] leaves behind, case by case. *)
Lemma apply_interest_cases (ctx : context) (user : string)
    (i : instance Defi.state) :
  let stored := dict_get (Defi.balances (slots i)) user 0 in
  let now := block_number ctx in
  let last := dict_get (Defi.last_update (slots i)) user now in
  let interest := stored * Defi.interest_rate (slots i) * (now - last) / 100000 in
  let stamped (s : Defi.state) :=
    Defi.set_last_update (<[user := now]> (Defi.last_update s)) s in
  Defi._apply_interest ctx user i
  = (Ok tt,
     if stored =? 0 then {| slots := stamped (slots i); events := events i |}
     else if 0 <? now - last then
       if 0 <? interest then
         {| slots :=
              stamped
                (Defi.set_total_deposits
                   (Defi.total_deposits (slots i) + interest)
                   (Defi.set_balances
                      (<[user := stored + interest]> (Defi.balances (slots i)))
                      (slots i)));
            events := events i ++ [("InterestApplied"%string,
                                    [VStr user; VInt interest])] |}
       else {| slots := stamped (slots i); events := events i |}
     else i).
Proof.
  destruct i as [s ev]. cbv zeta.
  unfold Defi._apply_interest, Defi.balances_get, Defi.balances_setitem,
    Defi.last_update_get, Defi.last_update_setitem.
  py_run. defi_fields.
  destruct (dict_get (Defi.balances s) user 0 =? 0); [reflexivity|].
  defi_fields.
  destruct (0 <? block_number ctx
                 - dict_get (Defi.last_update s) user (block_number ctx));
    [|reflexivity].
  defi_fields.
  destruct (0 <? _); reflexivity.
Qed.

Lemma apply_interest_spec (ctx : context) (user : string)
    (i : instance Defi.state) :
  exists i1,
    Defi._apply_interest ctx user i = (Ok tt, i1) /\
    (pool_balanced i -> pool_balanced i1) /\
    Defi.admin (slots i1) = Defi.admin (slots i) /\
    Defi.interest_rate (slots i1) = Defi.interest_rate (slots i) /\
    (0 <= Defi.interest_rate (slots i) ->
     0 <= dict_get (Defi.balances (slots i)) user 0 ->
     0 <= dict_get (Defi.balances (slots i1)) user 0 /\
     Defi.balance_of ctx user i
     = (Ok (dict_get (Defi.balances (slots i1)) user 0), i)) /\
    Defi.total_deposits (slots i1)
    = Defi.total_deposits (slots i)
      + (dict_get (Defi.balances (slots i1)) user 0
         - dict_get (Defi.balances (slots i)) user 0).
Proof.
  eexists. split; [apply apply_interest_cases|].
  destruct i as [s ev]. unfold pool_balanced.
  unfold Defi.balance_of, Defi.balances_get, Defi.last_update_get.
  py_run. defi_fields.
  destruct (Z.eqb_spec (dict_get (Defi.balances s) user 0) 0) as [Hz|Hnz];
    defi_fields.
  { repeat split; intros; try assumption; try lia; congruence. }
  destruct (Z.ltb_spec 0 (block_number ctx
                          - dict_get (Defi.last_update s) user
                              (block_number ctx))) as [Hbp|Hbp];
    defi_fields.
  2:{ repeat split; intros; try assumption; try lia; congruence. }
  destruct (Z.ltb_spec 0 (dict_get (Defi.balances s) user 0
                          * Defi.interest_rate s
                          * (block_number ctx
                             - dict_get (Defi.last_update s) user
                                 (block_number ctx)) / 100000)) as [Hi|Hi];
    defi_fields.
  - rewrite dict_get_insert_eq, dict_sum_insert.
    repeat split; intros; try assumption; try lia.
  - assert (Hnn : 0 <= Defi.interest_rate s ->
                  0 <= dict_get (Defi.balances s) user 0 ->
                  dict_get (Defi.balances s) user 0 * Defi.interest_rate s
                  * (block_number ctx
                     - dict_get (Defi.last_update s) user (block_number ctx))
                  / 100000 = 0).
    { intros Hr Hb.
      assert (0 <= dict_get (Defi.balances s) user 0 * Defi.interest_rate s
                   * (block_number ctx
                      - dict_get (Defi.last_update s) user (block_number ctx))
                   / 100000)
        by (apply Z.div_pos;
            [repeat apply Z.mul_nonneg_nonneg; lia | lia]).
      lia. }
    repeat split; intros; try assumption; try lia.
    rewrite Hnn by assumption. rewrite Z.add_0_r. reflexivity.
Qed.

Lemma defi_call_frame (ctx : context) (o : Defi.op) (i : instance Defi.state) :
  (pool_balanced i -> pool_balanced (snd (Defi.call ctx o i))) /\
  (Defi.interest_rate (slots i) <= 10000 ->
   Defi.interest_rate (slots (snd (Defi.call ctx o i))) <= 10000) /\
  Defi.admin (slots (snd (Defi.call ctx o i))) = Defi.admin (slots i) /\
  (msg_sender ctx <> Defi.admin (slots i) ->
   Defi.interest_rate (slots (snd (Defi.call ctx o i)))
   = Defi.interest_rate (slots i)).
Proof.
  assert (Hsame : (pool_balanced i -> pool_balanced i) /\
                  (Defi.interest_rate (slots i) <= 10000 ->
                   Defi.interest_rate (slots i) <= 10000) /\
                  Defi.admin (slots i) = Defi.admin (slots i) /\
                  (msg_sender ctx <> Defi.admin (slots i) ->
                   Defi.interest_rate (slots i) = Defi.interest_rate (slots i)))
    by tauto.
  destruct o.
  - (* deposit *)
    unfold Defi.call, Defi.deposit, Defi.balances_get, Defi.balances_setitem,
      Defi.last_update_setitem. py_run.
    destruct (0 <? amount); [|exact Hsame].
    destruct (apply_interest_spec ctx (msg_sender ctx) i)
      as (i1 & Hrun & Hbal & Hadm & Hrate & _ & _).
    rewrite Hrun. destruct i1 as [s1 ev1]. unfold pool_balanced in *.
    defi_fields. rewrite dict_sum_insert.
    split; [intros Hb; specialize (Hbal Hb); lia|].
    split; [lia|]. split; [exact Hadm | intros _; exact Hrate].
  - (* withdraw *)
    unfold Defi.call, Defi.withdraw, Defi.balances_get, Defi.balances_setitem,
      Defi.last_update_setitem. py_run.
    destruct (apply_interest_spec ctx (msg_sender ctx) i)
      as (i1 & Hrun & Hbal & Hadm & Hrate & _ & _).
    rewrite Hrun. destruct i1 as [s1 ev1]. unfold pool_balanced in *.
    defi_fields.
    destruct (amount <=? dict_get (Defi.balances s1) (msg_sender ctx) 0);
      defi_fields; [rewrite dict_sum_insert|];
      (split; [intros Hb; specialize (Hbal Hb); lia|]);
      (split; [lia|]); (split; [exact Hadm | intros _; exact Hrate]).
  - destruct (defi_balance_of_pure ctx user i) as [n Hn].
    unfold Defi.call, bind. rewrite Hn. exact Hsame.
  - destruct i as [s ev]. exact Hsame.
  - destruct i as [s ev].
    unfold Defi.call, Defi.set_interest_rate. py_run. defi_fields.
    case_bool_decide as Hadmin; defi_fields; [|exact Hsame].
    destruct (Z.leb_spec new_rate 10000); defi_fields; [|exact Hsame].
    split; [tauto|]. split; [lia|]. split; [reflexivity|].
    intros Hne. congruence.
Qed.

(** X14. The Defi pool's books always balance: in a fresh pool and after
    every call, whether it returns or raises and interest is credited or
    not, the recorded deposits of all users add up to [total_deposits]. *)
Theorem defi_pool_is_balanced (ctx : context) (o : Defi.op)
    (i : instance Defi.state) :
  pool_balanced i ->
  pool_balanced (Defi.__init__ ctx) /\
  pool_balanced (snd (Defi.call ctx o i)).
Proof.
  intros Hi. split; [reflexivity|]. apply defi_call_frame, Hi.
Qed.

Lemma defi_pool_is_balanced_witness :
  pool_balanced (Defi.__init__ Scenario.deployer) /\
  pool_balanced (snd (Defi.call Scenario.bob (Defi.Deposit 5000)
                        (Defi.__init__ Scenario.deployer))).
Proof.
  assert (H0 : pool_balanced (Defi.__init__ Scenario.deployer)) by reflexivity.
  split; [exact H0|].
  apply (defi_pool_is_balanced Scenario.bob (Defi.Deposit 5000)
           (Defi.__init__ Scenario.deployer) H0).
Defined.

(** X15. The Defi interest rate never exceeds 10000 basis points once it is
    within that bound, a fresh pool starts at 500, only a call made by the
    admin can change it, and no call changes who the admin is. *)
Theorem defi_rate_stays_capped (ctx : context) (o : Defi.op)
    (i : instance Defi.state) :
  Defi.interest_rate (slots i) <= 10000 ->
  Defi.interest_rate (slots (Defi.__init__ ctx)) = 500 /\
  Defi.interest_rate (slots (snd (Defi.call ctx o i))) <= 10000 /\
  Defi.admin (slots (snd (Defi.call ctx o i))) = Defi.admin (slots i) /\
  (msg_sender ctx <> Defi.admin (slots i) ->
   Defi.interest_rate (slots (snd (Defi.call ctx o i)))
   = Defi.interest_rate (slots i)).
Proof.
  intros Hi. split; [reflexivity|].
  destruct (defi_call_frame ctx o i) as (_ & Hcap & Hadm & Hother).
  split; [apply Hcap, Hi|]. split; assumption.
Qed.

Lemma defi_rate_stays_capped_witness :
  Defi.interest_rate (slots Scenario.defi_bob) <= 10000 /\
  Defi.interest_rate
    (slots (snd (Defi.call Scenario.bob (Defi.SetInterestRate 9000)
                   Scenario.defi_bob))) = 500 /\
  Defi.interest_rate
    (slots (snd (Defi.call Scenario.deployer (Defi.SetInterestRate 20000)
                   Scenario.defi_bob))) <= 10000.
Proof.
  assert (H0 : Defi.interest_rate (slots Scenario.defi_bob) <= 10000)
    by (vm_compute; discriminate).
  split; [exact H0|].
  destruct (defi_rate_stays_capped Scenario.bob (Defi.SetInterestRate 9000)
              Scenario.defi_bob H0) as (_ & _ & _ & Hother).
  destruct (defi_rate_stays_capped Scenario.deployer
              (Defi.SetInterestRate 20000) Scenario.defi_bob H0)
    as (_ & Hcap & _).
  split; [|exact Hcap].
  rewrite Hother; [reflexivity | vm_compute; discriminate].
Defined.

(** X16. A Defi deposit settles the interest first and then credits the
    amount: with a rate and a stored balance that are not negative, a deposit
    of a positive amount returns normally, and a balance read in the same
    block shows what [balance_of] showed just before the deposit plus the
    amount; [total_deposits] grows by the interest credited and the
    amount. *)
Theorem defi_deposit_credits_amount (ctx : context) (amount : Z)
    (i : instance Defi.state) :
  0 < amount ->
  0 <= Defi.interest_rate (slots i) ->
  0 <= dict_get (Defi.balances (slots i)) (msg_sender ctx) 0 ->
  exists n i',
    Defi.balance_of ctx (msg_sender ctx) i = (Ok n, i) /\
    Defi.deposit ctx amount i = (Ok tt, i') /\
    Defi.balance_of ctx (msg_sender ctx) i' = (Ok (n + amount), i') /\
    Defi.total_deposits (slots i')
    = Defi.total_deposits (slots i)
      + (n - dict_get (Defi.balances (slots i)) (msg_sender ctx) 0) + amount.
Proof.
  intros Hpos Hrate Hstored.
  destruct (apply_interest_spec ctx (msg_sender ctx) i)
    as (i1 & Hrun & _ & _ & _ & Hview & Htd).
  destruct (Hview Hrate Hstored) as [Hn Hread].
  exists (dict_get (Defi.balances (slots i1)) (msg_sender ctx) 0).
  assert (Hamount : (0 <? amount) = true) by (apply Z.ltb_lt; exact Hpos).
  unfold Defi.deposit, Defi.balances_get, Defi.balances_setitem,
    Defi.last_update_setitem. py_run. rewrite Hamount, Hrun.
  destruct i1 as [s1 ev1]. defi_fields.
  eexists. split; [exact Hread|]. split; [reflexivity|].
  unfold Defi.balance_of, Defi.balances_get, Defi.last_update_get.
  py_run. defi_fields. rewrite !dict_get_insert_eq.
  destruct (Z.eqb_spec (dict_get (Defi.balances s1) (msg_sender ctx) 0 + amount)
              0); [lia|].
  defi_fields. rewrite !dict_get_insert_eq, Z.sub_diag.
  split; [reflexivity | lia].
Qed.

Lemma defi_deposit_credits_amount_witness :
  let later := {| msg_sender := "0xbob"; block_number := 14 |} in
  exists i',
    Defi.balance_of later "0xbob" Scenario.defi_bob
    = (Ok 5050, Scenario.defi_bob) /\
    Defi.deposit later 100 Scenario.defi_bob = (Ok tt, i') /\
    Defi.balance_of later "0xbob" i' = (Ok 5150, i') /\
    Defi.total_deposits (slots i') = 5150.
Proof.
  cbv zeta.
  destruct (defi_deposit_credits_amount
              {| msg_sender := "0xbob"; block_number := 14 |} 100
              Scenario.defi_bob) as (n & i' & Hn & Hrun & Hafter & Htd).
  - lia.
  - vm_compute. discriminate.
  - vm_compute. discriminate.
  - assert (Hval : n = 5050).
    { assert (Hc : Defi.balance_of
                     {| msg_sender := "0xbob"; block_number := 14 |} "0xbob"
                     Scenario.defi_bob = (Ok 5050, Scenario.defi_bob))
        by (vm_compute; reflexivity).
      cbn [msg_sender] in Hn. rewrite Hc in Hn. congruence. }
    subst n. exists i'. cbn [msg_sender] in *.
    split; [exact Hn|]. split; [exact Hrun|]. split; [exact Hafter|].
    rewrite Htd. vm_compute. reflexivity.
Defined.

(** X17. A Defi withdrawal settles the interest first: with a rate and a
    stored balance that are not negative, a withdrawal of no more than what
    [balance_of] shows returns normally and a balance read in the same block
    shows that much less, while a withdrawal of more raises
    "Insufficient balance". *)
Theorem defi_withdraw_settles_interest (ctx : context) (amount : Z)
    (i : instance Defi.state) :
  0 <= Defi.interest_rate (slots i) ->
  0 <= dict_get (Defi.balances (slots i)) (msg_sender ctx) 0 ->
  exists n,
    Defi.balance_of ctx (msg_sender ctx) i = (Ok n, i) /\
    (amount <= n ->
     exists i',
       Defi.withdraw ctx amount i = (Ok tt, i') /\
       Defi.balance_of ctx (msg_sender ctx) i' = (Ok (n - amount), i')) /\
    (n < amount ->
     fst (Defi.withdraw ctx amount i)
     = Raise (Exception "Insufficient balance")).
Proof.
  intros Hrate Hstored.
  destruct (apply_interest_spec ctx (msg_sender ctx) i)
    as (i1 & Hrun & _ & _ & _ & Hview & Htd).
  destruct (Hview Hrate Hstored) as [Hn Hread].
  exists (dict_get (Defi.balances (slots i1)) (msg_sender ctx) 0).
  split; [exact Hread|].
  unfold Defi.withdraw, Defi.balances_get, Defi.balances_setitem,
    Defi.last_update_setitem. py_run. rewrite Hrun.
  destruct i1 as [s1 ev1]. defi_fields. split.
  - intros Hle.
    assert (Hc : (amount <=? dict_get (Defi.balances s1) (msg_sender ctx) 0)
                 = true) by (apply Z.leb_le; exact Hle).
    rewrite Hc. defi_fields. eexists. split; [reflexivity|].
    unfold Defi.balance_of, Defi.balances_get, Defi.last_update_get.
    py_run. defi_fields. rewrite !dict_get_insert_eq.
    destruct (Z.eqb_spec
                (dict_get (Defi.balances s1) (msg_sender ctx) 0 - amount) 0)
      as [Hz|Hnz]; [rewrite Hz; reflexivity|].
    defi_fields. rewrite !dict_get_insert_eq, Z.sub_diag. reflexivity.
  - intros Hgt.
    assert (Hc : (amount <=? dict_get (Defi.balances s1) (msg_sender ctx) 0)
                 = false) by (apply Z.leb_gt; exact Hgt).
    rewrite Hc. reflexivity.
Qed.

Lemma defi_withdraw_settles_interest_witness :
  let later := {| msg_sender := "0xbob"; block_number := 14 |} in
  (exists i',
     Defi.withdraw later 5050 Scenario.defi_bob = (Ok tt, i') /\
     Defi.balance_of later "0xbob" i' = (Ok 0, i')) /\
  fst (Defi.withdraw later 5051 Scenario.defi_bob)
  = Raise (Exception "Insufficient balance").
Proof.
  cbv zeta.
  assert (Hc : Defi.balance_of
                 {| msg_sender := "0xbob"; block_number := 14 |} "0xbob"
                 Scenario.defi_bob = (Ok 5050, Scenario.defi_bob))
    by (vm_compute; reflexivity).
  split.
  - destruct (defi_withdraw_settles_interest
                {| msg_sender := "0xbob"; block_number := 14 |} 5050
                Scenario.defi_bob) as (n & Hn & Hok & _);
      [vm_compute; discriminate | vm_compute; discriminate |].
    cbn [msg_sender] in *. rewrite Hc in Hn.
    assert (n = 5050) by congruence. subst n.
    destruct Hok as (i' & Hrun & Hafter); [lia|].
    exists i'. split; [exact Hrun | exact Hafter].
  - destruct (defi_withdraw_settles_interest
                {| msg_sender := "0xbob"; block_number := 14 |} 5051
                Scenario.defi_bob) as (n & Hn & _ & Hshort);
      [vm_compute; discriminate | vm_compute; discriminate |].
    cbn [msg_sender] in *. rewrite Hc in Hn.
    assert (n = 5050) by congruence. subst n.
    apply Hshort. lia.
Defined.

(** ** send_transaction: what is sent and what is returned *)

(** X18. [send_transaction] returns normally only after a receipt has been
    observed: the requests made are then exactly the nonce query, the gas
    price query, one broadcast and one wait of 300 seconds on the hash the
    broadcast returned, and the value returned is that hash when the
    receipt's status is 1 and [None] for any other status. *)
Theorem send_transaction_returns_confirmed_hash {Node : Type}
    `{LedgerClient Node} (self : StakeTokenInteractor.self_)
    (fc : function_call) (gas_limit : Z) (w : world Node) (r : option Z) :
  fst (StakeTokenInteractor.send_transaction self fc gas_limit w) = Ok r ->
  exists c p stx h rc,
    trace (snd (StakeTokenInteractor.send_transaction self fc gas_limit w))
    = trace w
      ++ [GetTransactionCount (address (StakeTokenInteractor.account self))
            (Ok c);
          GasPrice (Ok p);
          SendRawTransaction stx (Ok h);
          WaitForTransactionReceipt h 300 (Ok rc)] /\
    r = (if status rc =? 1 then Some h else None).
Proof.
  intros Hr.
  destruct (send_transaction_submission self fc gas_limit w)
    as (new & out & Htr & _ & Hsub).
  rewrite Hr in Hsub. rewrite Htr.
  inversion Hsub as [| | | | |c p stx h rc Hs Hst|c p stx h rc Hs Hst]; subst.
  - exists c, p, stx, h, rc. split; [reflexivity|].
    rewrite Hst. reflexivity.
  - exists c, p, stx, h, rc. split; [reflexivity|].
    destruct (Z.eqb_spec (status rc) 1); [contradiction | reflexivity].
Qed.

Lemma send_transaction_returns_confirmed_hash_witness :
  let rw := StakeTokenInteractor.send_transaction (Node := FakeLedger.fake)
              FakeLedger.interactor (FakeLedger.mint_call 5) 200000
              (FakeLedger.start [FakeLedger.Mine 0]) in
  fst rw = Ok None /\
  exists stx rc,
    In (SendRawTransaction stx (Ok 4096)) (trace (snd rw)) /\
    In (WaitForTransactionReceipt 4096 300 (Ok rc)) (trace (snd rw)) /\
    status rc <> 1.
Proof.
  cbv zeta.
  assert (H0 : fst (StakeTokenInteractor.send_transaction
                      (Node := FakeLedger.fake) FakeLedger.interactor
                      (FakeLedger.mint_call 5) 200000
                      (FakeLedger.start [FakeLedger.Mine 0])) = Ok None)
    by (vm_compute; reflexivity).
  split; [exact H0|].
  destruct (send_transaction_returns_confirmed_hash (Node := FakeLedger.fake)
              FakeLedger.interactor (FakeLedger.mint_call 5) 200000
              (FakeLedger.start [FakeLedger.Mine 0]) None H0)
    as (c & p & stx & h & rc & Htr & Hr).
  assert (Hh : h = 4096).
  { assert (Hin : In (SendRawTransaction stx (Ok h))
                    (trace (snd (StakeTokenInteractor.send_transaction
                                   (Node := FakeLedger.fake)
                                   FakeLedger.interactor
                                   (FakeLedger.mint_call 5) 200000
                                   (FakeLedger.start [FakeLedger.Mine 0])))))
      by (rewrite Htr; cbn; tauto).
    vm_compute in Hin.
    repeat (destruct Hin as [Hin|Hin]; try discriminate Hin);
      [congruence | contradiction]. }
  subst h. exists stx, rc. rewrite Htr. cbn [trace FakeLedger.start app In].
  split; [tauto|]. split; [tauto|].
  intros Hst. rewrite Hst in Hr. discriminate Hr.
Defined.

(** X19. Every transaction [send_transaction] hands to broadcast, accepted
    or not, is the envelope it built and signed: addressed to the contract,
    sent from the account, carrying the requested call, no value, the gas
    limit it was given, chain id 43113, and the gas price and the
    transaction count the node had just reported. *)
Theorem send_transaction_broadcasts_what_it_built {Node : Type}
    `{LedgerClient Node} (self : StakeTokenInteractor.self_)
    (fc : function_call) (gas_limit : Z) (w : world Node) :
  exists new,
    trace (snd (StakeTokenInteractor.send_transaction self fc gas_limit w))
    = trace w ++ new /\
    forall stx reply,
      In (SendRawTransaction stx reply) new ->
      exists c p,
        In (GetTransactionCount
              (address (StakeTokenInteractor.account self)) (Ok c)) new /\
        In (GasPrice (Ok p)) new /\
        raw_transaction stx
        = {| tx_from := address (StakeTokenInteractor.account self);
             tx_to := StakeTokenInteractor.contract_address self;
             tx_data := fc; tx_value := 0; gas := gas_limit; gasPrice := p;
             nonce := c; chainId := 43113 |}.
Proof.
  destruct (send_transaction_submission self fc gas_limit w)
    as (new & out & Htr & _ & Hsub).
  exists new. split; [exact Htr|]. intros stx reply Hin.
  destruct Hsub as [e|c e|c p e Hs|c p stx' e Hs|c p stx' h e Hs
                   |c p stx' h rc Hs Hst|c p stx' h rc Hs Hst];
    cbn in Hin;
    repeat (destruct Hin as [Hin|Hin]; try discriminate Hin);
    try contradiction;
    injection Hin as <- _; apply sign_transaction_raw in Hs;
    exists c, p; cbn; (split; [tauto|]); (split; [tauto|]); exact Hs.
Qed.

Lemma send_transaction_broadcasts_what_it_built_witness :
  exists stx,
    In (SendRawTransaction stx (Raise ConnectionError))
       (trace (snd (StakeTokenInteractor.send_transaction
                      (Node := FakeLedger.fake) FakeLedger.interactor
                      (FakeLedger.mint_call 5) 150000
                      (FakeLedger.start [FakeLedger.Refuse ConnectionError]))))
    /\ tx_to (raw_transaction stx) = FakeLedger.STK
    /\ gas (raw_transaction stx) = 150000
    /\ chainId (raw_transaction stx) = 43113.
Proof.
  destruct (send_transaction_broadcasts_what_it_built (Node := FakeLedger.fake)
              FakeLedger.interactor (FakeLedger.mint_call 5) 150000
              (FakeLedger.start [FakeLedger.Refuse ConnectionError]))
    as (new & Htr & Henv).
  change (trace (FakeLedger.start [FakeLedger.Refuse ConnectionError]))
    with (@nil rpc) in Htr.
  rewrite app_nil_l in Htr.
  assert (Hin : exists stx, In (SendRawTransaction stx (Raise ConnectionError))
                              new).
  { rewrite <- Htr. vm_compute. eexists. right; right; left. reflexivity. }
  destruct Hin as [stx Hin]. exists stx. rewrite Htr. split; [exact Hin|].
  destruct (Henv stx _ Hin) as (c & p & _ & _ & Hraw).
  rewrite Hraw. repeat split.
Defined.

(** ** test_stake_transactions: what the script as a whole does *)

Section ScriptFacts.
Context {Node : Type} `{LedgerClient Node}.

Lemma ret_never_raises {S A} (a : A) : never_raises (S := S) (ret a).
Proof. intros s. reflexivity. Qed.

Lemma print_never_raises (o : output) : never_raises (print (Node := Node) o).
Proof. intros s. reflexivity. Qed.

Lemma bind_never_raises {S A B} (m : M S A) (k : A -> M S B) :
  never_raises m -> (forall a, never_raises (k a)) -> never_raises (bind m k).
Proof.
  intros Hm Hk s. specialize (Hm s). unfold bind.
  destruct (m s) as [[a|e] s']; [apply Hk | discriminate Hm].
Qed.

(** A [try] whose handler returns normally returns normally, whatever its
    body does. *)
Lemma try_except_never_raises {S A} (body : M S A) (handler : exn -> M S A) :
  (forall e, never_raises (handler e)) -> never_raises (try_except body handler).
Proof.
  intros Hh s. unfold try_except.
  destruct (body s) as [[a|e] s']; [reflexivity | apply Hh].
Qed.

Lemma broadcasts_at_most_weaken {A} (n n' : nat) (m : M (world Node) A) :
  (n <= n')%nat -> broadcasts_at_most n m -> broadcasts_at_most n' m.
Proof.
  intros Hle Hm w. destruct (Hm w) as (new & Htr & Hlen).
  exists new. split; [exact Htr | lia].
Qed.

Lemma quiet_at_most {A} (m : M (world Node) A) :
  (forall w, trace (snd (m w)) = trace w) -> broadcasts_at_most 0 m.
Proof.
  intros Hq w. exists []. rewrite app_nil_r. split; [apply Hq | reflexivity].
Qed.

Lemma ret_at_most {A} (a : A) : broadcasts_at_most (Node := Node) 0 (ret a).
Proof. apply quiet_at_most. reflexivity. Qed.

Lemma print_at_most (o : output) : broadcasts_at_most 0 (print (Node := Node) o).
Proof. apply quiet_at_most. reflexivity. Qed.

Lemma bind_at_most {A B} (n1 n2 : nat) (m : M (world Node) A)
    (k : A -> M (world Node) B) :
  broadcasts_at_most n1 m -> (forall a, broadcasts_at_most n2 (k a)) ->
  broadcasts_at_most (n1 + n2) (bind m k).
Proof.
  intros Hm Hk w. destruct (Hm w) as (new1 & Htr1 & Hlen1).
  unfold bind. destruct (m w) as [[a|e] w1]; cbn [fst snd] in *.
  - destruct (Hk a w1) as (new2 & Htr2 & Hlen2).
    exists (new1 ++ new2). split.
    + rewrite Htr2, Htr1. symmetry. apply app_assoc.
    + rewrite broadcasts_app, length_app. lia.
  - exists new1. split; [exact Htr1 | lia].
Qed.

Lemma try_except_at_most {A} (n1 n2 : nat) (body : M (world Node) A)
    (handler : exn -> M (world Node) A) :
  broadcasts_at_most n1 body -> (forall e, broadcasts_at_most n2 (handler e)) ->
  broadcasts_at_most (n1 + n2) (try_except body handler).
Proof.
  intros Hm Hk w. destruct (Hm w) as (new1 & Htr1 & Hlen1).
  unfold try_except. destruct (body w) as [[a|e] w1]; cbn [fst snd] in *.
  - exists new1. split; [exact Htr1 | lia].
  - destruct (Hk e w1) as (new2 & Htr2 & Hlen2).
    exists (new1 ++ new2). split.
    + rewrite Htr2, Htr1. symmetry. apply app_assoc.
    + rewrite broadcasts_app, length_app. lia.
Qed.

(** A request other than a broadcast, followed by what its answer allows. *)
Lemma request_then_at_most {A B} (n : nat) (m : M Node A)
    (entry : result A -> rpc) (k : A -> M (world Node) B) :
  (forall r, broadcasts [entry r] = []) ->
  (forall nd a nd', m nd = (Ok a, nd') -> broadcasts_at_most n (k a)) ->
  broadcasts_at_most n (bind (request m entry) k).
Proof.
  intros Hq Hk w. unfold bind, request.
  destruct (m (node w)) as [[a|e] nd'] eqn:Hm.
  - destruct (Hk (node w) a nd' Hm
                {| node := nd'; trace := trace w ++ [entry (Ok a)];
                   stdout := stdout w |}) as (new2 & Htr2 & Hlen2).
    exists ([entry (Ok a)] ++ new2). cbn [trace] in Htr2. split.
    + rewrite Htr2. symmetry. apply app_assoc.
    + rewrite broadcasts_app, Hq. exact Hlen2.
  - exists [entry (Raise e)]. split; [reflexivity|]. rewrite Hq. cbn. lia.
Qed.

Lemma request_at_most {A} (m : M Node A) (entry : result A -> rpc) :
  (forall r, broadcasts [entry r] = []) ->
  broadcasts_at_most 0 (request m entry).
Proof.
  intros Hq w. unfold request. destruct (m (node w)) as [r nd'].
  exists [entry r]. split; [reflexivity|]. rewrite Hq. reflexivity.
Qed.

Lemma submit_at_most contract_address account what fc gas_ :
  broadcasts_at_most 1
    (TestStakeTransactions.submit (Node := Node) contract_address account
       what fc gas_).
Proof.
  intros w. destruct w as [n tr out0].
  unfold TestStakeTransactions.submit, eth_get_transaction_count,
    eth_gas_price, eth_send_raw_transaction,
    eth_wait_for_transaction_receipt, request, print, lift, bind, ret, modify.
  cbn [node trace stdout].
  destruct (get_transaction_count (address account) n) as [[c|e] n1];
    cbn [node trace stdout fst snd].
  2:{ eexists. split; [reflexivity|]. cbn. lia. }
  destruct (gas_price n1) as [[p|e] n2]; cbn [node trace stdout fst snd].
  2:{ eexists. rewrite <- app_assoc. split; [reflexivity|]. cbn. lia. }
  destruct (sign_transaction _ _) as [stx|e].
  2:{ eexists. rewrite <- app_assoc. split; [reflexivity|]. cbn. lia. }
  destruct (send_raw_transaction stx n2) as [[h|e] n3];
    cbn [node trace stdout fst snd].
  2:{ eexists. rewrite <- !app_assoc. split; [reflexivity|]. cbn. lia. }
  destruct (wait_for_transaction_receipt h 300 n3) as [r n4];
    cbn [node trace stdout fst snd].
  eexists. rewrite <- !app_assoc. split; [reflexivity|]. cbn. lia.
Qed.

(** Pieces of script that broadcast nothing, taken apart along their binds,
    handlers and branches. *)
Ltac quiet_step :=
  first
    [ apply ret_at_most
    | apply print_at_most
    | apply request_at_most; intros ?; reflexivity
    | apply (bind_at_most 0 0); [|intros ?]
    | apply (try_except_at_most 0 0); [|intros ?]
    | match goal with
      | |- broadcasts_at_most 0 (if ?c then _ else _) => destruct c
      end ].

Ltac unfold_calls :=
  unfold eth_get_balance, functions_owner_call, functions_balanceOf_call,
    functions_stakedBalance_call, functions_getReward_call.

Lemma check_balances_at_most account :
  broadcasts_at_most 0 (TestStakeTransactions.check_balances (Node := Node) account).
Proof.
  unfold TestStakeTransactions.check_balances. unfold_calls.
  repeat quiet_step.
Qed.

Lemma final_summary_at_most account :
  broadcasts_at_most 0 (TestStakeTransactions.final_summary (Node := Node) account).
Proof.
  unfold TestStakeTransactions.final_summary. unfold_calls.
  repeat quiet_step.
Qed.

Lemma test_mint_at_most contract_address account :
  broadcasts_at_most 1
    (TestStakeTransactions.test_mint (Node := Node) contract_address account).
Proof.
  unfold TestStakeTransactions.test_mint. unfold_calls.
  apply (try_except_at_most 1 0); [|intros e; apply print_at_most].
  apply (bind_at_most 0 1); [apply print_at_most|]. intros _.
  apply (bind_at_most 0 1);
    [apply request_at_most; intros r; reflexivity|]. intros owner.
  destruct (bool_decide _).
  - apply (bind_at_most 1 0); [apply submit_at_most|]. intros rc.
    repeat quiet_step.
  - apply (broadcasts_at_most_weaken 0 1); [lia|]. repeat quiet_step.
Qed.

Lemma test_transfer_at_most contract_address account :
  broadcasts_at_most 1
    (TestStakeTransactions.test_transfer (Node := Node) contract_address account).
Proof.
  unfold TestStakeTransactions.test_transfer. unfold_calls.
  apply (try_except_at_most 1 0); [|intros e; apply print_at_most].
  apply (bind_at_most 0 1); [apply print_at_most|]. intros _.
  apply (bind_at_most 0 1);
    [apply request_at_most; intros r; reflexivity|]. intros bal.
  destruct (0 <? bal).
  - apply (bind_at_most 1 0); [apply submit_at_most|]. intros rc.
    repeat quiet_step.
  - apply (broadcasts_at_most_weaken 0 1); [lia|]. repeat quiet_step.
Qed.

Lemma test_stake_at_most contract_address account :
  broadcasts_at_most 1
    (TestStakeTransactions.test_stake (Node := Node) contract_address account).
Proof.
  unfold TestStakeTransactions.test_stake. unfold_calls.
  apply (try_except_at_most 1 0); [|intros e; apply print_at_most].
  apply (bind_at_most 0 1); [apply print_at_most|]. intros _.
  apply (bind_at_most 0 1);
    [apply request_at_most; intros r; reflexivity|]. intros bal.
  destruct (0 <? bal).
  - apply (bind_at_most 1 0); [apply submit_at_most|]. intros rc.
    repeat quiet_step.
  - apply (broadcasts_at_most_weaken 0 1); [lia|]. repeat quiet_step.
Qed.

Lemma script_at_most contract_address account :
  broadcasts_at_most 3
    (TestStakeTransactions.test_stake_transactions (Node := Node)
       contract_address account).
Proof.
  unfold TestStakeTransactions.test_stake_transactions.
  apply (bind_at_most 0 3); [apply check_balances_at_most|]. intros checked.
  destruct checked;
    [|apply (broadcasts_at_most_weaken 0 3); [lia | apply ret_at_most]].
  apply (bind_at_most 0 3); [apply print_at_most|]. intros _.
  apply (bind_at_most 1 2); [apply test_mint_at_most|]. intros _.
  apply (bind_at_most 1 1); [apply test_transfer_at_most|]. intros _.
  apply (bind_at_most 1 0); [apply test_stake_at_most|]. intros _.
  apply (bind_at_most 0 0); [apply final_summary_at_most|]. intros _.
  apply print_at_most.
Qed.

Lemma script_never_raises contract_address account :
  never_raises
    (TestStakeTransactions.test_stake_transactions (Node := Node)
       contract_address account).
Proof.
  unfold TestStakeTransactions.test_stake_transactions,
    TestStakeTransactions.check_balances, TestStakeTransactions.test_mint,
    TestStakeTransactions.test_transfer, TestStakeTransactions.test_stake,
    TestStakeTransactions.final_summary.
  apply bind_never_raises.
  { apply try_except_never_raises. intros e.
    apply bind_never_raises; [apply print_never_raises|]. intros _.
    apply ret_never_raises. }
  intros checked. destruct checked; [|apply ret_never_raises].
  repeat first
    [ apply print_never_raises
    | apply try_except_never_raises; intros ?
    | apply bind_never_raises; [|intros ?] ].
Qed.

(** With an owner other than the account, the mint block sends nothing. *)
Lemma test_mint_skipped contract_address account :
  (forall nd o nd', call_owner nd = (Ok o, nd') ->
                    lower (address account) <> lower o) ->
  broadcasts_at_most 0
    (TestStakeTransactions.test_mint (Node := Node) contract_address account).
Proof.
  intros Hown. unfold TestStakeTransactions.test_mint. unfold_calls.
  apply (try_except_at_most 0 0); [|intros e; apply print_at_most].
  apply (bind_at_most 0 0); [apply print_at_most|]. intros _.
  apply request_then_at_most; [intros r; reflexivity|].
  intros nd o nd' Hcall.
  rewrite bool_decide_eq_false_2 by (eapply Hown, Hcall).
  repeat quiet_step.
Qed.

(** With no positive token balance, the transfer and stake blocks send
    nothing. *)
Lemma test_transfer_skipped contract_address account :
  (forall nd b nd', call_balanceOf (address account) nd = (Ok b, nd') ->
                    b <= 0) ->
  broadcasts_at_most 0
    (TestStakeTransactions.test_transfer (Node := Node) contract_address account)
  /\
  broadcasts_at_most 0
    (TestStakeTransactions.test_stake (Node := Node) contract_address account).
Proof.
  intros Hbal.
  unfold TestStakeTransactions.test_transfer, TestStakeTransactions.test_stake.
  unfold_calls.
  split;
    (apply (try_except_at_most 0 0); [|intros e; apply print_at_most]);
    (apply (bind_at_most 0 0); [apply print_at_most|]); intros _;
    (apply request_then_at_most; [intros r; reflexivity|]);
    intros nd b nd' Hcall;
    (replace (0 <? b) with false
       by (symmetry; apply Z.ltb_ge; eapply Hbal, Hcall));
    repeat quiet_step.
Qed.
End ScriptFacts.

(** X20. [test_stake_transactions] never lets an exception escape: from the
    balance check on, whatever the node answers or refuses and whether or
    not the account can sign, the script runs to its end and returns
    normally. *)
Theorem test_script_never_raises {Node : Type} `{LedgerClient Node}
    (contract_address : string) (account : Account) (w : world Node) :
  fst (TestStakeTransactions.test_stake_transactions contract_address
         account w) = Ok tt.
Proof.
  pose proof (script_never_raises contract_address account w) as Hok.
  destruct (fst (TestStakeTransactions.test_stake_transactions
                   contract_address account w)) as [[]|e];
    [reflexivity | discriminate Hok].
Qed.

(** X21. [test_stake_transactions] hands at most three transactions to
    broadcast in a run, at most one in each of its mint, transfer and stake
    blocks; the balance check and the final summary send none. *)
Theorem test_script_broadcasts_at_most_three {Node : Type}
    `{LedgerClient Node} (contract_address : string) (account : Account) :
  broadcasts_at_most 3
    (TestStakeTransactions.test_stake_transactions (Node := Node)
       contract_address account) /\
  broadcasts_at_most 1
    (TestStakeTransactions.test_mint (Node := Node) contract_address account) /\
  broadcasts_at_most 1
    (TestStakeTransactions.test_transfer (Node := Node)
       contract_address account) /\
  broadcasts_at_most 1
    (TestStakeTransactions.test_stake (Node := Node) contract_address account) /\
  broadcasts_at_most 0
    (TestStakeTransactions.check_balances (Node := Node) account) /\
  broadcasts_at_most 0
    (TestStakeTransactions.final_summary (Node := Node) account).
Proof.
  split; [apply script_at_most|]. split; [apply test_mint_at_most|].
  split; [apply test_transfer_at_most|]. split; [apply test_stake_at_most|].
  split; [apply check_balances_at_most | apply final_summary_at_most].
Qed.

(** X22. [test_stake_transactions] sends nothing it has no standing to
    send: against a node that never names the account as the contract's
    owner (compared without regard to letter case) the mint block broadcasts
    nothing, against a node that never reports a positive token balance the
    transfer and stake blocks broadcast nothing, and against a node that does
    both the whole script broadcasts nothing. *)
Theorem test_script_skips_what_it_cannot_do {Node : Type}
    `{LedgerClient Node} (contract_address : string) (account : Account) :
  ((forall nd o nd', call_owner nd = (Ok o, nd') ->
                     lower (address account) <> lower o) ->
   broadcasts_at_most 0
     (TestStakeTransactions.test_mint (Node := Node) contract_address account))
  /\
  ((forall nd b nd', call_balanceOf (address account) nd = (Ok b, nd') ->
                     b <= 0) ->
   broadcasts_at_most 0
     (TestStakeTransactions.test_transfer (Node := Node)
        contract_address account) /\
   broadcasts_at_most 0
     (TestStakeTransactions.test_stake (Node := Node)
        contract_address account)) /\
  ((forall nd o nd', call_owner nd = (Ok o, nd') ->
                     lower (address account) <> lower o) ->
   (forall nd b nd', call_balanceOf (address account) nd = (Ok b, nd') ->
                     b <= 0) ->
   broadcasts_at_most 0
     (TestStakeTransactions.test_stake_transactions (Node := Node)
        contract_address account)).
Proof.
  split; [apply test_mint_skipped|]. split; [apply test_transfer_skipped|].
  intros Hown Hbal.
  destruct (test_transfer_skipped contract_address account Hbal)
    as [Htransfer Hstake].
  unfold TestStakeTransactions.test_stake_transactions.
  apply (bind_at_most 0 0); [apply check_balances_at_most|]. intros checked.
  destruct checked; [|apply ret_at_most].
  apply (bind_at_most 0 0); [apply print_at_most|]. intros _.
  apply (bind_at_most 0 0); [apply test_mint_skipped, Hown|]. intros _.
  apply (bind_at_most 0 0); [exact Htransfer|]. intros _.
  apply (bind_at_most 0 0); [exact Hstake|]. intros _.
  apply (bind_at_most 0 0); [apply final_summary_at_most|]. intros _.
  apply print_at_most.
Qed.

Lemma test_script_skips_what_it_cannot_do_witness :
  broadcasts
    (trace (snd (TestStakeTransactions.test_stake_transactions
                   (Node := StrangerLedger.stranger) FakeLedger.STK
                   FakeLedger.alice StrangerLedger.start))) = [].
Proof.
  destruct (test_script_skips_what_it_cannot_do
              (Node := StrangerLedger.stranger) FakeLedger.STK FakeLedger.alice)
    as (_ & _ & Hall).
  destruct (Hall
              ltac:(intros nd o nd' [= <- _]; vm_compute; discriminate)
              ltac:(intros nd b nd' [= <- _]; lia)
              StrangerLedger.start) as (new & Htr & Hlen).
  change (trace StrangerLedger.start) with (@nil rpc) in Htr.
  rewrite app_nil_l in Htr. rewrite Htr.
  destruct (broadcasts new); [reflexivity | cbn in Hlen; lia].
Defined.

(** ** The owner-only methods of the interactor *)

(** X23. The interactor's owner-only methods ([mint_tokens],
    [set_reward_rate], [pause_contract], [unpause_contract]) are gated on
    the contract's owner. When formatting the first line raises, the method
    raises that exception with nothing printed and nothing asked of the
    node. Otherwise the method asks the contract for its owner: if the
    request raises, so does the method, with nothing sent; if the answer
    differs from the account's address, letter case aside, the method returns
    [None] having made that one request and no broadcast; if it matches, the
    contract function is bound to its argument, and the method either raises
    what the check of the argument raises, with no further request, or goes
    on exactly as [send_transaction] of that contract call with the default
    gas limit. *)
Theorem admin_methods_are_owner_gated {Node : Type} `{LedgerClient Node}
    (rt : StakeTokenExamples.runtime) (self : StakeTokenInteractor.self_)
    (m : StakeTokenExamples.admin_method) (w : world Node) :
  let run := StakeTokenExamples.run_admin rt self m w in
  let asked r :=
    trace w ++ [Call {| fn := "owner"; args := [] |} r] in
  match StakeTokenExamples.admin_banner_error rt m with
  | Some e => run = (Raise e, w)
  | None =>
      match call_owner (node w) with
      | (Ok o, nd') =>
          if bool_decide (lower (address (StakeTokenInteractor.account self))
                          = lower o) then
            exists w1,
              node w1 = nd' /\ trace w1 = asked (Ok (VStr o)) /\
              run = match StakeTokenExamples.abi_error rt
                            (StakeTokenExamples.admin_call m) with
                    | Some e => (Raise e, w1)
                    | None =>
                        StakeTokenInteractor.send_transaction self
                          (StakeTokenExamples.admin_call m) 200000 w1
                    end
          else
            fst run = Ok None /\ node (snd run) = nd' /\
            trace (snd run) = asked (Ok (VStr o))
      | (Raise e, nd') =>
          fst run = Raise e /\ trace (snd run) = asked (Raise e)
      end
  end.
Proof.
  cbv zeta. destruct w as [nd tr out]. cbn [node trace].
  destruct m;
    unfold StakeTokenExamples.run_admin, StakeTokenExamples.mint_tokens,
      StakeTokenExamples.set_reward_rate, StakeTokenExamples.pause_contract,
      StakeTokenExamples.unpause_contract, StakeTokenExamples.admin_call,
      StakeTokenExamples.admin_banner_error, StakeTokenExamples.fstring,
      StakeTokenExamples.contract_functions,
      functions_owner_call, request, print, bind, ret, raise, modify;
    cbn [node trace stdout];
    try (destruct (StakeTokenExamples.format_error rt _ _) as [e0|];
         [reflexivity|]);
    cbv beta iota; cbn [node trace stdout];
    destruct (call_owner nd) as [[o|e] nd']; cbn [map_result fst snd];
    try (split; reflexivity);
    (destruct (decide (lower (address (StakeTokenInteractor.account self))
                       = lower o)) as [Heq|Hne];
     [ rewrite (bool_decide_eq_true_2 _ Heq),
         (bool_decide_eq_false_2 (_ <> _)) by (intros Hn; apply Hn, Heq);
       destruct (StakeTokenExamples.abi_error rt _);
       eexists; (split; [|split; [|reflexivity]]); reflexivity
     | rewrite (bool_decide_eq_false_2 _ Hne),
         (bool_decide_eq_true_2 (_ <> _)) by exact Hne;
       repeat split ]).
Qed.

(** On the simulated runtime and node: the account ["0xA11CE"] passes for
    the owner ["0xa11ce"] and its [pause_contract] goes on as
    [send_transaction]; the account ["0xBAD"] does not and its [mint_tokens]
    returns [None] with nothing broadcast; minting 10^400 tokens raises
    [OverflowError] and leaves the world as it was; the owner setting the
    rate to -1 raises after the one request for the owner. *)
Lemma admin_methods_are_owner_gated_witness :
  (exists w1,
     StakeTokenExamples.run_admin (Node := FakeLedger.fake) FakeRuntime.python
       FakeLedger.interactor StakeTokenExamples.PauseContract
       (FakeLedger.start [])
     = StakeTokenInteractor.send_transaction FakeLedger.interactor
         {| fn := "pause"; args := [] |} 200000 w1) /\
  fst (StakeTokenExamples.run_admin (Node := FakeLedger.fake)
         FakeRuntime.python FakeLedger.keyless
         (StakeTokenExamples.MintTokens 500) (FakeLedger.start [])) = Ok None /\
  broadcasts
    (trace (snd (StakeTokenExamples.run_admin (Node := FakeLedger.fake)
                   FakeRuntime.python FakeLedger.keyless
                   (StakeTokenExamples.MintTokens 500)
                   (FakeLedger.start [])))) = [] /\
  StakeTokenExamples.run_admin (Node := FakeLedger.fake) FakeRuntime.python
    FakeLedger.interactor (StakeTokenExamples.MintTokens (10 ^ 400))
    (FakeLedger.start [])
  = (Raise OverflowError, FakeLedger.start []) /\
  exists w1,
    trace w1 = [Call {| fn := "owner"; args := [] |} (Ok (VStr "0xa11ce"))] /\
    StakeTokenExamples.run_admin (Node := FakeLedger.fake) FakeRuntime.python
      FakeLedger.interactor (StakeTokenExamples.SetRewardRate (-1))
      (FakeLedger.start [])
    = (Raise (MismatchedABI "setRewardRate"), w1).
Proof.
  pose proof (admin_methods_are_owner_gated (Node := FakeLedger.fake)
                FakeRuntime.python FakeLedger.interactor
                StakeTokenExamples.PauseContract
                (FakeLedger.start [])) as Hpass.
  pose proof (admin_methods_are_owner_gated (Node := FakeLedger.fake)
                FakeRuntime.python FakeLedger.keyless
                (StakeTokenExamples.MintTokens 500)
                (FakeLedger.start [])) as Hstop.
  pose proof (admin_methods_are_owner_gated (Node := FakeLedger.fake)
                FakeRuntime.python FakeLedger.interactor
                (StakeTokenExamples.MintTokens (10 ^ 400))
                (FakeLedger.start [])) as Hhuge.
  pose proof (admin_methods_are_owner_gated (Node := FakeLedger.fake)
                FakeRuntime.python FakeLedger.interactor
                (StakeTokenExamples.SetRewardRate (-1))
                (FakeLedger.start [])) as Hneg.
  cbv zeta in Hpass, Hstop, Hhuge, Hneg.
  change (StakeTokenExamples.admin_banner_error FakeRuntime.python
            StakeTokenExamples.PauseContract) with (@None exn) in Hpass.
  replace (StakeTokenExamples.admin_banner_error FakeRuntime.python
             (StakeTokenExamples.MintTokens 500)) with (@None exn) in Hstop
    by (vm_compute; reflexivity).
  replace (StakeTokenExamples.admin_banner_error FakeRuntime.python
             (StakeTokenExamples.MintTokens (10 ^ 400)))
    with (Some OverflowError) in Hhuge by (vm_compute; reflexivity).
  replace (StakeTokenExamples.admin_banner_error FakeRuntime.python
             (StakeTokenExamples.SetRewardRate (-1))) with (@None exn) in Hneg
    by (vm_compute; reflexivity).
  change (call_owner (node (FakeLedger.start [])))
    with (Ok "0xa11ce"%string, FakeLedger.node_with []) in Hpass, Hstop, Hneg.
  cbv beta iota in Hpass, Hstop, Hneg.
  rewrite bool_decide_eq_true_2 in Hpass by (vm_compute; reflexivity).
  rewrite bool_decide_eq_false_2 in Hstop by (vm_compute; discriminate).
  rewrite bool_decide_eq_true_2 in Hneg by (vm_compute; reflexivity).
  destruct Hpass as (w1 & _ & _ & Hrun). destruct Hstop as (Hnone & _ & Htr).
  destruct Hneg as (w2 & _ & Htr2 & Hrun2).
  replace (StakeTokenExamples.abi_error FakeRuntime.python
             (StakeTokenExamples.admin_call StakeTokenExamples.PauseContract))
    with (@None exn) in Hrun by (vm_compute; reflexivity).
  replace (StakeTokenExamples.abi_error FakeRuntime.python
             (StakeTokenExamples.admin_call
                (StakeTokenExamples.SetRewardRate (-1))))
    with (Some (MismatchedABI "setRewardRate")) in Hrun2
    by (vm_compute; reflexivity).
  split; [exists w1; exact Hrun|]. split; [exact Hnone|].
  split; [rewrite Htr; reflexivity|]. split; [exact Hhuge|].
  exists w2. split; [exact Htr2 | exact Hrun2].
Defined.

(** ** test_stake_transactions: what it sends *)

Lemma broadcast_in_broadcasts (t : list rpc) (stx : SignedTransaction)
    (reply : result Z) :
  In (SendRawTransaction stx reply) t -> In stx (broadcasts t).
Proof.
  induction t as [|entry rest IH]; [intros []|].
  intros [->|Hin]; [left; reflexivity|].
  specialize (IH Hin). unfold broadcasts in *. cbn.
  destruct entry; cbn; try exact IH. right. exact IH.
Qed.

Lemma sent_by_test_script_grows (addr : string) (t t' : list rpc)
    (tx : transaction) :
  (forall entry, In entry t -> In entry t') ->
  sent_by_test_script addr t tx -> sent_by_test_script addr t' tx.
Proof.
  intros Hsub [Hmint|[(b & Hin & Hb)|(b & Hin & Hb)]].
  - left. exact Hmint.
  - right. left. exists b. split; [apply Hsub, Hin | exact Hb].
  - right. right. exists b. split; [apply Hsub, Hin | exact Hb].
Qed.

Section SendsFacts.
Context {Node : Type} `{LedgerClient Node}.
Variable addr : string.

Lemma quiet_sends {A} (P : list rpc -> transaction -> Prop)
    (m : M (world Node) A) :
  broadcasts_at_most 0 m -> sends_only P m.
Proof.
  intros Hq w. destruct (Hq w) as (new & Htr & Hlen).
  exists new. split; [exact Htr|]. intros stx reply Hin.
  apply broadcast_in_broadcasts in Hin.
  destruct (broadcasts new); [destruct Hin | cbn in Hlen; lia].
Qed.

Lemma sends_weaken {A} (P Q : list rpc -> transaction -> Prop)
    (m : M (world Node) A) :
  (forall t tx, P t tx -> Q t tx) -> sends_only P m -> sends_only Q m.
Proof.
  intros HPQ Hm w. destruct (Hm w) as (new & Htr & Hall).
  exists new. split; [exact Htr|]. intros stx reply Hin.
  apply HPQ, (Hall stx reply Hin).
Qed.

Lemma bind_sends {A B} (P : list rpc -> transaction -> Prop)
    (m : M (world Node) A) (k : A -> M (world Node) B) :
  (forall t t' tx, (forall entry, In entry t -> In entry t') ->
                   P t tx -> P t' tx) ->
  sends_only P m -> (forall a, sends_only P (k a)) ->
  sends_only P (bind m k).
Proof.
  intros Hgrow Hm Hk w. destruct (Hm w) as (new1 & Htr1 & Hall1).
  unfold bind. destruct (m w) as [[a|e] w1]; cbn [fst snd] in *.
  - destruct (Hk a w1) as (new2 & Htr2 & Hall2).
    exists (new1 ++ new2). split.
    + rewrite Htr2, Htr1. symmetry. apply app_assoc.
    + intros stx reply Hin. apply in_app_or in Hin as [Hin|Hin].
      * eapply Hgrow; [|apply (Hall1 stx reply Hin)].
        intros entry He. apply in_or_app. left. exact He.
      * eapply Hgrow; [|apply (Hall2 stx reply Hin)].
        intros entry He. apply in_or_app. right. exact He.
  - exists new1. split; assumption.
Qed.

Lemma try_except_sends {A} (P : list rpc -> transaction -> Prop)
    (body : M (world Node) A) (handler : exn -> M (world Node) A) :
  (forall t t' tx, (forall entry, In entry t -> In entry t') ->
                   P t tx -> P t' tx) ->
  sends_only P body -> (forall e, broadcasts_at_most 0 (handler e)) ->
  sends_only P (try_except body handler).
Proof.
  intros Hgrow Hm Hk w. destruct (Hm w) as (new1 & Htr1 & Hall1).
  unfold try_except. destruct (body w) as [[a|e] w1]; cbn [fst snd] in *.
  - exists new1. split; assumption.
  - destruct (quiet_sends P _ (Hk e) w1) as (new2 & Htr2 & Hall2).
    exists (new1 ++ new2). split.
    + rewrite Htr2, Htr1. symmetry. apply app_assoc.
    + intros stx reply Hin. apply in_app_or in Hin as [Hin|Hin].
      * eapply Hgrow; [|apply (Hall1 stx reply Hin)].
        intros entry He. apply in_or_app. left. exact He.
      * eapply Hgrow; [|apply (Hall2 stx reply Hin)].
        intros entry He. apply in_or_app. right. exact He.
Qed.

(** The balance query, followed by a piece whose broadcasts depend on the
    balance reported. *)
Lemma balance_then_sends {B} (Q : Z -> transaction -> Prop)
    (k : Z -> M (world Node) B) :
  (forall b, sends_only (fun _ tx => Q b tx) (k b)) ->
  sends_only (fun t tx => exists b, In (balance_reply addr b) t /\ Q b tx)
    (bind (functions_balanceOf_call addr) k).
Proof.
  intros Hk w. unfold bind, functions_balanceOf_call, request.
  destruct (call_balanceOf addr (node w)) as [[b|e] nd'].
  - match goal with
    | |- context [k b ?w1] =>
        destruct (Hk b w1) as (new2 & Htr2 & Hall2)
    end.
    cbn [trace map_result] in *.
    eexists (_ :: new2). split.
    + rewrite Htr2, <- app_assoc. reflexivity.
    + intros stx reply [Hin|Hin]; [discriminate Hin|].
      exists b. split; [left; reflexivity | apply (Hall2 stx reply Hin)].
  - eexists [_]. split; [reflexivity|].
    intros stx reply [Hin|[]]. discriminate Hin.
Qed.

Lemma submit_sends contract_address account what fc gas_ :
  sends_only (fun _ tx => tx_data tx = fc /\ gas tx = gas_)
    (TestStakeTransactions.submit (Node := Node) contract_address account
       what fc gas_).
Proof.
  intros w. destruct w as [n tr out0].
  unfold TestStakeTransactions.submit, eth_get_transaction_count,
    eth_gas_price, eth_send_raw_transaction,
    eth_wait_for_transaction_receipt, request, print, lift, bind, ret, modify.
  cbn [node trace stdout].
  destruct (get_transaction_count (address account) n) as [[c|e] n1];
    cbn [node trace stdout fst snd].
  2:{ eexists. split; [reflexivity|]. intros stx reply Hin. cbn in Hin.
      repeat (destruct Hin as [Hin|Hin]; try discriminate Hin). contradiction. }
  destruct (gas_price n1) as [[p|e] n2]; cbn [node trace stdout fst snd].
  2:{ eexists. rewrite <- app_assoc. split; [reflexivity|].
      intros stx reply Hin. cbn in Hin.
      repeat (destruct Hin as [Hin|Hin]; try discriminate Hin). contradiction. }
  destruct (sign_transaction _ _) as [stx0|e] eqn:Hsign.
  2:{ eexists. rewrite <- app_assoc. split; [reflexivity|].
      intros stx reply Hin. cbn in Hin.
      repeat (destruct Hin as [Hin|Hin]; try discriminate Hin). contradiction. }
  apply sign_transaction_raw in Hsign.
  destruct (send_raw_transaction stx0 n2) as [[h|e] n3];
    cbn [node trace stdout fst snd].
  2:{ eexists. rewrite <- !app_assoc. split; [reflexivity|].
      intros stx reply Hin. cbn in Hin.
      repeat (destruct Hin as [Hin|Hin]; try discriminate Hin);
        try contradiction.
      injection Hin as <- _. rewrite Hsign. split; reflexivity. }
  destruct (wait_for_transaction_receipt h 300 n3) as [r n4];
    cbn [node trace stdout fst snd].
  eexists. rewrite <- !app_assoc. split; [reflexivity|].
  intros stx reply Hin. cbn in Hin.
  repeat (destruct Hin as [Hin|Hin]; try discriminate Hin);
    try contradiction.
  injection Hin as <- _. rewrite Hsign. split; reflexivity.
Qed.
End SendsFacts.

Section BlockFacts.
Context {Node : Type} `{LedgerClient Node}.

(** A submission followed by lines that send nothing. *)
Lemma submit_then_sends {B} contract_address account what fc gas_
    (k : receipt -> M (world Node) B) :
  (forall rc, broadcasts_at_most 0 (k rc)) ->
  sends_only (fun _ tx => tx_data tx = fc /\ gas tx = gas_)
    (bind (TestStakeTransactions.submit contract_address account what fc gas_)
          k).
Proof.
  intros Hk. apply bind_sends.
  - intros t t' tx _ Hp. exact Hp.
  - apply submit_sends.
  - intros rc. apply quiet_sends, Hk.
Qed.

Ltac quiet_lines :=
  repeat first
    [ apply ret_at_most
    | apply print_at_most
    | apply request_at_most; intros ?; reflexivity
    | apply (bind_at_most 0 0); [|intros ?]
    | match goal with
      | |- broadcasts_at_most 0 (if ?c then _ else _) => destruct c
      end ].

Lemma test_mint_sends contract_address account :
  sends_only (sent_by_test_script (address account))
    (TestStakeTransactions.test_mint (Node := Node) contract_address account).
Proof.
  unfold TestStakeTransactions.test_mint.
  apply try_except_sends;
    [apply sent_by_test_script_grows | | intros e; apply print_at_most].
  apply bind_sends;
    [apply sent_by_test_script_grows | apply quiet_sends, print_at_most|].
  intros _. apply bind_sends; [apply sent_by_test_script_grows | |].
  { apply quiet_sends. unfold functions_owner_call.
    apply request_at_most. intros r. reflexivity. }
  intros owner. destruct (bool_decide _).
  - cbv zeta. eapply sends_weaken; [|apply submit_then_sends].
    + intros t tx Hp. left. exact Hp.
    + intros rc. quiet_lines.
  - apply quiet_sends. quiet_lines.
Qed.

Lemma test_transfer_sends contract_address account :
  sends_only (sent_by_test_script (address account))
    (TestStakeTransactions.test_transfer (Node := Node)
       contract_address account).
Proof.
  unfold TestStakeTransactions.test_transfer.
  apply try_except_sends;
    [apply sent_by_test_script_grows | | intros e; apply print_at_most].
  apply bind_sends;
    [apply sent_by_test_script_grows | apply quiet_sends, print_at_most|].
  intros _.
  eapply sends_weaken;
    [|apply (balance_then_sends (address account)
               (fun b tx =>
                  0 < b /\
                  tx_data tx
                  = {| fn := "transfer";
                       args := [VStr "0x0000000000000000000000000000000000000001";
                                VInt (Z.min (100 * 10 ^ 18) (b / 2))] |} /\
                  gas tx = 100000))].
  - intros t tx (b & Hin & Hpos & Hdata & Hgas).
    right. left. exists b. repeat split; assumption.
  - intros b. destruct (Z.ltb_spec 0 b) as [Hpos|Hnon].
    + cbv zeta. eapply sends_weaken; [|apply submit_then_sends].
      * intros t tx [Hdata Hgas]. repeat split; assumption.
      * intros rc. quiet_lines.
    + apply quiet_sends. quiet_lines.
Qed.

Lemma test_stake_sends contract_address account :
  sends_only (sent_by_test_script (address account))
    (TestStakeTransactions.test_stake (Node := Node) contract_address account).
Proof.
  unfold TestStakeTransactions.test_stake.
  apply try_except_sends;
    [apply sent_by_test_script_grows | | intros e; apply print_at_most].
  apply bind_sends;
    [apply sent_by_test_script_grows | apply quiet_sends, print_at_most|].
  intros _.
  eapply sends_weaken;
    [|apply (balance_then_sends (address account)
               (fun b tx =>
                  0 < b /\
                  tx_data tx
                  = {| fn := "stake";
                       args := [VInt (Z.min (50 * 10 ^ 18) (b / 4))] |} /\
                  gas tx = 150000))].
  - intros t tx (b & Hin & Hpos & Hdata & Hgas).
    right. right. exists b. repeat split; assumption.
  - intros b. destruct (Z.ltb_spec 0 b) as [Hpos|Hnon].
    + cbv zeta. eapply sends_weaken; [|apply submit_then_sends].
      * intros t tx [Hdata Hgas]. repeat split; assumption.
      * intros rc. unfold functions_stakedBalance_call. quiet_lines.
    + apply quiet_sends. quiet_lines.
Qed.

Lemma script_sends contract_address account :
  sends_only (sent_by_test_script (address account))
    (TestStakeTransactions.test_stake_transactions (Node := Node)
       contract_address account).
Proof.
  unfold TestStakeTransactions.test_stake_transactions.
  apply bind_sends; [apply sent_by_test_script_grows | |].
  { apply quiet_sends, check_balances_at_most. }
  intros checked. destruct checked; [|apply quiet_sends, ret_at_most].
  apply bind_sends;
    [apply sent_by_test_script_grows | apply quiet_sends, print_at_most|].
  intros _.
  apply bind_sends; [apply sent_by_test_script_grows | apply test_mint_sends|].
  intros _.
  apply bind_sends;
    [apply sent_by_test_script_grows | apply test_transfer_sends|].
  intros _.
  apply bind_sends; [apply sent_by_test_script_grows | apply test_stake_sends|].
  intros _.
  apply bind_sends; [apply sent_by_test_script_grows | |].
  { apply quiet_sends, final_summary_at_most. }
  intros _. apply quiet_sends, print_at_most.
Qed.
End BlockFacts.

(** X24. Whatever the node answers, the only transactions
    [test_stake_transactions] ever hands to broadcast are the mint of 1000
    tokens (gas limit 200000), a transfer to the test recipient of half a
    positive token balance the node reported, capped at 100 tokens (gas limit
    100000), and a stake of a quarter of a reported positive balance, capped
    at 50 tokens (gas limit 150000); so a transfer never exceeds half, and a
    stake a quarter, of a balance the node reported. *)
Theorem test_script_sends_bounded_amounts {Node : Type} `{LedgerClient Node}
    (contract_address : string) (account : Account) (w : world Node) :
  exists new,
    trace (snd (TestStakeTransactions.test_stake_transactions
                  contract_address account w)) = trace w ++ new /\
    forall stx reply,
      In (SendRawTransaction stx reply) new ->
      sent_by_test_script (address account) new (raw_transaction stx).
Proof. apply script_sends. Qed.

Lemma test_script_sends_bounded_amounts_witness :
  exists stx,
    In (SendRawTransaction stx (Ok 4097))
       (trace (snd (TestStakeTransactions.test_stake_transactions
                      (Node := FakeLedger.fake) FakeLedger.STK FakeLedger.alice
                      (FakeLedger.start [])))) /\
    sent_by_test_script "0xA11CE"
      (trace (snd (TestStakeTransactions.test_stake_transactions
                     (Node := FakeLedger.fake) FakeLedger.STK FakeLedger.alice
                     (FakeLedger.start []))))
      (raw_transaction stx) /\
    tx_data (raw_transaction stx)
    = {| fn := "transfer";
         args := [VStr "0x0000000000000000000000000000000000000001";
                  VInt (100 * 10 ^ 18)] |}.
Proof.
  destruct (test_script_sends_bounded_amounts (Node := FakeLedger.fake)
              FakeLedger.STK FakeLedger.alice (FakeLedger.start []))
    as (new & Htr & Hall).
  change (trace (FakeLedger.start [])) with (@nil rpc) in Htr.
  rewrite app_nil_l in Htr.
  assert (Hin : exists stx,
             In (SendRawTransaction stx (Ok 4097)) new /\
             tx_data (raw_transaction stx)
             = {| fn := "transfer";
                  args := [VStr "0x0000000000000000000000000000000000000001";
                           VInt (100 * 10 ^ 18)] |}).
  { rewrite <- Htr. vm_compute. eexists. split.
    - repeat first [left; reflexivity | right].
    - reflexivity. }
  destruct Hin as (stx & Hin & Hdata). exists stx. rewrite Htr.
  split; [exact Hin|]. split; [apply (Hall stx _ Hin) | exact Hdata].
Defined.

(** ** The interactor's methods open to any account *)

Section OpenMethods.
Context {Node : Type} `{LedgerClient Node}.
Variable rt : StakeTokenExamples.runtime.

Lemma print_then_send_transaction (self : StakeTokenInteractor.self_)
    (o : output) (fc : function_call) (w : world Node) :
  exists new,
    trace (snd ((print o ;;
                 StakeTokenInteractor.send_transaction self fc 200000) w))
    = trace w ++ new /\
    (forall fc' r, ~ In (Call fc' r) new) /\
    (length (broadcasts new) <= 1)%nat /\
    forall stx reply,
      In (SendRawTransaction stx reply) new ->
      tx_data (raw_transaction stx) = fc /\ gas (raw_transaction stx) = 200000.
Proof.
  unfold bind at 1. unfold print, modify. cbn [fst snd].
  destruct (send_transaction_submission self fc 200000
              {| node := node w; trace := trace w; stdout := stdout w ++ [o] |})
    as (new & out & Htr & _ & Hsub).
  exists new. split; [exact Htr|]. cbn [trace] in Htr.
  split; [|split; [eapply submission_broadcasts_once, Hsub|]].
  - intros fc' r Hin. destruct Hsub; cbn in Hin;
      repeat (destruct Hin as [Hin|Hin]; try discriminate Hin); contradiction.
  - intros stx reply Hin.
    destruct Hsub as [e|c e|c p e Hs|c p stx' e Hs|c p stx' h e Hs
                     |c p stx' h rc Hs Hst|c p stx' h rc Hs Hst];
      cbn in Hin;
      repeat (destruct Hin as [Hin|Hin]; try discriminate Hin);
      try contradiction;
      injection Hin as <- _; apply sign_transaction_raw in Hs;
      rewrite Hs; split; reflexivity.
Qed.

(** The common shape of [transfer_tokens], [stake_tokens] and
    [unstake_tokens]: format the line, print it, bind the contract function,
    send. *)
Lemma open_method_sends (self : StakeTokenInteractor.self_) (spec : string)
    (n : Z) (o : output) (fn_ : string) (args_ : list value)
    (w : world Node) :
  let m :=
    (StakeTokenExamples.fstring rt spec n ;;
     print o ;;
     function_call <- StakeTokenExamples.contract_functions rt fn_ args_ ;;
     StakeTokenInteractor.send_transaction self function_call 200000) in
  (exists new,
     trace (snd (m w)) = trace w ++ new /\
     (forall fc' r, ~ In (Call fc' r) new) /\
     (length (broadcasts new) <= 1)%nat /\
     forall stx reply,
       In (SendRawTransaction stx reply) new ->
       tx_data (raw_transaction stx) = {| fn := fn_; args := args_ |} /\
       gas (raw_transaction stx) = 200000) /\
  (forall e, StakeTokenExamples.format_error rt spec n = Some e ->
             m w = (Raise e, w)) /\
  (forall e, StakeTokenExamples.format_error rt spec n = None ->
             StakeTokenExamples.abi_error rt {| fn := fn_; args := args_ |}
             = Some e ->
             fst (m w) = Raise e /\ trace (snd (m w)) = trace w).
Proof.
  cbv zeta.
  assert (Hquiet : forall t : list rpc, exists new : list rpc,
             t = t ++ new /\
             (forall fc' r, ~ In (Call fc' r) new) /\
             (length (broadcasts new) <= 1)%nat /\
             forall stx reply,
               In (SendRawTransaction stx reply) new ->
               tx_data (raw_transaction stx) = {| fn := fn_; args := args_ |} /\
               gas (raw_transaction stx) = 200000).
  { intros t. exists []. split; [symmetry; apply app_nil_r|].
    split; [intros fc' r []|]. split; [cbn; lia|]. intros stx reply []. }
  unfold StakeTokenExamples.fstring, StakeTokenExamples.contract_functions.
  destruct (StakeTokenExamples.format_error rt spec n) as [e1|].
  { split; [apply Hquiet|]. split; [|discriminate].
    intros e [= <-]. reflexivity. }
  destruct (StakeTokenExamples.abi_error rt {| fn := fn_; args := args_ |})
    as [e2|].
  { split; [apply Hquiet|]. split; [discriminate|].
    intros e _ [= <-]. split; reflexivity. }
  split; [|split; discriminate].
  apply (print_then_send_transaction self o {| fn := fn_; args := args_ |} w).
Qed.

End OpenMethods.

(** X25. [transfer_tokens], [stake_tokens] and [unstake_tokens] make no
    owner check: for a whole number of tokens, each asks nothing of the
    contract, hands at most one transaction to broadcast, and that
    transaction carries the contract call with the amount converted to the
    token's smallest unit (times 10^18) and the default gas limit. When
    formatting the amount for the first line raises, the method raises that
    exception with nothing printed and no request made; when the check of
    the arguments of the contract call raises, the method raises that
    exception with no request made. *)
Theorem open_methods_send_scaled_amount {Node : Type} `{LedgerClient Node}
    (rt : StakeTokenExamples.runtime) (self : StakeTokenInteractor.self_)
    (to_address : string) (amount_tokens : Z) (w : world Node) :
  let sends (m : M (world Node) (option Z)) (fc : function_call) :=
    (exists new,
       trace (snd (m w)) = trace w ++ new /\
       (forall fc' r, ~ In (Call fc' r) new) /\
       (length (broadcasts new) <= 1)%nat /\
       forall stx reply,
         In (SendRawTransaction stx reply) new ->
         tx_data (raw_transaction stx) = fc /\
         gas (raw_transaction stx) = 200000) /\
    (forall e,
       StakeTokenExamples.format_error rt ",.2f" amount_tokens = Some e ->
       m w = (Raise e, w)) /\
    (forall e,
       StakeTokenExamples.format_error rt ",.2f" amount_tokens = None ->
       StakeTokenExamples.abi_error rt fc = Some e ->
       fst (m w) = Raise e /\ trace (snd (m w)) = trace w) in
  sends (StakeTokenExamples.transfer_tokens rt self to_address amount_tokens)
        {| fn := "transfer";
           args := [VStr to_address; VInt (amount_tokens * 10 ^ 18)] |} /\
  sends (StakeTokenExamples.stake_tokens rt self amount_tokens)
        {| fn := "stake"; args := [VInt (amount_tokens * 10 ^ 18)] |} /\
  sends (StakeTokenExamples.unstake_tokens rt self amount_tokens)
        {| fn := "unstake"; args := [VInt (amount_tokens * 10 ^ 18)] |}.
Proof.
  cbv zeta. split; [|split].
  - apply (open_method_sends rt self ",.2f" amount_tokens
             (Info "Transferring STK" [VInt amount_tokens; VStr to_address])
             "transfer" [VStr to_address; VInt (amount_tokens * 10 ^ 18)] w).
  - apply (open_method_sends rt self ",.2f" amount_tokens
             (Info "Staking STK tokens..." [VInt amount_tokens])
             "stake" [VInt (amount_tokens * 10 ^ 18)] w).
  - apply (open_method_sends rt self ",.2f" amount_tokens
             (Info "Unstaking STK tokens..." [VInt amount_tokens])
             "unstake" [VInt (amount_tokens * 10 ^ 18)] w).
Qed.

(** On the simulated runtime and node: staking 10^400 tokens raises
    [OverflowError] and leaves the world as it was; staking 50 tokens
    broadcasts the stake of 50 * 10^18. *)
Lemma open_methods_send_scaled_amount_witness :
  StakeTokenExamples.stake_tokens (Node := FakeLedger.fake) FakeRuntime.python
    FakeLedger.interactor (10 ^ 400) (FakeLedger.start [])
  = (Raise OverflowError, FakeLedger.start []) /\
  exists stx,
    In (SendRawTransaction stx (Ok 4096))
       (trace (snd (StakeTokenExamples.stake_tokens (Node := FakeLedger.fake)
                      FakeRuntime.python FakeLedger.interactor 50
                      (FakeLedger.start [])))) /\
    tx_data (raw_transaction stx)
    = {| fn := "stake"; args := [VInt (50 * 10 ^ 18)] |}.
Proof.
  destruct (open_methods_send_scaled_amount (Node := FakeLedger.fake)
              FakeRuntime.python FakeLedger.interactor "0xdEaD" (10 ^ 400)
              (FakeLedger.start [])) as (_ & (_ & Hhuge & _) & _).
  destruct (open_methods_send_scaled_amount (Node := FakeLedger.fake)
              FakeRuntime.python FakeLedger.interactor "0xdEaD" 50
              (FakeLedger.start [])) as (_ & ((new & Htr & _ & _ & Hall) & _) & _).
  split; [apply Hhuge; vm_compute; reflexivity|].
  change (trace (FakeLedger.start [])) with (@nil rpc) in Htr.
  rewrite app_nil_l in Htr.
  assert (Hin : exists stx, In (SendRawTransaction stx (Ok 4096)) new).
  { rewrite <- Htr. vm_compute. eexists.
    repeat first [left; reflexivity | right]. }
  destruct Hin as (stx & Hin). exists stx. rewrite Htr.
  split; [exact Hin | apply (Hall stx _ Hin)].
Defined.
